(** * SmartFridge data service: schemas, persistent store and queries

    A shallow embedding of [src/types/index.ts] (the zod schemas and the
    error classes), of the class [FridgeDatabaseService] of
    [src/services/database.ts], and of the two adapters in front of it (the
    item routes of [src/http-server.ts], the [addfooditem] tool of
    [src/mcp-server.ts]), followed by the properties of the persistent
    store that the specification states and by further properties of the
    code.

    Conventions of the embedding:
    - a JavaScript value is a term of [value]; an object is the list of its
      own properties in insertion order, a later binding of a key shadowing
      an earlier one (which is what object spread does);
    - a number is a rational: every finite double is one, and neither JSON
      nor the schemas admit [NaN];
    - an asynchronous method is a function of the state monad [M]: the
      state holds the three files of the data directory, the [database]
      field of the service, the clock and the identifier generator; an
      exception is the [Thrown] outcome, and the state reached at the
      [throw] is kept, as in JavaScript (nothing is rolled back);
    - the library functions whose exact behaviour depends on the platform
      (ICU collation, zod's patterns, date formatting, the offset of local
      time) are the fields of
      the class [Runtime]; theorems hold for every instance. *)

From Stdlib Require Import ZArith QArith String Ascii List Lia.
From stdpp Require Import base option list strings.

Set Warnings "-register-all,-clear-no-such-hyp".

Local Close Scope Q_scope.
Local Open Scope Z_scope.
Local Open Scope string_scope.
Local Open Scope list_scope.

(** ** JavaScript values *)

Inductive value : Type :=
| VUndefined
| VNull
| VBool (b : bool)
| VNum (q : Q)
| VStr (s : string)
| VArr (elems : list value)
| VObj (props : list (string * value)).

(** [!!v] is [true]: the value is truthy. *)
Definition truthy (v : value) : bool :=
  match v with
  | VUndefined | VNull => false
  | VBool b => b
  | VNum q => negb (Qeq_bool q (0 # 1))
  | VStr s => negb (String.eqb s "")
  | VArr _ | VObj _ => true
  end.

(** The binding of [k] among own properties: the last one written wins. *)
Fixpoint own_prop (k : string) (props : list (string * value)) : option value :=
  match props with
  | [] => None
  | (k', v) :: rest =>
      match own_prop k rest with
      | Some w => Some w
      | None => if String.eqb k k' then Some v else None
      end
  end.

(** [v.k] for a [v] that is neither [null] nor [undefined]; the keys read by
    the service ([items], [version], the schema fields) are own properties
    of objects only. *)
Definition get (k : string) (v : value) : value :=
  match v with
  | VObj props => default VUndefined (own_prop k props)
  | _ => VUndefined
  end.

(** [Array.isArray] *)
Definition isArray (v : value) : bool :=
  match v with VArr _ => true | _ => false end.

(** The own enumerable properties that [{...v}] copies, as far as the
    schemas can see them: spreading a string or an array only adds index
    keys, spreading any other primitive adds nothing. *)
Definition spread (v : value) : list (string * value) :=
  match v with VObj props => props | _ => [] end.

Definition is_integer (q : Q) : bool :=
  (Qnum q mod Zpos (Qden q) =? 0)%Z.

Definition VInt (z : Z) : value := VNum (inject_Z z).

(** ** Platform functions *)

Class Runtime := {
  (** [String.prototype.toLowerCase] *)
  toLowerCase : string → string;
  (** [String.prototype.localeCompare]: negative, zero or positive *)
  localeCompare : string → string → Z;
  (** the pattern behind zod's [.uuid()] *)
  is_uuid : string → bool;
  (** the pattern behind zod's [.datetime()] *)
  is_datetime : string → bool;
  (** [Date.prototype.toISOString] of a time value in milliseconds *)
  toISOString : Z → string;
  (** the time value of [new Date(s)]; [None] is an Invalid Date *)
  Date_parse : string → option Z;
  (** [LocalTZA(t, isUTC)], the offset of local time from UTC in
      milliseconds: the one in force at the UTC time value [t] when [isUTC]
      is [true], at the local time value [t] when it is [false] *)
  LocalTZA : Z → bool → Z
}.

(** [String.prototype.includes] *)
Fixpoint includes (s sub : string) : bool :=
  String.prefix sub s ||
  match s with
  | EmptyString => false
  | String _ rest => includes rest sub
  end.

(** ** Errors ([src/types/index.ts], zod, Node) *)

Inductive ZodIssueCode := invalid_type | too_small | invalid_string.

Record ZodIssue := {
  code : ZodIssueCode;
  path : list string;
  message : string
}.

Inductive Error : Type :=
| ZodError (issues : list ZodIssue)
| ValidationError (msg : string) (issues : option (list ZodIssue))
| NotFoundError (msg : string)
| DatabaseError (msg : string) (originalError : option Error)
| TypeError (msg : string)
| SyntaxError (msg : string)
| PlainError (msg : string)
| SystemError (errno : string).

(** [error instanceof ValidationError] *)
Definition instanceof_ValidationError (e : Error) : bool :=
  match e with ValidationError _ _ => true | _ => false end.

Definition instanceof_DatabaseError (e : Error) : bool :=
  match e with DatabaseError _ _ => true | _ => false end.

(** ** zod: the fragment the schemas use

    A schema maps the path and the value to the issues it raises; an object
    schema visits every key of its shape and concatenates the issues, so a
    failure reports all violated constraints. Messages without an explicit
    text in the source are zod's defaults. *)

Definition zod_type (v : value) : string :=
  match v with
  | VUndefined => "undefined"
  | VNull => "null"
  | VBool _ => "boolean"
  | VNum _ => "number"
  | VStr _ => "string"
  | VArr _ => "array"
  | VObj _ => "object"
  end.

Definition invalid_type_issue (expected : string) (p : list string) (v : value)
  : ZodIssue :=
  {| code := invalid_type; path := p;
     message := match v with
                | VUndefined => "Required"
                | _ => "Expected " +:+ expected +:+ ", received " +:+ zod_type v
                end |}.

Definition Schema := list string → value → list ZodIssue.
Definition Check (A : Type) := A → option (ZodIssueCode * string).

Definition run_checks {A} (checks : list (Check A)) (p : list string) (a : A)
  : list ZodIssue :=
  omap (λ c : Check A,
          (λ r : ZodIssueCode * string,
             {| code := r.1; path := p; message := r.2 |}) <$> c a) checks.

Definition z_string (checks : list (Check string)) : Schema :=
  λ p v, match v with
         | VStr s => run_checks checks p s
         | _ => [invalid_type_issue "string" p v]
         end.

Definition z_number (checks : list (Check Q)) : Schema :=
  λ p v, match v with
         | VNum q => run_checks checks p q
         | _ => [invalid_type_issue "number" p v]
         end.

Definition z_optional (inner : Schema) : Schema :=
  λ p v, match v with VUndefined => [] | _ => inner p v end.

Definition z_object (shape : list (string * Schema)) : Schema :=
  λ p v, match v with
         | VObj _ => flat_map (λ f : string * Schema, f.2 (p ++ [f.1]) (get f.1 v)) shape
         | _ => [invalid_type_issue "object" p v]
         end.

Definition min_length_1 (msg : string) : Check string :=
  λ s, if String.eqb s "" then Some (too_small, msg) else None.

Definition int_check : Check Q :=
  λ q, if is_integer q then None
       else Some (invalid_type, "Expected integer, received float").

Definition min_check (k : Z) (msg : string) : Check Q :=
  λ q, if Qle_bool (inject_Z k) q then None else Some (too_small, msg).

Section Schemas.
Context {platform : Runtime}.

Definition uuid_check : Check string :=
  λ s, if is_uuid s then None else Some (invalid_string, "Invalid uuid").

Definition datetime_check : Check string :=
  λ s, if is_datetime s then None else Some (invalid_string, "Invalid datetime").

(** [FoodItemSchema] *)
Definition FoodItemSchema : Schema :=
  z_object
    [ ("id", z_string [uuid_check]);
      ("name", z_string [min_length_1 "Name is required"]);
      ("quantity", z_number [int_check; min_check 0 "Quantity must be non-negative"]);
      ("unit", z_string [min_length_1 "Unit is required"]);
      ("expirationDate", z_optional (z_string [datetime_check]));
      ("category", z_optional (z_string []));
      ("location", z_optional (z_string []));
      ("notes", z_optional (z_string []));
      ("addedDate", z_string [datetime_check]);
      ("lastModified", z_string [datetime_check]) ].

(** [AddFoodItemRequestSchema] *)
Definition AddFoodItemRequestSchema : Schema :=
  z_object
    [ ("name", z_string [min_length_1 "Name is required"]);
      ("quantity", z_number [int_check; min_check 1 "Quantity must be positive"]);
      ("unit", z_string [min_length_1 "Unit is required"]);
      ("expirationDate", z_optional (z_string [datetime_check]));
      ("category", z_optional (z_string []));
      ("location", z_optional (z_string []));
      ("notes", z_optional (z_string [])) ].

End Schemas.

(** ** The typed records ([z.infer] of the schemas, [FridgeDatabase])

    What [Schema.parse] returns on success is the input stripped to the keys
    of the shape: exactly a record of the inferred type. *)

Definition as_string (v : value) : string :=
  match v with VStr s => s | _ => "" end.

Definition as_optional_string (v : value) : option string :=
  match v with VStr s => Some s | _ => None end.

Definition as_integer (v : value) : Z :=
  match v with VNum q => Qnum q / Zpos (Qden q) | _ => 0 end.

Definition optional_prop (k : string) (o : option string) : list (string * value) :=
  match o with Some s => [(k, VStr s)] | None => [] end.

Module AddFoodItemRequest.
Record t := {
  name : string;
  quantity : Z;
  unit : string;
  expirationDate : option string;
  category : option string;
  location : option string;
  notes : option string
}.

Definition of_value (v : value) : t :=
  {| name := as_string (get "name" v);
     quantity := as_integer (get "quantity" v);
     unit := as_string (get "unit" v);
     expirationDate := as_optional_string (get "expirationDate" v);
     category := as_optional_string (get "category" v);
     location := as_optional_string (get "location" v);
     notes := as_optional_string (get "notes" v) |}.

Definition props (r : t) : list (string * value) :=
  [("name", VStr (name r)); ("quantity", VInt (quantity r)); ("unit", VStr (unit r))]
  ++ optional_prop "expirationDate" (expirationDate r)
  ++ optional_prop "category" (category r)
  ++ optional_prop "location" (location r)
  ++ optional_prop "notes" (notes r).
End AddFoodItemRequest.

Module FoodItem.
Record t := {
  id : string;
  name : string;
  quantity : Z;
  unit : string;
  expirationDate : option string;
  category : option string;
  location : option string;
  notes : option string;
  addedDate : string;
  lastModified : string
}.

Definition of_value (v : value) : t :=
  {| id := as_string (get "id" v);
     name := as_string (get "name" v);
     quantity := as_integer (get "quantity" v);
     unit := as_string (get "unit" v);
     expirationDate := as_optional_string (get "expirationDate" v);
     category := as_optional_string (get "category" v);
     location := as_optional_string (get "location" v);
     notes := as_optional_string (get "notes" v);
     addedDate := as_string (get "addedDate" v);
     lastModified := as_string (get "lastModified" v) |}.

Definition props (it : t) : list (string * value) :=
  [("id", VStr (id it)); ("name", VStr (name it));
   ("quantity", VInt (quantity it)); ("unit", VStr (unit it))]
  ++ optional_prop "expirationDate" (expirationDate it)
  ++ optional_prop "category" (category it)
  ++ optional_prop "location" (location it)
  ++ optional_prop "notes" (notes it)
  ++ [("addedDate", VStr (addedDate it)); ("lastModified", VStr (lastModified it))].

Definition to_value (it : t) : value := VObj (props it).
End FoodItem.

Module FridgeDatabase.
(** [lastModified] and [version] hold whatever the file had under these
    keys until the service overwrites them. *)
Record t := {
  items : list FoodItem.t;
  lastModified : value;
  version : value
}.

Definition to_value (db : t) : value :=
  VObj [("items", VArr (FoodItem.to_value <$> items db));
        ("lastModified", lastModified db);
        ("version", version db)].

Definition with_items (l : list FoodItem.t) (db : t) : t :=
  {| items := l; lastModified := lastModified db; version := version db |}.

Definition with_lastModified (x : value) (db : t) : t :=
  {| items := items db; lastModified := x; version := version db |}.

Definition with_version (x : value) (db : t) : t :=
  {| items := items db; lastModified := lastModified db; version := x |}.
End FridgeDatabase.

Module ListFoodItemsRequest.
Record t := {
  category : option string;
  location : option string;
  expiringSoon : option bool;
  expiringSoonDays : option Z
}.

(** [{}] *)
Definition empty : t :=
  {| category := None; location := None;
     expiringSoon := None; expiringSoonDays := None |}.
End ListFoodItemsRequest.

Module Stats.
Record t := {
  totalItems : nat;
  categories : list string;
  locations : list string;
  expiringCount : nat;
  lastModified : value;
  version : value
}.
End Stats.

(** ** Outcomes, the file system and the state of the service *)

Inductive Outcome (A : Type) : Type :=
| Returned (a : A)
| Thrown (e : Error).
Arguments Returned {A} a.
Arguments Thrown {A} e.

(** [schema.parse(v)]: the typed output, or a [ZodError] with every issue. *)
Definition parse {A} (schema : Schema) (output : value → A) (v : value)
  : Outcome A :=
  match schema [] v with
  | [] => Returned (output v)
  | issues => Thrown (ZodError issues)
  end.

(** The text of a file: either something [JSON.parse] rejects, or the text
    of a JSON document, identified with the value [JSON.parse] returns for
    it (so [JSON.stringify] followed by [JSON.parse] is the identity). *)
Inductive content :=
| Malformed (text : string)
| Json (doc : value).

(** [this.dataPath], [this.backupPath] and [`${this.dataPath}.tmp`] *)
Inductive Path := dataPath | backupPath | tempPath.

Inductive Syscall :=
| sys_mkdir
| sys_readFile (p : Path)
| sys_access
| sys_copyFile
| sys_writeFile
| sys_rename.

(** The data directory: its three files ([None]: no such file) and the
    system calls that currently fail for a reason of the environment
    (permissions, a full disk, ...). *)
Record FileSystem := {
  dataFile : option content;
  backupFile : option content;
  tempFile : option content;
  faulty : Syscall → bool
}.

Definition file_at (p : Path) (fs : FileSystem) : option content :=
  match p with
  | dataPath => dataFile fs
  | backupPath => backupFile fs
  | tempPath => tempFile fs
  end.

Definition set_file (p : Path) (c : option content) (fs : FileSystem) : FileSystem :=
  match p with
  | dataPath =>
      {| dataFile := c; backupFile := backupFile fs;
         tempFile := tempFile fs; faulty := faulty fs |}
  | backupPath =>
      {| dataFile := dataFile fs; backupFile := c;
         tempFile := tempFile fs; faulty := faulty fs |}
  | tempPath =>
      {| dataFile := dataFile fs; backupFile := backupFile fs;
         tempFile := c; faulty := faulty fs |}
  end.

(** [this.database]: [null] and whatever [JSON.parse] returned are
    [Unchecked] values; once the structure check and the per-item filter of
    [loadDatabase] have run (or [createEmptyDatabase] made it) the envelope
    is [Loaded] and its items are records. The record view of an item keeps
    the ten keys of [FoodItemSchema]; other keys a file may carry are not
    tracked, no method reads them. *)
Inductive DatabaseField :=
| Unchecked (v : value)
| Loaded (db : FridgeDatabase.t).

Record State := {
  fs : FileSystem;
  database : DatabaseField;
  (** the time value the n-th [new Date()] yields, and how many were made *)
  clock : nat → Z;
  clock_reads : nat;
  (** what the n-th [uuidv4()] yields, and how many were made *)
  uuid_source : nat → string;
  uuid_calls : nat
}.

Definition with_fs (x : FileSystem) (s : State) : State :=
  {| fs := x; database := database s; clock := clock s;
     clock_reads := clock_reads s; uuid_source := uuid_source s;
     uuid_calls := uuid_calls s |}.

Definition with_database (x : DatabaseField) (s : State) : State :=
  {| fs := fs s; database := x; clock := clock s;
     clock_reads := clock_reads s; uuid_source := uuid_source s;
     uuid_calls := uuid_calls s |}.

(** ** The monad of the service methods *)

Definition M (A : Type) : Type := State → Outcome A * State.

Definition ret {A} (a : A) : M A := λ s, (Returned a, s).

Definition throw {A} (e : Error) : M A := λ s, (Thrown e, s).

Definition bind {A B} (m : M A) (k : A → M B) : M B :=
  λ s, match m s with
       | (Returned a, s') => k a s'
       | (Thrown e, s') => (Thrown e, s')
       end.

(** [try { body } catch (e) { handler }] *)
Definition try_catch {A} (body : M A) (handler : Error → M A) : M A :=
  λ s, match body s with
       | (Returned a, s') => (Returned a, s')
       | (Thrown e, s') => handler e s'
       end.

Definition lift {A} (o : Outcome A) : M A := λ s, (o, s).

Definition gets {A} (f : State → A) : M A := λ s, (Returned (f s), s).

Definition modify (f : State → State) : M () := λ s, (Returned (), f s).

Declare Scope js_scope.
Delimit Scope js_scope with js.
Notation "'let*' x ':=' m 'in' k" := (bind m (λ x, k))
  (at level 10, x name, m at level 100, k at level 200, only parsing) : js_scope.
Local Open Scope js_scope.

Definition tick (s : State) : State :=
  {| fs := fs s; database := database s; clock := clock s;
     clock_reads := S (clock_reads s); uuid_source := uuid_source s;
     uuid_calls := uuid_calls s |}.

Definition draw (s : State) : State :=
  {| fs := fs s; database := database s; clock := clock s;
     clock_reads := clock_reads s; uuid_source := uuid_source s;
     uuid_calls := S (uuid_calls s) |}.

(** [new Date()]: one reading of the clock *)
Definition new_Date : M Z :=
  λ s, (Returned (clock s (clock_reads s)), tick s).

Definition uuidv4 : M string :=
  λ s, (Returned (uuid_source s (uuid_calls s)), draw s).

(** *** [fs.promises]

    A call that fails leaves the files as they are; a call on a file that
    does not exist fails with ENOENT. *)

Definition syscall (c : Syscall) : M () :=
  λ s, if faulty (fs s) c then (Thrown (SystemError "EIO"), s)
       else (Returned (), s).

Definition existing (p : Path) : M content :=
  λ s, match file_at p (fs s) with
       | Some c => (Returned c, s)
       | None => (Thrown (SystemError "ENOENT"), s)
       end.

Definition mkdir : M () := syscall sys_mkdir.

Definition readFile (p : Path) : M content :=
  let* _ := syscall (sys_readFile p) in existing p.

Definition access (p : Path) : M () :=
  let* _ := syscall sys_access in
  let* _ := existing p in
  ret ().

Definition copyFile (src dst : Path) : M () :=
  let* _ := syscall sys_copyFile in
  let* c := existing src in
  modify (λ s, with_fs (set_file dst (Some c) (fs s)) s).

Definition writeFile (p : Path) (c : content) : M () :=
  let* _ := syscall sys_writeFile in
  modify (λ s, with_fs (set_file p (Some c) (fs s)) s).

Definition rename (src dst : Path) : M () :=
  let* _ := syscall sys_rename in
  let* c := existing src in
  modify (λ s, with_fs (set_file src None (set_file dst (Some c) (fs s))) s).

Definition JSON_parse (c : content) : M value :=
  match c with
  | Json v => ret v
  | Malformed _ => throw (SyntaxError "Unexpected token in JSON")
  end.

(** ** [FridgeDatabaseService] *)

(** [o.k = x] on the own properties of an object *)
Fixpoint assign (k : string) (x : value) (props : list (string * value))
  : list (string * value) :=
  match props with
  | [] => [(k, x)]
  | (k', v) :: rest =>
      if String.eqb k k' then (k, x) :: rest else (k', v) :: assign k x rest
  end.

(** The value [this.database] denotes. *)
Definition view (d : DatabaseField) : value :=
  match d with
  | Unchecked v => v
  | Loaded db => FridgeDatabase.to_value db
  end.

Definition elements (v : value) : list value :=
  match v with VArr l => l | _ => [] end.

(** [JSON.stringify(this.database, null, 2)] *)
Definition JSON_stringify (d : DatabaseField) : content := Json (view d).

Definition msPerDay : Z := 86400000.

(** The time values of a [Date] lie within 8.64e15 milliseconds of the
    epoch; [TimeClip] turns anything beyond into [NaN], the time value of
    an Invalid Date ([None]). *)
Definition maxTime : Z := 8640000000000000.

Definition TimeClip (t : Z) : option Z :=
  if (Z.abs t <=? maxTime)%Z then Some t else None.

Definition nonempty (s : string) : bool := negb (String.eqb s "").

(** Truthiness of an optional string argument or field: neither
    [undefined] nor the empty string. *)
Definition given (o : option string) : bool :=
  match o with Some s => nonempty s | None => false end.

(** [items.sort(cmp)]: a stable sort, [a] stays before [b] unless
    [cmp(a, b) > 0]. *)
Fixpoint insert_sorted {A} (cmp : A → A → Z) (x : A) (l : list A) : list A :=
  match l with
  | [] => [x]
  | y :: rest =>
      if (cmp x y <=? 0)%Z then x :: y :: rest else y :: insert_sorted cmp x rest
  end.

Definition sort {A} (cmp : A → A → Z) (l : list A) : list A :=
  foldr (insert_sorted cmp) [] l.

(** [[...new Set(l)]]: the first occurrence of each string, in order *)
Fixpoint distinct (l : list string) : list string :=
  match l with
  | [] => []
  | x :: rest => x :: List.filter (λ y, negb (String.eqb y x)) (distinct rest)
  end.

Section Service.
Context {platform : Runtime}.

Definition FoodItemSchema_parse : value → Outcome FoodItem.t :=
  parse FoodItemSchema FoodItem.of_value.

Definition AddFoodItemRequestSchema_parse : value → Outcome AddFoodItemRequest.t :=
  parse AddFoodItemRequestSchema AddFoodItemRequest.of_value.

(** The callback of the [filter] in [loadDatabase] keeps an item exactly
    when [FoodItemSchema.parse(item)] does not throw. *)
Definition passes_FoodItemSchema (v : value) : option FoodItem.t :=
  match FoodItemSchema_parse v with
  | Returned it => Some it
  | Thrown _ => None
  end.

(** [createEmptyDatabase] *)
Definition createEmptyDatabase : M FridgeDatabase.t :=
  let* now := new_Date in
  ret {| FridgeDatabase.items := [];
         FridgeDatabase.lastModified := VStr (toISOString now);
         FridgeDatabase.version := VStr "1.0.0" |}.

(** [this.database.lastModified = x]. Class bodies are strict code: the
    assignment throws on a primitive; on an array it adds a property that
    [JSON.stringify] does not print. *)
Definition assign_lastModified (x : value) : M () :=
  let* d := gets database in
  match d with
  | Loaded db =>
      modify (with_database (Loaded (FridgeDatabase.with_lastModified x db)))
  | Unchecked (VObj props) =>
      modify (with_database (Unchecked (VObj (assign "lastModified" x props))))
  | Unchecked (VArr _) => ret ()
  | Unchecked _ => throw (TypeError "Cannot create property 'lastModified'")
  end.

(** The first block of [saveDatabase]:
    [try { await fs.access(dataPath); await fs.copyFile(dataPath, backupPath) } catch {}] *)
Definition backup_primary : M () :=
  try_catch
    (let* _ := access dataPath in copyFile dataPath backupPath)
    (λ _, ret ()).

(** The last block of [saveDatabase]: write [tempPath], then rename it
    over [dataPath]. *)
Definition write_then_rename (c : content) : M () :=
  let* _ := writeFile tempPath c in
  rename tempPath dataPath.

(** [v == null]: reading a property of such a value throws. *)
Definition nullish (v : value) : bool :=
  match v with VUndefined | VNull => true | _ => false end.

(** The last statement of the [try] block of [saveDatabase],
    [logDebug('Database saved successfully', { itemCount:
    this.database.items.length })]: building its argument throws when
    [this.database.items] is [undefined] or [null]. *)
Definition items_length : M () :=
  let* d := gets database in
  if nullish (get "items" (view d))
  then throw (TypeError "Cannot read properties of undefined (reading 'length')")
  else ret ().

(** The body of [saveDatabase], [logged] being its last statement. *)
Definition save (logged : M ()) : M () :=
  let* d := gets database in
  if negb (truthy (view d)) then throw (DatabaseError "No database to save" None)
  else
    try_catch
      (let* _ := backup_primary in
       let* now := new_Date in
       let* _ := assign_lastModified (VStr (toISOString now)) in
       let* d' := gets database in
       let* _ := write_then_rename (JSON_stringify d') in
       logged)
      (λ error, throw (DatabaseError "Failed to save database" (Some error))).

(** [saveDatabase] *)
Definition saveDatabase : M () := save items_length.

(** The first block of [loadDatabase]: the primary file, else the backup
    (and the primary is rewritten from it), else an empty envelope (and it
    is written out). *)
Definition read_envelope : M () :=
  try_catch
    (let* data := readFile dataPath in
     let* v := JSON_parse data in
     modify (with_database (Unchecked v)))
    (λ _,
       try_catch
         (let* backupData := readFile backupPath in
          let* v := JSON_parse backupData in
          let* _ := modify (with_database (Unchecked v)) in
          saveDatabase)
         (λ _,
            let* db := createEmptyDatabase in
            let* _ := modify (with_database (Loaded db)) in
            saveDatabase)).

(** The envelope the structure check and the per-item filter leave:
    [this.database.items = this.database.items.filter(...)]. *)
Definition filtered (doc : value) : FridgeDatabase.t :=
  {| FridgeDatabase.items := omap passes_FoodItemSchema (elements (get "items" doc));
     FridgeDatabase.lastModified := get "lastModified" doc;
     FridgeDatabase.version := get "version" doc |}.

(** The rest of [loadDatabase]: structure check, per-item validation,
    default version. *)
Definition check_envelope : M () :=
  let* d := gets database in
  let doc := view d in
  if negb (truthy doc) || negb (isArray (get "items" doc))
  then throw (PlainError "Invalid database structure")
  else
    let db := filtered doc in
    let* _ := modify (with_database (Loaded db)) in
    if negb (truthy (FridgeDatabase.version db))
    then
      let* _ := modify (with_database
                          (Loaded (FridgeDatabase.with_version (VStr "1.0.0") db))) in
      saveDatabase
    else ret ().

(** [loadDatabase] *)
Definition loadDatabase : M () :=
  try_catch
    (let* _ := read_envelope in check_envelope)
    (λ error, throw (DatabaseError "Failed to load database" (Some error))).

(** [initialize] *)
Definition initialize : M () :=
  try_catch
    (let* _ := mkdir in loadDatabase)
    (λ error, throw (DatabaseError "Database initialization failed" (Some error))).

(** [if (!this.database) throw new DatabaseError('Database not initialized')] *)
Definition require_database : M () :=
  let* d := gets database in
  if negb (truthy (view d)) then throw (DatabaseError "Database not initialized" None)
  else ret ().

(** [this.database.items] as the receiver of an array method or of a
    spread. An [Unchecked] value that is still there when a method runs
    failed the structure check: it is falsy or has no array under [items],
    so [push], [findIndex], [find] and [map] are not functions of it and
    the call is a TypeError. (A spread also accepts a string; a data file
    whose [items] is a string is not followed further.) *)
Definition items_array : M (list FoodItem.t) :=
  let* d := gets database in
  match d with
  | Loaded db => ret (FridgeDatabase.items db)
  | Unchecked _ => throw (TypeError "this.database.items is not an array")
  end.

Definition set_items (l : list FoodItem.t) : M () :=
  modify (λ s, match database s with
               | Loaded db => with_database (Loaded (FridgeDatabase.with_items l db)) s
               | Unchecked _ => s
               end).

(** [{ id: uuidv4(), ...validatedRequest, addedDate: now, lastModified: now }] *)
Definition newItem (u : string) (validatedRequest : AddFoodItemRequest.t)
  (now : string) : value :=
  VObj ([("id", VStr u)]
        ++ AddFoodItemRequest.props validatedRequest
        ++ [("addedDate", VStr now); ("lastModified", VStr now)]).

(** [{ ...existingItem, ...updates, id: existingItem.id,
       addedDate: existingItem.addedDate, lastModified: now }] *)
Definition updatedItem (existingItem : FoodItem.t) (updates : value)
  (now : string) : value :=
  VObj (FoodItem.props existingItem
        ++ spread updates
        ++ [("id", VStr (FoodItem.id existingItem));
            ("addedDate", VStr (FoodItem.addedDate existingItem));
            ("lastModified", VStr now)]).

(** [addFoodItem] *)
Definition addFoodItem (request : value) : M FoodItem.t :=
  try_catch
    (let* validatedRequest := lift (AddFoodItemRequestSchema_parse request) in
     let* t := new_Date in
     let now := toISOString t in
     let* u := uuidv4 in
     let* validatedItem :=
       lift (FoodItemSchema_parse (newItem u validatedRequest now)) in
     let* _ := require_database in
     let* items := items_array in
     let* _ := set_items (items ++ [validatedItem]) in
     let* _ := saveDatabase in
     ret validatedItem)
    (λ error,
       if instanceof_ValidationError error then throw error
       else throw (DatabaseError "Failed to add food item" (Some error))).

(** The callback of [findIndex] in [removeFoodItem] *)
Definition selected (id name : option string) (item : FoodItem.t) : bool :=
  (given id && bool_decide (Some (FoodItem.id item) = id))
  || (given name
      && bool_decide (Some (toLowerCase (FoodItem.name item)) = toLowerCase <$> name)).

(** [removeFoodItem] *)
Definition removeFoodItem (id name : option string) : M FoodItem.t :=
  if negb (given id) && negb (given name)
  then throw (ValidationError "Either id or name must be provided" None)
  else
    let* _ := require_database in
    let* items := items_array in
    match list_find (λ item, Is_true (selected id name item)) items with
    | None =>
        throw (NotFoundError
                 ("Food item not found" +:+
                  (if given id then " with id: " +:+ default "" id
                   else " with name: " +:+ default "" name)))
    | Some (itemIndex, removedItem) =>
        let* _ := set_items (delete itemIndex items) in
        let* _ := saveDatabase in
        ret removedItem
    end.

(** [d.setDate(d.getDate() + days)] on a [Date] of time value [t], as
    ECMAScript defines it: the local time of [t], moved by [days] days of
    24 hours (day of the month plus [days], same time within the day),
    taken back to UTC with the offset in force at that local time, and
    clipped. The result is [t] plus [days] times 24 hours when the offset
    is the same at both ends and the result is in range; [None] is an
    Invalid Date. *)
Definition addDays (t days : Z) : option Z :=
  let local := t + LocalTZA t true in
  let moved := local + days * msPerDay in
  TimeClip (moved - LocalTZA moved false).

(** The callback of the expiring-soon filters: a comparison with an
    Invalid Date is false, and [new Date()] is read again for every item
    that gets as far as the second comparison. *)
Definition expires_by (thresholdDate : option Z) (item : FoodItem.t) : M bool :=
  match FoodItem.expirationDate item with
  | None => ret false
  | Some s =>
      if negb (nonempty s) then ret false
      else match Date_parse s, thresholdDate with
           | Some expirationDate, Some threshold =>
               if (expirationDate <=? threshold)%Z
               then let* now := new_Date in ret (now <=? expirationDate)%Z
               else ret false
           | _, _ => ret false
           end
  end.

Fixpoint filterM {A} (f : A → M bool) (l : list A) : M (list A) :=
  match l with
  | [] => ret []
  | x :: rest =>
      let* keep := f x in
      let* kept := filterM f rest in
      ret (if keep then x :: kept else kept)
  end.

(** [item.category?.toLowerCase().includes(filter.toLowerCase())] *)
Definition field_includes (field : option string) (wanted : string) : bool :=
  match field with
  | Some s => includes (toLowerCase s) (toLowerCase wanted)
  | None => false
  end.

(** [request.expiringSoonDays || 7] *)
Definition daysThreshold (request : ListFoodItemsRequest.t) : Z :=
  match ListFoodItemsRequest.expiringSoonDays request with
  | Some d => if (d =? 0)%Z then 7 else d
  | None => 7
  end.

(** [listFoodItems] *)
Definition listFoodItems (request : ListFoodItemsRequest.t) : M (list FoodItem.t) :=
  let* _ := require_database in
  let* items := items_array in
  let items :=
    if given (ListFoodItemsRequest.category request)
    then List.filter
           (λ item, field_includes (FoodItem.category item)
                      (default "" (ListFoodItemsRequest.category request))) items
    else items in
  let items :=
    if given (ListFoodItemsRequest.location request)
    then List.filter
           (λ item, field_includes (FoodItem.location item)
                      (default "" (ListFoodItemsRequest.location request))) items
    else items in
  let* items :=
    if default false (ListFoodItemsRequest.expiringSoon request)
    then
      let* t := new_Date in
      let thresholdDate := addDays t (daysThreshold request) in
      filterM (expires_by thresholdDate) items
    else ret items in
  ret (sort (λ a b, localeCompare (FoodItem.name a) (FoodItem.name b)) items).

(** [getFoodItemById] *)
Definition getFoodItemById (id : string) : M FoodItem.t :=
  let* _ := require_database in
  let* items := items_array in
  match list_find (λ item, FoodItem.id item = id) items with
  | None => throw (NotFoundError ("Food item not found with id: " +:+ id))
  | Some (_, item) => ret item
  end.

(** [updateFoodItem] *)
Definition updateFoodItem (id : string) (updates : value) : M FoodItem.t :=
  let* _ := require_database in
  let* items := items_array in
  match list_find (λ item, FoodItem.id item = id) items with
  | None => throw (NotFoundError ("Food item not found with id: " +:+ id))
  | Some (itemIndex, existingItem) =>
      let* t := new_Date in
      let* validatedItem :=
        lift (FoodItemSchema_parse
                (updatedItem existingItem updates (toISOString t))) in
      let* _ := set_items (<[itemIndex := validatedItem]> items) in
      let* _ := saveDatabase in
      ret validatedItem
  end.

(** [getStats] *)
Definition getStats : M Stats.t :=
  let* _ := require_database in
  let* items := items_array in
  let categories :=
    distinct (omap (λ item, if given (FoodItem.category item)
                            then FoodItem.category item else None) items) in
  let locations :=
    distinct (omap (λ item, if given (FoodItem.location item)
                            then FoodItem.location item else None) items) in
  let* t := new_Date in
  let sevenDaysFromNow := addDays t 7 in
  let* expiring := filterM (expires_by sevenDaysFromNow) items in
  let* d := gets database in
  ret {| Stats.totalItems := length items;
         Stats.categories := categories;
         Stats.locations := locations;
         Stats.expiringCount := length expiring;
         Stats.lastModified := get "lastModified" (view d);
         Stats.version := get "version" (view d) |}.

End Service.

(** ** Notions used in the statements *)

(** The collection in memory, when there is one. *)
Definition items_of (d : DatabaseField) : option (list FoodItem.t) :=
  match d with
  | Loaded db => Some (FridgeDatabase.items db)
  | Unchecked _ => None
  end.

(** The state [backup_primary] leaves: the primary copied over the backup
    when it exists and neither system call fails, nothing otherwise. *)
Definition after_backup (s : State) : State :=
  if faulty (fs s) sys_access || faulty (fs s) sys_copyFile then s
  else match dataFile (fs s) with
       | Some c => with_fs (set_file backupPath (Some c) (fs s)) s
       | None => s
       end.

(** Reading and parsing the file at [p] throws: the read fails, there is no
    such file, or its text is not JSON. *)
Definition unreadable (p : Path) (files : FileSystem) : bool :=
  faulty files (sys_readFile p)
  || match file_at p files with
     | Some (Json _) => false
     | _ => true
     end.

(** The directory cannot be written: [writeFile] or [rename] fails. *)
Definition write_fails (files : FileSystem) : bool :=
  faulty files sys_writeFile || faulty files sys_rename.

(** A file content that [loadDatabase] accepts as an envelope. *)
Definition accepted_envelope (c : content) : bool :=
  match c with
  | Json doc => truthy doc && isArray (get "items" doc)
  | Malformed _ => false
  end.

Section Notions.
Context {platform : Runtime}.

(** The item passes [FoodItemSchema] in full. *)
Definition valid_item (it : FoodItem.t) : Prop :=
  FoodItemSchema [] (FoodItem.to_value it) = [].

(** What a value that passes [FoodItemSchema] looks like. *)
Record passes_FoodItem (v : value) : Prop := {
  pf_object : ∃ props, v = VObj props;
  pf_id : ∃ s, get "id" v = VStr s ∧ is_uuid s = true;
  pf_name : ∃ s, get "name" v = VStr s ∧ s ≠ "";
  pf_quantity : ∃ q, get "quantity" v = VNum q ∧ is_integer q = true
                     ∧ Qle_bool (inject_Z 0) q = true;
  pf_unit : ∃ s, get "unit" v = VStr s ∧ s ≠ "";
  pf_expirationDate : get "expirationDate" v = VUndefined
                      ∨ ∃ s, get "expirationDate" v = VStr s ∧ is_datetime s = true;
  pf_category : get "category" v = VUndefined ∨ ∃ s, get "category" v = VStr s;
  pf_location : get "location" v = VUndefined ∨ ∃ s, get "location" v = VStr s;
  pf_notes : get "notes" v = VUndefined ∨ ∃ s, get "notes" v = VStr s;
  pf_addedDate : ∃ s, get "addedDate" v = VStr s ∧ is_datetime s = true;
  pf_lastModified : ∃ s, get "lastModified" v = VStr s ∧ is_datetime s = true
}.

(** What a value that passes [AddFoodItemRequestSchema] looks like. *)
Record passes_AddFoodItemRequest (v : value) : Prop := {
  pa_object : ∃ props, v = VObj props;
  pa_name : ∃ s, get "name" v = VStr s ∧ s ≠ "";
  pa_quantity : ∃ q, get "quantity" v = VNum q ∧ is_integer q = true
                     ∧ Qle_bool (inject_Z 1) q = true;
  pa_unit : ∃ s, get "unit" v = VStr s ∧ s ≠ "";
  pa_expirationDate : get "expirationDate" v = VUndefined
                      ∨ ∃ s, get "expirationDate" v = VStr s ∧ is_datetime s = true;
  pa_category : get "category" v = VUndefined ∨ ∃ s, get "category" v = VStr s;
  pa_location : get "location" v = VUndefined ∨ ∃ s, get "location" v = VStr s;
  pa_notes : get "notes" v = VUndefined ∨ ∃ s, get "notes" v = VStr s
}.

(** The item has an expiration date that parses to an instant between
    [now] and the instant [days] days after [now], both ends included;
    no item has when there is no such instant (an Invalid Date). *)
Definition expires_within (now days : Z) (item : FoodItem.t) : bool :=
  match FoodItem.expirationDate item with
  | Some text =>
      nonempty text
      && match Date_parse text, addDays now days with
         | Some e, Some threshold => (now <=? e)%Z && (e <=? threshold)%Z
         | _, _ => false
         end
  | None => false
  end.

(** The record [addFoodItem] builds for a request in state [s]: the next
    identifier, the fields of the request, the current time twice. *)
Definition stamped (request : value) (s : State) : FoodItem.t :=
  FoodItem.of_value
    (newItem (uuid_source s (uuid_calls s))
       (AddFoodItemRequest.of_value request)
       (toISOString (clock s (clock_reads s)))).

(** The category and location filters of [listFoodItems]. *)
Definition matches_filters (request : ListFoodItemsRequest.t) (item : FoodItem.t)
  : bool :=
  (if given (ListFoodItemsRequest.category request)
   then field_includes (FoodItem.category item)
          (default "" (ListFoodItemsRequest.category request))
   else true)
  && (if given (ListFoodItemsRequest.location request)
      then field_includes (FoodItem.location item)
             (default "" (ListFoodItemsRequest.location request))
      else true).

End Notions.

(** ** A reference platform

    One instance of [Runtime], used to run the service on concrete data:
    ASCII lower-casing, code-unit comparison, the 8-4-4-4-12 hexadecimal
    shape of an identifier, and UTC timestamps of the form
    [YYYY-MM-DDTHH:mm:ss.sssZ] (the fraction optional on input). *)

Module Reference.
Local Open Scope Z_scope.

Definition lower (c : ascii) : ascii :=
  let n := nat_of_ascii c in
  if ((65 <=? n) && (n <=? 90))%nat then ascii_of_nat (n + 32) else c.

Fixpoint toLowerCase (s : string) : string :=
  match s with
  | EmptyString => EmptyString
  | String c rest => String (lower c) (toLowerCase rest)
  end.

Definition localeCompare (a b : string) : Z :=
  match String.compare a b with
  | Lt => -1
  | Eq => 0
  | Gt => 1
  end.

Definition is_digit (c : ascii) : bool :=
  let n := nat_of_ascii c in ((48 <=? n) && (n <=? 57))%nat.

Definition is_hex (c : ascii) : bool :=
  let n := nat_of_ascii (lower c) in
  is_digit c || ((97 <=? n) && (n <=? 102))%nat.

(** A pattern: one class per character. *)
Inductive cls := Digit | Hex | Lit (c : ascii).

Definition in_cls (k : cls) (c : ascii) : bool :=
  match k with
  | Digit => is_digit c
  | Hex => is_hex c
  | Lit c' => Ascii.eqb c c'
  end.

Fixpoint matches (pat : list cls) (s : list ascii) : bool :=
  match pat, s with
  | [], [] => true
  | k :: pat', c :: s' => in_cls k c && matches pat' s'
  | _, _ => false
  end.

Definition uuid_pattern : list cls :=
  replicate 8 Hex ++ [Lit "-"%char] ++ replicate 4 Hex ++ [Lit "-"%char]
  ++ replicate 4 Hex ++ [Lit "-"%char] ++ replicate 4 Hex ++ [Lit "-"%char]
  ++ replicate 12 Hex.

Definition is_uuid (s : string) : bool :=
  matches uuid_pattern (list_ascii_of_string s).

Definition seconds_pattern : list cls :=
  [Digit; Digit; Digit; Digit; Lit "-"%char; Digit; Digit; Lit "-"%char;
   Digit; Digit; Lit "T"%char; Digit; Digit; Lit ":"%char; Digit; Digit;
   Lit ":"%char; Digit; Digit].

Definition is_datetime (s : string) : bool :=
  let cs := list_ascii_of_string s in
  matches seconds_pattern (take 19 cs)
  && match drop 19 cs with
     | ["Z"%char] => true
     | "."%char :: frac =>
         match reverse frac with
         | "Z"%char :: ds => negb (bool_decide (ds = [])) && forallb is_digit ds
         | _ => false
         end
     | _ => false
     end.

Definition digit_of (c : ascii) : Z := Z.of_nat (nat_of_ascii c) - 48.

Definition number_of (cs : list ascii) : Z :=
  foldl (λ acc c, 10 * acc + digit_of c) 0 cs.

(** Days since 1970-01-01 of a proleptic Gregorian date. *)
Definition days_from_civil (y m d : Z) : Z :=
  let y := if m <=? 2 then y - 1 else y in
  let era := y / 400 in
  let yoe := y - era * 400 in
  let doy := (153 * (if 2 <? m then m - 3 else m + 9) + 2) / 5 + d - 1 in
  let doe := yoe * 365 + yoe / 4 - yoe / 100 + doy in
  era * 146097 + doe - 719468.

Definition civil_from_days (z : Z) : Z * Z * Z :=
  let z := z + 719468 in
  let era := z / 146097 in
  let doe := z - era * 146097 in
  let yoe := (doe - doe / 1460 + doe / 36524 - doe / 146096) / 365 in
  let doy := doe - (365 * yoe + yoe / 4 - yoe / 100) in
  let mp := (5 * doy + 2) / 153 in
  let d := doy - (153 * mp + 2) / 5 + 1 in
  let m := if mp <? 10 then mp + 3 else mp - 9 in
  (yoe + era * 400 + (if m <=? 2 then 1 else 0), m, d).

Definition Date_parse (s : string) : option Z :=
  if is_datetime s then
    let cs := list_ascii_of_string s in
    let field (from len : nat) := number_of (take len (drop from cs)) in
    let frac := take 3 (take (length cs - 21) (drop 20 cs) ++ replicate 3 "0"%char) in
    Some ((days_from_civil (field 0 4)%nat (field 5 2)%nat (field 8 2)%nat * 86400
           + field 11%nat 2%nat * 3600 + field 14%nat 2%nat * 60 + field 17%nat 2%nat) * 1000
          + number_of frac)
  else None.

Definition digit (n : Z) : ascii := ascii_of_nat (48 + Z.to_nat (n mod 10)).

Definition pad2 (n : Z) : list ascii := [digit (n / 10); digit n].
Definition pad3 (n : Z) : list ascii := digit (n / 100) :: pad2 n.
Definition pad4 (n : Z) : list ascii := digit (n / 1000) :: pad3 n.

Definition toISOString (t : Z) : string :=
  let days := t / 86400000 in
  let ms := t mod 86400000 in
  let '(y, m, d) := civil_from_days days in
  string_of_list_ascii
    (pad4 y ++ ["-"%char] ++ pad2 m ++ ["-"%char] ++ pad2 d ++ ["T"%char]
     ++ pad2 (ms / 3600000) ++ [":"%char] ++ pad2 (ms / 60000 mod 60)
     ++ [":"%char] ++ pad2 (ms / 1000 mod 60) ++ ["."%char] ++ pad3 (ms mod 1000)
     ++ ["Z"%char]).

(** The process runs in UTC. *)
Definition LocalTZA (t : Z) (isUTC : bool) : Z := 0.

#[export] Instance runtime : Runtime :=
  Build_Runtime toLowerCase localeCompare is_uuid is_datetime toISOString Date_parse
    LocalTZA.

End Reference.

(** ** Sample data *)

Definition no_faults : Syscall → bool := λ _, false.

Definition disk (primary backup : option content) (faults : Syscall → bool)
  : FileSystem :=
  {| dataFile := primary; backupFile := backup; tempFile := None;
     faulty := faults |}.

Definition sample_uuids (n : nat) : string :=
  match n with
  | O => "3f2a6c1e-9b4d-4e7a-8c21-5d6f7a8b9c0d"
  | 1%nat => "7c9e6679-7425-40de-944b-e07fc1f90ae7"
  | _ => "16fd2706-8baf-433b-82eb-8c7fada847da"
  end.

(** 2025-11-02T00:00:00.000Z *)
Definition t0 : Z := 1762041600000.

(** A clock that advances one millisecond per reading. *)
Definition ticking (start : Z) : nat → Z := λ n, start + Z.of_nat n.

(** A clock that stands still. *)
Definition frozen (now : Z) : nat → Z := λ _, now.

(** A service object right after [new FridgeDatabaseService(dataDir)]. *)
Definition constructed (files : FileSystem) (time : nat → Z) : State :=
  {| fs := files; database := Unchecked VNull; clock := time; clock_reads := 0;
     uuid_source := sample_uuids; uuid_calls := 0 |}.

(** A service object holding the envelope [db]. *)
Definition serving (files : FileSystem) (time : nat → Z) (db : FridgeDatabase.t)
  : State :=
  {| fs := files; database := Loaded db; clock := time; clock_reads := 0;
     uuid_source := sample_uuids; uuid_calls := 0 |}.

Definition milk : FoodItem.t :=
  {| FoodItem.id := "7c9e6679-7425-40de-944b-e07fc1f90ae7";
     FoodItem.name := "Milk"; FoodItem.quantity := 1; FoodItem.unit := "liter";
     FoodItem.expirationDate := Some "2025-11-09T00:00:00.000Z";
     FoodItem.category := Some "dairy"; FoodItem.location := Some "door shelf";
     FoodItem.notes := None;
     FoodItem.addedDate := "2025-11-01T08:00:00.000Z";
     FoodItem.lastModified := "2025-11-01T08:00:00.000Z" |}.

Definition eggs : FoodItem.t :=
  {| FoodItem.id := "16fd2706-8baf-433b-82eb-8c7fada847da";
     FoodItem.name := "Eggs"; FoodItem.quantity := 12; FoodItem.unit := "pieces";
     FoodItem.expirationDate := Some "2025-11-10T00:00:00.000Z";
     FoodItem.category := Some "dairy"; FoodItem.location := None;
     FoodItem.notes := None;
     FoodItem.addedDate := "2025-11-01T09:00:00.000Z";
     FoodItem.lastModified := "2025-11-01T09:00:00.000Z" |}.

Definition rice : FoodItem.t :=
  {| FoodItem.id := "3f2a6c1e-9b4d-4e7a-8c21-5d6f7a8b9c0d";
     FoodItem.name := "Rice"; FoodItem.quantity := 2; FoodItem.unit := "kg";
     FoodItem.expirationDate := None;
     FoodItem.category := Some "grains"; FoodItem.location := Some "pantry";
     FoodItem.notes := None;
     FoodItem.addedDate := "2025-11-01T10:00:00.000Z";
     FoodItem.lastModified := "2025-11-01T10:00:00.000Z" |}.

Definition fridge (l : list FoodItem.t) : FridgeDatabase.t :=
  {| FridgeDatabase.items := l;
     FridgeDatabase.lastModified := VStr "2025-11-01T10:00:00.000Z";
     FridgeDatabase.version := VStr "1.0.0" |}.

(** [{name: "X", quantity: 0, unit: "u"}] *)
Definition request_quantity_0 : value :=
  VObj [("name", VStr "X"); ("quantity", VInt 0); ("unit", VStr "u")].

(** [{quantity: 0}] *)
Definition request_only_quantity_0 : value :=
  VObj [("quantity", VInt 0)].

(** [{name: "Butter", quantity: 1, unit: "pack"}] *)
Definition request_butter : value :=
  VObj [("name", VStr "Butter"); ("quantity", VInt 1); ("unit", VStr "pack")].

(** A payload that tries to take over the identity of the record:
    [{id: "0", addedDate: "1999-01-01T00:00:00.000Z", quantity: 3}] *)
Definition payload_overriding_identity : value :=
  VObj [("id", VStr "0"); ("addedDate", VStr "1999-01-01T00:00:00.000Z");
        ("quantity", VInt 3)].

(** A directory that cannot be written. *)
Definition read_only : Syscall → bool :=
  λ c, match c with sys_writeFile | sys_rename => true | _ => false end.

(** A record that fails validation: empty name, negative quantity, no
    identifier, no dates. *)
Definition corrupt_record : value :=
  VObj [("name", VStr ""); ("quantity", VInt (-1)); ("unit", VStr "liter")].

(** An envelope on disk with a corrupt record between two valid ones. *)
Definition envelope_with_corrupt_record : value :=
  VObj [("items", VArr [FoodItem.to_value milk; corrupt_record; FoodItem.to_value eggs]);
        ("lastModified", VStr "2025-11-01T10:00:00.000Z");
        ("version", VStr "1.0.0")].

(** An envelope on disk whose [items] is an object, not an array. *)
Definition envelope_without_array : value :=
  VObj [("items", VObj []);
        ("lastModified", VStr "2025-11-01T10:00:00.000Z");
        ("version", VStr "1.0.0")].

(** [{expiringSoon: true}] and [{expiringSoon: true, expiringSoonDays: 7}] *)
Definition request_expiring_soon (days : option Z) : ListFoodItemsRequest.t :=
  {| ListFoodItemsRequest.category := None;
     ListFoodItemsRequest.location := None;
     ListFoodItemsRequest.expiringSoon := Some true;
     ListFoodItemsRequest.expiringSoonDays := days |}.

(** ** The rest of the service, and calls in sequence *)

Section MoreService.
Context {platform : Runtime}.

(** [clearAllData]. The assignment [this.database.items = []] is strict
    code: on an object that failed the structure check it installs the
    array (the envelope is then a checked one, with the keys the record
    tracks), on a primitive it throws. On an array (a data file that is a
    JSON array) it adds a property [items] that [JSON.stringify] does not
    print: the save that follows writes the array and finds a length to
    log. A value has no place for that property; the model leaves the
    array as it is and does not follow it further. *)
Definition clearAllData : M () :=
  let* _ := require_database in
  let* d := gets database in
  match d with
  | Loaded db =>
      let* _ := modify (with_database (Loaded (FridgeDatabase.with_items [] db))) in
      saveDatabase
  | Unchecked (VObj props) =>
      let* _ :=
        modify (with_database
                  (Loaded {| FridgeDatabase.items := [];
                             FridgeDatabase.lastModified := get "lastModified" (VObj props);
                             FridgeDatabase.version := get "version" (VObj props) |})) in
      saveDatabase
  | Unchecked (VArr _) => save (ret ())
  | Unchecked _ => throw (TypeError "Cannot create property 'items'")
  end.

(** A call of a public method of the service, its result put aside. *)
Inductive Call :=
| Initialize
| AddFoodItem (request : value)
| RemoveFoodItem (id name : option string)
| ListFoodItems (request : ListFoodItemsRequest.t)
| GetFoodItemById (id : string)
| UpdateFoodItem (id : string) (updates : value)
| GetStats
| ClearAllData.

(** The state a call leaves, whether it returns or throws. *)
Definition after (c : Call) (s : State) : State :=
  match c with
  | Initialize => (initialize s).2
  | AddFoodItem request => (addFoodItem request s).2
  | RemoveFoodItem id name => (removeFoodItem id name s).2
  | ListFoodItems request => (listFoodItems request s).2
  | GetFoodItemById id => (getFoodItemById id s).2
  | UpdateFoodItem id updates => (updateFoodItem id updates s).2
  | GetStats => (getStats s).2
  | ClearAllData => (clearAllData s).2
  end.

(** Calls made one after the other on the same service object. *)
Definition session (calls : list Call) (s : State) : State :=
  foldl (λ s c, after c s) s calls.

End MoreService.

(** ** More notions used in the statements *)

Section MoreNotions.
Context {platform : Runtime}.

(** Every item of the collection in memory, if there is one, passes
    [FoodItemSchema]. *)
Definition store_valid (s : State) : Prop :=
  ∀ l, items_of (database s) = Some l → Forall valid_item l.

(** The list is in the order of [cmp]: no element sorts after a later
    one. *)
Fixpoint in_order {A} (cmp : A → A → Z) (l : list A) : Prop :=
  match l with
  | [] => True
  | x :: rest => Forall (λ y, (cmp x y <= 0)%Z) rest ∧ in_order cmp rest
  end.

(** What a key of the merged record of [updateFoodItem] holds when the
    three keys written last are left aside: the payload's value when the
    payload has the key, the existing value otherwise. *)
Definition overridden (k : string) (updates existing : value) : value :=
  match own_prop k (spread updates) with
  | Some v => v
  | None => existing
  end.

(** The record an update leaves, field by field. *)
Definition merged (existingItem : FoodItem.t) (updates : value) (now : string)
  : FoodItem.t :=
  {| FoodItem.id := FoodItem.id existingItem;
     FoodItem.name :=
       as_string (overridden "name" updates (VStr (FoodItem.name existingItem)));
     FoodItem.quantity :=
       as_integer (overridden "quantity" updates
                     (VInt (FoodItem.quantity existingItem)));
     FoodItem.unit :=
       as_string (overridden "unit" updates (VStr (FoodItem.unit existingItem)));
     FoodItem.expirationDate :=
       as_optional_string
         (overridden "expirationDate" updates
            (from_option VStr VUndefined (FoodItem.expirationDate existingItem)));
     FoodItem.category :=
       as_optional_string
         (overridden "category" updates
            (from_option VStr VUndefined (FoodItem.category existingItem)));
     FoodItem.location :=
       as_optional_string
         (overridden "location" updates
            (from_option VStr VUndefined (FoodItem.location existingItem)));
     FoodItem.notes :=
       as_optional_string
         (overridden "notes" updates
            (from_option VStr VUndefined (FoodItem.notes existingItem)));
     FoodItem.addedDate := FoodItem.addedDate existingItem;
     FoodItem.lastModified := now |}.

(** The primary file holds exactly the serialization of [this.database],
    and no temporary file is left. *)
Definition on_disk (s : State) : Prop :=
  dataFile (fs s) = Some (Json (view (database s))) ∧ tempFile (fs s) = None.

End MoreNotions.


(** ** More sample data *)

(** A store holding Milk, Eggs and Rice on an empty, healthy directory,
    the clock standing at [t0]. *)
Definition stocked : State :=
  serving (disk None None no_faults) (frozen t0) (fridge [milk; eggs; rice]).

(** A directory where [rename] fails and everything else works. *)
Definition rename_fails : Syscall → bool :=
  λ c, match c with sys_rename => true | _ => false end.

(** [{category: c}] *)
Definition request_category (c : string) : ListFoodItemsRequest.t :=
  {| ListFoodItemsRequest.category := Some c;
     ListFoodItemsRequest.location := None;
     ListFoodItemsRequest.expiringSoon := None;
     ListFoodItemsRequest.expiringSoonDays := None |}.

(** [{quantity: z}] *)
Definition payload_quantity (z : Z) : value := VObj [("quantity", VInt z)].

(** A few calls on a new service object: start, add a valid and an invalid
    item, update, remove by name, clear. *)
Definition sample_calls : list Call :=
  [Initialize; AddFoodItem request_butter; AddFoodItem request_quantity_0;
   UpdateFoodItem (sample_uuids 0) payload_overriding_identity;
   RemoveFoodItem None (Some "butter"); GetStats; ClearAllData].

(** ** The REST routes ([src/http-server.ts]) and the [addfooditem] tool
       ([src/mcp-server.ts])

    Both adapters call the service and translate what it throws. *)

Module ApiResponse.
Record t (A : Type) := {
  success : bool;
  data : option A;
  error : option string;
  timestamp : string
}.
Arguments success {A} _.
Arguments data {A} _.
Arguments error {A} _.
Arguments timestamp {A} _.
End ApiResponse.

Module HealthCheckResponse.
Record t := {
  status : string;
  timestamp : string;
  version : string;
  uptime : Z;
  itemCount : nat
}.
End HealthCheckResponse.

Module McpError.
Inductive ErrorCode := MethodNotFound | InvalidParams | InternalError.

(** [new McpError(code, message, data)]; the only [data] the server
    passes is [{ issues: error.issues }]. *)
Record t := {
  code : ErrorCode;
  message : string;
  data : option (option (list ZodIssue))
}.
End McpError.

(** What [res.status(statusCode).json(body)] sends. *)
Definition Response (A : Type) : Type := Z * ApiResponse.t A.

Section Adapters.
Context {platform : Runtime}.

(** [error.message] for the errors whose text is not written in this
    code base: the JSON rendering of the issues of a [ZodError], the
    engine's text of a [TypeError] or a [SyntaxError], Node's text of a
    failed system call. *)
Variable foreign_message : Error → string.

Definition error_message (e : Error) : string :=
  match e with
  | ValidationError msg _ | NotFoundError msg | DatabaseError msg _
  | PlainError msg => msg
  | _ => foreign_message e
  end.

(** [handleError] of [SmartFridgeHTTPServer] *)
Definition handleError {A} (error : Error) : M (Response A) :=
  let '(statusCode, message) :=
    match error with
    | ValidationError msg _ => (400, msg)
    | NotFoundError msg => (404, msg)
    | DatabaseError _ _ => (500, "Database error occurred")
    | _ => if includes (error_message error) "ENOENT"
           then (500, "File system error")
           else (500, "Internal server error")
    end in
  let* now := new_Date in
  ret (statusCode,
       {| ApiResponse.success := false; ApiResponse.data := None;
          ApiResponse.error := Some message;
          ApiResponse.timestamp := toISOString now |}).

(** The body shared by the routes below:
    [try { const x = await call; res.status(statusCode).json({ success:
    true, data: x, timestamp: new Date().toISOString() }) }
     catch (error) { this.handleError(res, error) }] *)
Definition respond {A} (statusCode : Z) (call : M A) : M (Response A) :=
  try_catch
    (let* x := call in
     let* now := new_Date in
     ret (statusCode,
          {| ApiResponse.success := true; ApiResponse.data := Some x;
             ApiResponse.error := None;
             ApiResponse.timestamp := toISOString now |}))
    handleError.

(** The route sends a response from state [s], and the response is well
    formed: [success] is set exactly when the status is 200 or 201, and
    then there is data and no error text; otherwise the status is 400, 404
    or 500 and there is an error text and no data. *)
Definition answered {A} (route : M (Response A)) (s : State) : Prop :=
  ∃ response s',
    route s = (Returned response, s')
    ∧ ((ApiResponse.success response.2 = true
        ∧ (response.1 = 200 ∨ response.1 = 201)
        ∧ is_Some (ApiResponse.data response.2)
        ∧ ApiResponse.error response.2 = None)
       ∨ (ApiResponse.success response.2 = false
          ∧ (response.1 = 400 ∨ response.1 = 404 ∨ response.1 = 500)
          ∧ ApiResponse.data response.2 = None
          ∧ is_Some (ApiResponse.error response.2))).

(** [GET /api/stats] *)
Definition get_api_stats : M (Response Stats.t) := respond 200 getStats.

(** [POST /api/food-items], [body] being [req.body] *)
Definition post_api_food_items (body : value) : M (Response FoodItem.t) :=
  respond 201 (addFoodItem body).

(** [GET /api/food-items/:id] *)
Definition get_api_food_items_id (id : string) : M (Response FoodItem.t) :=
  respond 200 (getFoodItemById id).

(** [PUT /api/food-items/:id] *)
Definition put_api_food_items_id (id : string) (body : value)
  : M (Response FoodItem.t) :=
  respond 200 (updateFoodItem id body).

(** [DELETE /api/food-items/:id]: [removeFoodItem(req.params.id)], the
    name left [undefined] *)
Definition delete_api_food_items_id (id : string) : M (Response FoodItem.t) :=
  respond 200 (removeFoodItem (Some id) None).

(** [GET /health]; [startTime] is the time the server object was made.
    The object literal reads the clock twice, for [timestamp] and for
    [uptime]. *)
Definition get_health (startTime : Z) : M (Z * HealthCheckResponse.t) :=
  try_catch
    (let* stats := getStats in
     let* now := new_Date in
     let* now' := new_Date in
     ret (200,
          {| HealthCheckResponse.status := "healthy";
             HealthCheckResponse.timestamp := toISOString now;
             HealthCheckResponse.version := "1.0.0";
             HealthCheckResponse.uptime := now' - startTime;
             HealthCheckResponse.itemCount := Stats.totalItems stats |}))
    (λ _,
       let* now := new_Date in
       let* now' := new_Date in
       ret (503,
            {| HealthCheckResponse.status := "unhealthy";
               HealthCheckResponse.timestamp := toISOString now;
               HealthCheckResponse.version := "1.0.0";
               HealthCheckResponse.uptime := now' - startTime;
               HealthCheckResponse.itemCount := 0%nat |})).

(** [handleAddFoodItem] of [SmartFridgeMCPServer]. The service receives
    the output of the first [parse], the arguments stripped to the keys of
    the schema. What the handler returns is a text that renders the new
    item; the model returns the item. *)
Definition handleAddFoodItem (args : value) : M FoodItem.t :=
  try_catch
    (let* validatedArgs := lift (AddFoodItemRequestSchema_parse args) in
     addFoodItem (VObj (AddFoodItemRequest.props validatedArgs)))
    (λ error,
       match error with
       | ZodError issues =>
           throw (ValidationError "Invalid input parameters" (Some issues))
       | _ => throw error
       end).

(** The [catch] block of the [CallTool] handler, for what a tool handler
    throws. *)
Definition toMcpError (error : Error) : McpError.t :=
  match error with
  | ValidationError msg issues =>
      {| McpError.code := McpError.InvalidParams;
         McpError.message := "Validation failed: " +:+ msg;
         McpError.data := Some issues |}
  | NotFoundError msg =>
      {| McpError.code := McpError.InvalidParams;
         McpError.message := msg;
         McpError.data := None |}
  | DatabaseError msg _ =>
      {| McpError.code := McpError.InternalError;
         McpError.message := "Database error: " +:+ msg;
         McpError.data := None |}
  | _ =>
      {| McpError.code := McpError.InternalError;
         McpError.message := "Internal server error: " +:+ error_message error;
         McpError.data := None |}
  end.

(** The [CallTool] handler on the tool name ['addfooditem']: the result of
    the tool, or the [McpError] the handler throws. *)
Definition callTool_addfooditem (args : value)
  : State → (FoodItem.t + McpError.t) * State :=
  λ s, match handleAddFoodItem args s with
       | (Returned newItem, s') => (inl newItem, s')
       | (Thrown error, s') => (inr (toMcpError error), s')
       end.

End Adapters.
(** * Properties *)

Section Properties.
Context {platform : Runtime}.

Ltac unfold_fs :=
  unfold access, copyFile, writeFile, rename, readFile, mkdir, syscall, existing,
    new_Date, uuidv4, JSON_parse in *.
Ltac unfold_M :=
  unfold bind, try_catch, gets, modify, ret, throw, lift in *.

(** ** The durable write *)


Lemma backup_primary_eq s : backup_primary s = (Returned (), after_backup s).
Proof.
  unfold backup_primary, after_backup. unfold_fs. unfold_M.
  destruct (faulty (fs s) sys_access) eqn:Ha; simpl; [done|].
  destruct (dataFile (fs s)) eqn:Hd; simpl.
  - destruct (faulty (fs s) sys_copyFile); simpl; [done|]. rewrite Hd. simpl. by rewrite Hd.
  - by destruct (faulty (fs s) sys_copyFile).
Qed.

Lemma write_then_rename_eq c s :
  write_then_rename c s =
  if faulty (fs s) sys_writeFile then (Thrown (SystemError "EIO"), s)
  else if faulty (fs s) sys_rename
       then (Thrown (SystemError "EIO"), with_fs (set_file tempPath (Some c) (fs s)) s)
       else (Returned (),
             with_fs (set_file tempPath None (set_file dataPath (Some c) (fs s))) s).
Proof.
  unfold write_then_rename. unfold_fs. unfold_M.
  destruct (faulty (fs s) sys_writeFile) eqn:Hw; simpl; [done|].
  destruct (faulty (fs s) sys_rename) eqn:Hr; simpl; done.
Qed.

(** What [assign_lastModified] does to the field. *)
Lemma assign_lastModified_cases x s :
  (∃ d', assign_lastModified x s = (Returned (), with_database d' s)
         ∧ items_of d' = items_of (database s)
         ∧ truthy (view d') = truthy (view (database s)) ∧
         match database s with Loaded db => d' = Loaded (FridgeDatabase.with_lastModified x db) | _ => True end)
  ∨ ((∃ msg, assign_lastModified x s = (Thrown (TypeError msg), s)) ∧ items_of (database s) = None).
Proof.
  unfold assign_lastModified. unfold_M.
  destruct (database s) as [v|db] eqn:Hd.
  - destruct v; simpl; try (right; split; [by eauto|done]).
    + left. exists (Unchecked (VArr elems)). rewrite <- Hd. split; [|by rewrite Hd].
      f_equal. by destruct s.
    + left. eexists. split; [done|]. done.
  - left. eexists. split; [done|]. done.
Qed.


Lemma after_backup_database s : database (after_backup s) = database s.
Proof. unfold after_backup. by repeat case_match. Qed.

Lemma after_backup_faulty s : faulty (fs (after_backup s)) = faulty (fs s).
Proof. unfold after_backup. by repeat case_match. Qed.

Lemma after_backup_dataFile s : dataFile (fs (after_backup s)) = dataFile (fs s).
Proof. unfold after_backup. by repeat case_match. Qed.

Lemma after_backup_tempFile s : tempFile (fs (after_backup s)) = tempFile (fs s).
Proof. unfold after_backup. by repeat case_match. Qed.

Lemma save_falsy logged s :
  truthy (view (database s)) = false →
  save logged s = (Thrown (DatabaseError "No database to save" None), s).
Proof. intros Hf. unfold save. unfold_M. by rewrite Hf. Qed.

Lemma save_truthy logged s :
  truthy (view (database s)) = true →
  save logged s =
  match assign_lastModified (VStr (toISOString (clock s (clock_reads s))))
          (tick (after_backup s)) with
  | (Returned _, s2) =>
      match write_then_rename (JSON_stringify (database s2)) s2 with
      | (Returned _, s3) =>
          match logged s3 with
          | (Returned a, s4) => (Returned a, s4)
          | (Thrown e, s4) =>
              (Thrown (DatabaseError "Failed to save database" (Some e)), s4)
          end
      | (Thrown e, s3) =>
          (Thrown (DatabaseError "Failed to save database" (Some e)), s3)
      end
  | (Thrown e, s2) =>
      (Thrown (DatabaseError "Failed to save database" (Some e)), s2)
  end.
Proof.
  intros Ht. unfold save, bind, gets, try_catch.
  rewrite Ht. cbn [negb]. cbv beta iota.
  rewrite backup_primary_eq. unfold new_Date.
  replace (clock (after_backup s) (clock_reads (after_backup s)))
    with (clock s (clock_reads s))
    by (unfold after_backup; by repeat case_match).
  destruct (assign_lastModified _ _) as [[[]|e] s2]; [|done].
  destruct (write_then_rename _ _) as [[[]|e] s3]; [|done].
  by destruct (logged s3) as [[[]|e] s4].
Qed.

(** The outcomes of a save on a truthy [this.database], up to its last
    statement. *)
Lemma save_cases logged s :
  truthy (view (database s)) = true →
  let s1 := tick (after_backup s) in
  ((∃ msg, save logged s =
           (Thrown (DatabaseError "Failed to save database" (Some (TypeError msg))), s1))
   ∧ items_of (database s) = None)
  ∨ ∃ d', items_of d' = items_of (database s)
      ∧ truthy (view d') = true
      ∧ match database s with
        | Loaded db =>
            d' = Loaded (FridgeDatabase.with_lastModified
                           (VStr (toISOString (clock s (clock_reads s)))) db)
        | Unchecked _ => True
        end
      ∧ let s2 := with_database d' s1 in
        save logged s =
        if faulty (fs s) sys_writeFile
        then (Thrown (DatabaseError "Failed to save database"
                        (Some (SystemError "EIO"))), s2)
        else if faulty (fs s) sys_rename
             then (Thrown (DatabaseError "Failed to save database"
                             (Some (SystemError "EIO"))),
                   with_fs (set_file tempPath (Some (Json (view d'))) (fs s2)) s2)
             else match logged
                          (with_fs (set_file tempPath None
                                      (set_file dataPath (Some (Json (view d')))
                                         (fs s2))) s2) with
                  | (Returned a, s4) => (Returned a, s4)
                  | (Thrown e, s4) =>
                      (Thrown (DatabaseError "Failed to save database" (Some e)), s4)
                  end.
Proof.
  intros Ht s1. rewrite (save_truthy logged s Ht). fold s1.
  assert (Hdb1 : database s1 = database s) by apply after_backup_database.
  destruct (assign_lastModified_cases (VStr (toISOString (clock s (clock_reads s)))) s1)
    as [(d' & Heq & Hit & Htr & Hl)|[[msg Heq] Hn]]; rewrite Heq.
  - right. exists d'. rewrite Hdb1 in Hit, Htr, Hl. split_and!; [done|congruence|done|].
    rewrite write_then_rename_eq. simpl.
    rewrite after_backup_faulty. unfold JSON_stringify.
    destruct (faulty (fs s) sys_writeFile); [done|].
    by destruct (faulty (fs s) sys_rename).
  - left. rewrite Hdb1 in Hn. split; [|done]. exists msg. done.
Qed.

(** A save whose last statement only returns: the collection is as
    before, and when it returns the file is written. *)
Lemma save_ret s r s' :
  save (ret ()) s = (r, s') →
  items_of (database s') = items_of (database s)
  ∧ (r = Returned () →
     dataFile (fs s') = Some (Json (view (database s'))) ∧ tempFile (fs s') = None).
Proof.
  destruct (truthy (view (database s))) eqn:Ht.
  - destruct (save_cases (ret ()) s Ht) as [[[msg ->] _]|(d' & Hit & _ & _ & ->)].
    + intros [= <- <-]. simpl. by rewrite after_backup_database.
    + unfold ret.
      destruct (faulty (fs s) sys_writeFile); [by intros [= <- <-]|].
      destruct (faulty (fs s) sys_rename); by intros [= <- <-].
  - rewrite (save_falsy _ s Ht). by intros [= <- <-].
Qed.

Lemma items_length_eq s :
  items_length s =
  (if nullish (get "items" (view (database s)))
   then Thrown (TypeError "Cannot read properties of undefined (reading 'length')")
   else Returned (), s).
Proof.
  unfold items_length, bind, gets, throw, ret.
  by destruct (nullish (get "items" (view (database s)))).
Qed.

Lemma saveDatabase_falsy s :
  truthy (view (database s)) = false →
  saveDatabase s = (Thrown (DatabaseError "No database to save" None), s).
Proof. apply save_falsy. Qed.

(** The outcomes of [saveDatabase] on a truthy [this.database]: the
    assignment of [lastModified] is refused; or the write is; or the
    rename is; or the file is written, and then the save returns unless
    [this.database] has no [items] whose length could be logged. *)
Lemma saveDatabase_cases s :
  truthy (view (database s)) = true →
  let s1 := tick (after_backup s) in
  ((∃ msg, saveDatabase s =
           (Thrown (DatabaseError "Failed to save database" (Some (TypeError msg))), s1))
   ∧ items_of (database s) = None)
  ∨ ∃ d', items_of d' = items_of (database s)
      ∧ truthy (view d') = true
      ∧ match database s with
        | Loaded db =>
            d' = Loaded (FridgeDatabase.with_lastModified
                           (VStr (toISOString (clock s (clock_reads s)))) db)
        | Unchecked _ => True
        end
      ∧ let s2 := with_database d' s1 in
        saveDatabase s =
        if faulty (fs s) sys_writeFile
        then (Thrown (DatabaseError "Failed to save database"
                        (Some (SystemError "EIO"))), s2)
        else if faulty (fs s) sys_rename
             then (Thrown (DatabaseError "Failed to save database"
                             (Some (SystemError "EIO"))),
                   with_fs (set_file tempPath (Some (Json (view d'))) (fs s2)) s2)
             else (if nullish (get "items" (view d'))
                   then Thrown (DatabaseError "Failed to save database"
                                  (Some (TypeError
                                           "Cannot read properties of undefined (reading 'length')")))
                   else Returned (),
                   with_fs (set_file tempPath None
                              (set_file dataPath (Some (Json (view d'))) (fs s2))) s2).
Proof.
  intros Ht s1.
  destruct (save_cases items_length s Ht) as [Hassign|(d' & Hit & Htr & Hl & Heq)];
    [by left|].
  right. exists d'. split_and!; [done..|]. cbv zeta in Heq |- *.
  unfold saveDatabase. rewrite Heq, items_length_eq.
  cbn [database with_database with_fs].
  destruct (faulty (fs s) sys_writeFile); [done|].
  destruct (faulty (fs s) sys_rename); [done|].
  by destruct (nullish (get "items" (view d'))).
Qed.

Lemma view_Loaded_items db : nullish (get "items" (view (Loaded db))) = false.
Proof. done. Qed.

Lemma saveDatabase_items s r s' :
  saveDatabase s = (r, s') → items_of (database s') = items_of (database s).
Proof.
  destruct (truthy (view (database s))) eqn:Ht.
  - destruct (saveDatabase_cases s Ht) as [[[msg ->] _]|(d' & Hit & _ & _ & ->)].
    + intros [= <- <-]. simpl. by rewrite after_backup_database.
    + intros Hs. repeat case_match; simplify_eq; done.
  - rewrite (saveDatabase_falsy s Ht). by intros [= <- <-].
Qed.

(** The errors [saveDatabase] can throw. *)
Lemma saveDatabase_Thrown s e s' :
  saveDatabase s = (Thrown e, s') →
  (e = DatabaseError "No database to save" None ∧ truthy (view (database s)) = false)
  ∨ ∃ cause, e = DatabaseError "Failed to save database" (Some cause).
Proof.
  destruct (truthy (view (database s))) eqn:Ht.
  - destruct (saveDatabase_cases s Ht) as [[[msg ->] _]|(d' & _ & _ & _ & ->)].
    + intros [= <- <-]. eauto.
    + intros Hs. repeat case_match; simplify_eq; eauto.
  - rewrite (saveDatabase_falsy s Ht). intros [= <- <-]. by left.
Qed.

(** A save that returns has renamed the serialized envelope over the
    primary file, after the backup step. *)
Lemma saveDatabase_Returned s s' :
  saveDatabase s = (Returned (), s') →
  dataFile (fs s') = Some (Json (view (database s')))
  ∧ backupFile (fs s') = backupFile (fs (after_backup s))
  ∧ tempFile (fs s') = None
  ∧ faulty (fs s') = faulty (fs s)
  ∧ write_fails (fs s) = false.
Proof.
  destruct (truthy (view (database s))) eqn:Ht.
  - destruct (saveDatabase_cases s Ht) as [[[msg ->] _]|(d' & _ & _ & _ & ->)]; [done|].
    unfold write_fails.
    destruct (faulty (fs s) sys_writeFile); [done|].
    destruct (faulty (fs s) sys_rename); [done|].
    destruct (nullish (get "items" (view d'))); [done|].
    intros [= <-]. simpl. by rewrite after_backup_faulty.
  - by rewrite (saveDatabase_falsy s Ht).
Qed.

(** With a writable directory, saving a loaded envelope returns. *)
Lemma saveDatabase_Loaded_writable s db :
  database s = Loaded db →
  write_fails (fs s) = false →
  ∃ s', saveDatabase s = (Returned (), s')
        ∧ database s' = Loaded (FridgeDatabase.with_lastModified
                                  (VStr (toISOString (clock s (clock_reads s)))) db)
        ∧ faulty (fs s') = faulty (fs s)
        ∧ clock s' = clock s.
Proof.
  intros Hdb Hw. apply orb_false_elim in Hw as [Hw Hr].
  assert (Ht : truthy (view (database s)) = true) by by rewrite Hdb.
  destruct (saveDatabase_cases s Ht) as [[_ Hn]|(d' & _ & _ & Hl & ->)].
  { by rewrite Hdb in Hn. }
  rewrite Hdb in Hl. subst d'. rewrite Hw, Hr, view_Loaded_items.
  eexists. split; [done|]. simpl.
  rewrite after_backup_faulty. split_and!; try done.
  unfold after_backup. by repeat case_match.
Qed.

(** With an unwritable directory, every save of a truthy [this.database]
    throws, and the collection in memory is what it was. *)
Lemma saveDatabase_unwritable s :
  truthy (view (database s)) = true →
  write_fails (fs s) = true →
  ∃ cause s', saveDatabase s =
              (Thrown (DatabaseError "Failed to save database" (Some cause)), s')
              ∧ items_of (database s') = items_of (database s)
              ∧ dataFile (fs s') = dataFile (fs s).
Proof.
  intros Ht Hw.
  destruct (saveDatabase_cases s Ht) as [[[msg ->] _]|(d' & Hit & _ & _ & ->)].
  - do 2 eexists. split; [done|]. simpl.
    by rewrite after_backup_database, after_backup_dataFile.
  - unfold write_fails in Hw.
    destruct (faulty (fs s) sys_writeFile); simpl in Hw.
    + do 2 eexists. split; [done|]. simpl. by rewrite after_backup_dataFile.
    + rewrite Hw. do 2 eexists. split; [done|]. simpl. by rewrite after_backup_dataFile.
Qed.

(** ** The schemas *)

Lemma run_checks_nil {A} (p : list string) (a : A) : run_checks [] p a = [].
Proof. done. Qed.

Lemma run_checks_cons {A} (c : Check A) cs p a :
  run_checks (c :: cs) p a = [] ↔ c a = None ∧ run_checks cs p a = [].
Proof.
  unfold run_checks. simpl. destruct (c a); simpl; naive_solver.
Qed.

Lemma z_string_nil checks p v :
  z_string checks p v = [] ↔ ∃ s, v = VStr s ∧ run_checks checks p s = [].
Proof. destruct v; simpl; naive_solver. Qed.

Lemma z_number_nil checks p v :
  z_number checks p v = [] ↔ ∃ q, v = VNum q ∧ run_checks checks p q = [].
Proof. destruct v; simpl; naive_solver. Qed.

Lemma z_optional_nil inner p v :
  z_optional inner p v = [] ↔ v = VUndefined ∨ inner p v = [].
Proof. destruct v; simpl; naive_solver. Qed.

Lemma min_length_1_None msg s : min_length_1 msg s = None ↔ s ≠ "".
Proof.
  unfold min_length_1. destruct (String.eqb_spec s ""); naive_solver.
Qed.

Lemma uuid_check_None s : uuid_check s = None ↔ is_uuid s = true.
Proof. unfold uuid_check. destruct (is_uuid s); naive_solver. Qed.

Lemma datetime_check_None s : datetime_check s = None ↔ is_datetime s = true.
Proof. unfold datetime_check. destruct (is_datetime s); naive_solver. Qed.

Lemma int_check_None q : int_check q = None ↔ is_integer q = true.
Proof. unfold int_check. destruct (is_integer q); naive_solver. Qed.

Lemma min_check_None k msg q : min_check k msg q = None ↔ Qle_bool (inject_Z k) q = true.
Proof. unfold min_check. destruct (Qle_bool _ q); naive_solver. Qed.

Lemma FoodItemSchema_nil v : FoodItemSchema [] v = [] ↔ passes_FoodItem v.
Proof.
  unfold FoodItemSchema, z_object. split.
  - destruct v; try done. simpl flat_map. cbn [fst snd app].
    rewrite !app_nil. 
    rewrite !z_string_nil, !z_number_nil, !z_optional_nil, !z_string_nil.
    setoid_rewrite run_checks_cons.
    setoid_rewrite uuid_check_None. setoid_rewrite min_length_1_None.
    setoid_rewrite datetime_check_None. setoid_rewrite int_check_None.
    setoid_rewrite run_checks_cons. setoid_rewrite min_check_None.
    intros (Hid & Hname & Hq & Hu & He & Hc & Hl & Hn & Ha & Hm & _).
    split; try naive_solver.
  - intros [[props ->] Hid Hname Hq Hu He Hc Hl Hn Ha Hm].
    simpl flat_map. cbn [fst snd app].
    rewrite !app_nil.
    rewrite !z_string_nil, !z_number_nil, !z_optional_nil, !z_string_nil.
    setoid_rewrite run_checks_cons.
    setoid_rewrite uuid_check_None. setoid_rewrite min_length_1_None.
    setoid_rewrite datetime_check_None. setoid_rewrite int_check_None.
    setoid_rewrite run_checks_cons. setoid_rewrite min_check_None.
    naive_solver.
Qed.

Lemma own_prop_app k l1 l2 :
  own_prop k (l1 ++ l2) =
  match own_prop k l2 with
  | Some w => Some w
  | None => own_prop k l1
  end.
Proof.
  induction l1 as [|[k' v] l1 IH]; simpl.
  - by destruct (own_prop k l2).
  - rewrite IH. by destruct (own_prop k l2).
Qed.

(** The properties of a stored item, read back. *)
Lemma get_FoodItem_to_value (it : FoodItem.t) :
  get "id" (FoodItem.to_value it) = VStr (FoodItem.id it)
  ∧ get "name" (FoodItem.to_value it) = VStr (FoodItem.name it)
  ∧ get "quantity" (FoodItem.to_value it) = VInt (FoodItem.quantity it)
  ∧ get "unit" (FoodItem.to_value it) = VStr (FoodItem.unit it)
  ∧ get "expirationDate" (FoodItem.to_value it)
    = from_option VStr VUndefined (FoodItem.expirationDate it)
  ∧ get "category" (FoodItem.to_value it)
    = from_option VStr VUndefined (FoodItem.category it)
  ∧ get "location" (FoodItem.to_value it)
    = from_option VStr VUndefined (FoodItem.location it)
  ∧ get "notes" (FoodItem.to_value it)
    = from_option VStr VUndefined (FoodItem.notes it)
  ∧ get "addedDate" (FoodItem.to_value it) = VStr (FoodItem.addedDate it)
  ∧ get "lastModified" (FoodItem.to_value it) = VStr (FoodItem.lastModified it).
Proof.
  destruct it as [i n q u [e|] [c|] [l|] [o|] a m]; repeat split; reflexivity.
Qed.

Lemma VInt_passes (z : Z) (k : Z) :
  (k <= z)%Z → is_integer (inject_Z z) = true ∧ Qle_bool (inject_Z k) (inject_Z z) = true.
Proof.
  intros Hk. unfold is_integer, Qle_bool. simpl. split.
  - by rewrite Z.mod_1_r.
  - apply Z.leb_le. lia.
Qed.

Lemma as_integer_bound (q : Q) (k : Z) :
  is_integer q = true → Qle_bool (inject_Z k) q = true → (k <= as_integer (VNum q))%Z.
Proof.
  unfold is_integer, Qle_bool. simpl. intros Hi%Z.eqb_eq Hk%Z.leb_le.
  rewrite Z.mul_1_r in Hk.
  apply Z.div_le_lower_bound; lia.
Qed.

(** Whatever passes [FoodItemSchema] passes it again once stripped to the
    keys of the schema. *)
Lemma FoodItemSchema_of_value v :
  FoodItemSchema [] v = [] → valid_item (FoodItem.of_value v).
Proof.
  unfold valid_item. rewrite !FoodItemSchema_nil.
  intros [_ (i & Hi & ?) (n & Hn & ?) (q & Hq & ? & ?) (u & Hu & ?) He Hc Hl Ho
            (a & Ha & ?) (m & Hm & ?)].
  destruct (get_FoodItem_to_value (FoodItem.of_value v))
    as (Gi & Gn & Gq & Gu & Ge & Gc & Gl & Go & Ga & Gm).
  split; rewrite ?Gi, ?Gn, ?Gq, ?Gu, ?Ge, ?Gc, ?Gl, ?Go, ?Ga, ?Gm;
    unfold FoodItem.of_value; simpl;
    rewrite ?Hi, ?Hn, ?Hq, ?Hu, ?Ha, ?Hm; simpl; try by eauto.
  - exists (inject_Z (as_integer (VNum q))). split; [done|].
    apply VInt_passes. by apply as_integer_bound.
  - destruct He as [->|(s & -> & ?)]; simpl; eauto.
  - destruct Hc as [->|(s & ->)]; simpl; eauto.
  - destruct Hl as [->|(s & ->)]; simpl; eauto.
  - destruct Ho as [->|(s & ->)]; simpl; eauto.
Qed.

Lemma FoodItemSchema_parse_Returned v it :
  FoodItemSchema_parse v = Returned it ↔ FoodItemSchema [] v = [] ∧ it = FoodItem.of_value v.
Proof.
  unfold FoodItemSchema_parse, parse. destruct (FoodItemSchema [] v); naive_solver.
Qed.

Lemma FoodItemSchema_parse_Thrown v e :
  FoodItemSchema_parse v = Thrown e ↔
  e = ZodError (FoodItemSchema [] v) ∧ FoodItemSchema [] v ≠ [].
Proof.
  unfold FoodItemSchema_parse, parse. destruct (FoodItemSchema [] v); naive_solver.
Qed.

Lemma AddFoodItemRequestSchema_parse_Returned v r :
  AddFoodItemRequestSchema_parse v = Returned r ↔
  AddFoodItemRequestSchema [] v = [] ∧ r = AddFoodItemRequest.of_value v.
Proof.
  unfold AddFoodItemRequestSchema_parse, parse.
  destruct (AddFoodItemRequestSchema [] v); naive_solver.
Qed.

Lemma AddFoodItemRequestSchema_parse_Thrown v e :
  AddFoodItemRequestSchema_parse v = Thrown e ↔
  e = ZodError (AddFoodItemRequestSchema [] v) ∧ AddFoodItemRequestSchema [] v ≠ [].
Proof.
  unfold AddFoodItemRequestSchema_parse, parse.
  destruct (AddFoodItemRequestSchema [] v); naive_solver.
Qed.

Lemma passes_FoodItemSchema_Some v it :
  passes_FoodItemSchema v = Some it → FoodItemSchema [] v = [] ∧ it = FoodItem.of_value v.
Proof.
  unfold passes_FoodItemSchema.
  destruct (FoodItemSchema_parse v) eqn:Hp; [|done].
  intros [= <-]. by apply FoodItemSchema_parse_Returned.
Qed.

(** Every record the load-time filter keeps is valid. *)
Lemma omap_passes_valid (raw : list value) :
  Forall valid_item (omap passes_FoodItemSchema raw).
Proof.
  apply Forall_forall. intros it (v & _ & Hv)%list_elem_of_omap.
  apply passes_FoodItemSchema_Some in Hv as [Hv ->].
  by apply FoodItemSchema_of_value.
Qed.

Lemma AddFoodItemRequestSchema_nil v :
  AddFoodItemRequestSchema [] v = [] ↔ passes_AddFoodItemRequest v.
Proof.
  unfold AddFoodItemRequestSchema, z_object. split.
  - destruct v; try done. simpl flat_map. cbn [fst snd app].
    rewrite !app_nil.
    rewrite !z_string_nil, !z_number_nil, !z_optional_nil, !z_string_nil.
    setoid_rewrite run_checks_cons.
    setoid_rewrite min_length_1_None.
    setoid_rewrite datetime_check_None. setoid_rewrite int_check_None.
    setoid_rewrite run_checks_cons. setoid_rewrite min_check_None.
    intros (Hname & Hq & Hu & He & Hc & Hl & Hn & _).
    split; try naive_solver.
  - intros [[props ->] Hname Hq Hu He Hc Hl Hn].
    simpl flat_map. cbn [fst snd app].
    rewrite !app_nil.
    rewrite !z_string_nil, !z_number_nil, !z_optional_nil, !z_string_nil.
    setoid_rewrite run_checks_cons.
    setoid_rewrite min_length_1_None.
    setoid_rewrite datetime_check_None. setoid_rewrite int_check_None.
    setoid_rewrite run_checks_cons. setoid_rewrite min_check_None.
    naive_solver.
Qed.

Lemma get_newItem u (r : AddFoodItemRequest.t) now :
  get "id" (newItem u r now) = VStr u
  ∧ get "name" (newItem u r now) = VStr (AddFoodItemRequest.name r)
  ∧ get "quantity" (newItem u r now) = VInt (AddFoodItemRequest.quantity r)
  ∧ get "unit" (newItem u r now) = VStr (AddFoodItemRequest.unit r)
  ∧ get "expirationDate" (newItem u r now)
    = from_option VStr VUndefined (AddFoodItemRequest.expirationDate r)
  ∧ get "category" (newItem u r now)
    = from_option VStr VUndefined (AddFoodItemRequest.category r)
  ∧ get "location" (newItem u r now)
    = from_option VStr VUndefined (AddFoodItemRequest.location r)
  ∧ get "notes" (newItem u r now)
    = from_option VStr VUndefined (AddFoodItemRequest.notes r)
  ∧ get "addedDate" (newItem u r now) = VStr now
  ∧ get "lastModified" (newItem u r now) = VStr now.
Proof.
  destruct r as [n q un [e|] [c|] [l|] [o|]]; repeat split; reflexivity.
Qed.

(** A validated request, stamped with a well-formed identifier and a
    well-formed timestamp, passes [FoodItemSchema]: the second [parse] of
    [addFoodItem] cannot fail on its own. *)
Lemma newItem_passes request u now :
  AddFoodItemRequestSchema [] request = [] →
  is_uuid u = true →
  is_datetime now = true →
  FoodItemSchema [] (newItem u (AddFoodItemRequest.of_value request) now) = [].
Proof.
  rewrite AddFoodItemRequestSchema_nil, FoodItemSchema_nil.
  intros [_ (n & Hn & ?) (q & Hq & ? & ?) (un & Hu & ?) He Hc Hl Ho] Hid Hnow.
  destruct (get_newItem u (AddFoodItemRequest.of_value request) now)
    as (Gi & Gn & Gq & Gu & Ge & Gc & Gl & Go & Ga & Gm).
  split; rewrite ?Gi, ?Gn, ?Gq, ?Gu, ?Ge, ?Gc, ?Gl, ?Go, ?Ga, ?Gm;
    unfold AddFoodItemRequest.of_value; simpl;
    rewrite ?Hn, ?Hq, ?Hu; simpl; try by eauto.
  - exists (inject_Z (as_integer (VNum q))). split; [done|].
    apply VInt_passes. trans 1%Z; [done|]. by apply as_integer_bound.
  - destruct He as [->|(s & -> & ?)]; simpl; eauto.
  - destruct Hc as [->|(s & ->)]; simpl; eauto.
  - destruct Hl as [->|(s & ->)]; simpl; eauto.
  - destruct Ho as [->|(s & ->)]; simpl; eauto.
Qed.

(** The three keys written last in [updatedItem] win over the existing
    item and over the payload. *)
Lemma get_updatedItem existingItem updates now :
  get "id" (updatedItem existingItem updates now) = VStr (FoodItem.id existingItem)
  ∧ get "addedDate" (updatedItem existingItem updates now)
    = VStr (FoodItem.addedDate existingItem)
  ∧ get "lastModified" (updatedItem existingItem updates now) = VStr now.
Proof.
  unfold updatedItem, get. rewrite !app_assoc, !own_prop_app. done.
Qed.

(** ** [addFoodItem] *)

Lemma require_database_falsy s :
  truthy (view (database s)) = false →
  require_database s = (Thrown (DatabaseError "Database not initialized" None), s).
Proof. intros Hf. unfold require_database. unfold_M. by rewrite Hf. Qed.

Lemma require_database_Loaded s db :
  database s = Loaded db → require_database s = (Returned (), s).
Proof. intros Hdb. unfold require_database. unfold_M. by rewrite Hdb. Qed.

Lemma items_of_Some d l :
  items_of d = Some l ↔ ∃ db, d = Loaded db ∧ FridgeDatabase.items db = l.
Proof. destruct d; naive_solver. Qed.

(** A request that fails validation: the [ZodError] is caught and wrapped,
    nothing else has run. *)
Lemma addFoodItem_invalid request s e :
  AddFoodItemRequestSchema_parse request = Thrown e →
  addFoodItem request s =
  (Thrown (DatabaseError "Failed to add food item" (Some e)), s).
Proof.
  intros He. unfold addFoodItem. unfold_M. rewrite He.
  apply AddFoodItemRequestSchema_parse_Thrown in He as [-> _]. done.
Qed.

(** A request that passes both validations reaches the guard, the [push]
    and the save. *)
Lemma addFoodItem_valid request s :
  let u := uuid_source s (uuid_calls s) in
  let now := toISOString (clock s (clock_reads s)) in
  let item := FoodItem.of_value (newItem u (AddFoodItemRequest.of_value request) now) in
  let s1 := draw (tick s) in
  AddFoodItemRequestSchema [] request = [] →
  is_uuid u = true →
  is_datetime now = true →
  addFoodItem request s =
  match database s with
  | Unchecked v =>
      (Thrown (DatabaseError "Failed to add food item"
                 (Some (if truthy v
                        then TypeError "this.database.items is not an array"
                        else DatabaseError "Database not initialized" None))),
       s1)
  | Loaded db =>
      match saveDatabase
              (with_database
                 (Loaded (FridgeDatabase.with_items
                            (FridgeDatabase.items db ++ [item]) db)) s1) with
      | (Returned _, s2) => (Returned item, s2)
      | (Thrown e, s2) =>
          (Thrown (DatabaseError "Failed to add food item" (Some e)), s2)
      end
  end.
Proof.
  intros u now item s1 Hreq Hu Hnow.
  pose proof (newItem_passes request u now Hreq Hu Hnow) as Hitem.
  unfold addFoodItem, try_catch, bind, lift, new_Date, uuidv4.
  unfold AddFoodItemRequestSchema_parse, FoodItemSchema_parse, parse.
  rewrite Hreq. cbv beta iota. simpl uuid_source. simpl uuid_calls.
  fold u now. rewrite Hitem. fold s1 item.
  unfold require_database, items_of, items_array, set_items.
  unfold_M. simpl database.
  change (database s1) with (database s).
  destruct (database s) as [v|db] eqn:Hdb; simpl.
  - destruct (truthy v); simpl; [|done].
    change (database s1) with (database s). by rewrite Hdb.
  - change (database s1) with (database s). rewrite Hdb.
    change (database s1) with (database s). rewrite Hdb.
    destruct (saveDatabase _) as [[[]|e] s2] eqn:Hs; [done|].
    apply saveDatabase_Thrown in Hs as [[-> _]|[cause ->]]; done.
Qed.

(** The next save of a loaded collection that returns has put exactly that
    collection under [items] in the primary file. *)
Lemma saved_items s l s' :
  items_of (database s) = Some l →
  saveDatabase s = (Returned (), s') →
  ∃ doc, dataFile (fs s') = Some (Json doc)
         ∧ get "items" doc = VArr (FoodItem.to_value <$> l).
Proof.
  intros Hl Hs.
  pose proof (saveDatabase_items _ _ _ Hs) as Hit. rewrite Hl in Hit.
  apply items_of_Some in Hit as (db' & Hdb' & <-).
  apply saveDatabase_Returned in Hs as (Hd & _).
  rewrite Hdb' in Hd. eexists. split; [exact Hd|]. done.
Qed.

(** ** [removeFoodItem], [updateFoodItem] *)

Lemma removeFoodItem_Loaded id name s db :
  database s = Loaded db →
  given id || given name = true →
  removeFoodItem id name s =
  match list_find (λ item, Is_true (selected id name item)) (FridgeDatabase.items db) with
  | None =>
      (Thrown (NotFoundError
                 ("Food item not found" +:+
                  (if given id then " with id: " +:+ default "" id
                   else " with name: " +:+ default "" name))), s)
  | Some (itemIndex, removedItem) =>
      match saveDatabase
              (with_database
                 (Loaded (FridgeDatabase.with_items
                            (delete itemIndex (FridgeDatabase.items db)) db)) s) with
      | (Returned _, s') => (Returned removedItem, s')
      | (Thrown e, s') => (Thrown e, s')
      end
  end.
Proof.
  intros Hdb Hsel. unfold removeFoodItem.
  replace (negb (given id) && negb (given name)) with false
    by (by destruct (given id), (given name)).
  unfold bind. rewrite (require_database_Loaded s db Hdb).
  unfold items_array, bind, gets, ret. rewrite Hdb.
  destruct (list_find _ _) as [[i item]|]; [|done].
  unfold set_items, modify, bind. rewrite Hdb.
  by destruct (saveDatabase _) as [[[]|e] s2].
Qed.

Lemma updateFoodItem_Loaded id updates s db :
  database s = Loaded db →
  updateFoodItem id updates s =
  match list_find (λ item, FoodItem.id item = id) (FridgeDatabase.items db) with
  | None => (Thrown (NotFoundError ("Food item not found with id: " +:+ id)), s)
  | Some (itemIndex, existingItem) =>
      match FoodItemSchema_parse
              (updatedItem existingItem updates
                 (toISOString (clock s (clock_reads s)))) with
      | Thrown e => (Thrown e, tick s)
      | Returned validatedItem =>
          match saveDatabase
                  (with_database
                     (Loaded (FridgeDatabase.with_items
                                (<[itemIndex := validatedItem]> (FridgeDatabase.items db))
                                db)) (tick s)) with
          | (Returned _, s') => (Returned validatedItem, s')
          | (Thrown e, s') => (Thrown e, s')
          end
      end
  end.
Proof.
  intros Hdb. unfold updateFoodItem.
  unfold bind. rewrite (require_database_Loaded s db Hdb).
  unfold items_array, bind, gets, ret. rewrite Hdb.
  destruct (list_find _ _) as [[i item]|]; [|done].
  unfold new_Date, lift.
  destruct (FoodItemSchema_parse _) as [v|e]; [|done].
  unfold set_items, modify. change (database (tick s)) with (database s). rewrite Hdb.
  by destruct (saveDatabase _) as [[[]|e] s2].
Qed.

(** ** Claims about [addFoodItem] *)

(** C8. A request that fails validation leaves the store as it was:
    [addFoodItem] throws, the collection in memory is unchanged (same items,
    same length) and no file of the data directory is written. *)
Theorem addFoodItem_invalid_changes_nothing request s e :
  AddFoodItemRequestSchema_parse request = Thrown e →
  ∃ error s',
    addFoodItem request s = (Thrown error, s')
    ∧ database s' = database s
    ∧ fs s' = fs s.
Proof.
  intros He. rewrite (addFoodItem_invalid request s e He). by do 2 eexists.
Qed.

(** C9. When the durable write fails after a successful validation,
    [addFoodItem] throws a [DatabaseError], the new item stays in the
    collection in memory (the primary file is as before), and the next
    save of that collection that returns writes it, the item included. *)
Theorem addFoodItem_not_rolled_back request s db :
  database s = Loaded db →
  AddFoodItemRequestSchema [] request = [] →
  is_uuid (uuid_source s (uuid_calls s)) = true →
  is_datetime (toISOString (clock s (clock_reads s))) = true →
  write_fails (fs s) = true →
  ∃ cause s',
    addFoodItem request s =
    (Thrown (DatabaseError "Failed to add food item"
               (Some (DatabaseError "Failed to save database" (Some cause)))), s')
    ∧ items_of (database s') = Some (FridgeDatabase.items db ++ [stamped request s])
    ∧ dataFile (fs s') = dataFile (fs s)
    ∧ ∀ s2 s3,
        database s2 = database s' →
        saveDatabase s2 = (Returned (), s3) →
        ∃ doc, dataFile (fs s3) = Some (Json doc)
               ∧ get "items" doc
                 = VArr (FoodItem.to_value
                           <$> (FridgeDatabase.items db ++ [stamped request s])).
Proof.
  intros Hdb Hreq Hu Hnow Hw.
  rewrite (addFoodItem_valid request s Hreq Hu Hnow), Hdb.
  fold (stamped request s).
  set (s1 := with_database _ _).
  destruct (saveDatabase_unwritable s1) as (cause & s' & -> & Hit & Hd); [done..|].
  exists cause, s'. split_and!; [done..|].
  intros s2 s3 Hs2 Hs3. apply (saved_items s2); [|done]. by rewrite Hs2.
Qed.

(** C10 (as amended). Before [initialize] has run, [removeFoodItem] (with a
    selector), [listFoodItems], [getFoodItemById], [updateFoodItem] and
    [getStats] throw [DatabaseError('Database not initialized')] and change
    nothing; [addFoodItem] with a valid request throws
    [DatabaseError('Failed to add food item')], whose original error is
    that one, and leaves [this.database] null and the files untouched. *)
Theorem not_initialized s :
  database s = Unchecked VNull →
  (∀ request,
     AddFoodItemRequestSchema [] request = [] →
     is_uuid (uuid_source s (uuid_calls s)) = true →
     is_datetime (toISOString (clock s (clock_reads s))) = true →
     ∃ s', addFoodItem request s =
           (Thrown (DatabaseError "Failed to add food item"
                      (Some (DatabaseError "Database not initialized" None))), s')
           ∧ database s' = Unchecked VNull
           ∧ fs s' = fs s)
  ∧ (∀ id name,
       given id || given name = true →
       removeFoodItem id name s =
       (Thrown (DatabaseError "Database not initialized" None), s))
  ∧ (∀ request,
       listFoodItems request s =
       (Thrown (DatabaseError "Database not initialized" None), s))
  ∧ (∀ id,
       getFoodItemById id s =
       (Thrown (DatabaseError "Database not initialized" None), s))
  ∧ (∀ id updates,
       updateFoodItem id updates s =
       (Thrown (DatabaseError "Database not initialized" None), s))
  ∧ getStats s = (Thrown (DatabaseError "Database not initialized" None), s).
Proof.
  intros Hdb.
  assert (Hreq : require_database s =
                 (Thrown (DatabaseError "Database not initialized" None), s)).
  { apply require_database_falsy. by rewrite Hdb. }
  split_and!.
  - intros request Hr Hu Hnow.
    rewrite (addFoodItem_valid request s Hr Hu Hnow), Hdb. simpl.
    by eexists.
  - intros id name Hsel. unfold removeFoodItem.
    replace (negb (given id) && negb (given name)) with false
      by (by destruct (given id), (given name)).
    unfold bind. by rewrite Hreq.
  - intros request. unfold listFoodItems, bind. by rewrite Hreq.
  - intros id. unfold getFoodItemById, bind. by rewrite Hreq.
  - intros id updates. unfold updateFoodItem, bind. by rewrite Hreq.
  - unfold getStats, bind. by rewrite Hreq.
Qed.

(** ** Claims about [removeFoodItem] and [updateFoodItem] *)

(** What the callback of [findIndex] accepts: the identifier when one is
    supplied, or the name (compared in lower case) when one is supplied. *)
Lemma selected_spec id name item :
  selected id name item = true ↔
  (given id = true ∧ id = Some (FoodItem.id item))
  ∨ (given name = true
     ∧ toLowerCase <$> name = Some (toLowerCase (FoodItem.name item))).
Proof.
  unfold selected.
  rewrite orb_true_iff, !andb_true_iff, !bool_decide_eq_true. naive_solver.
Qed.

(** The outcome of a mutating method whose in-memory change is done: the
    result of its save decides. *)
Lemma save_outcome s :
  truthy (view (database s)) = true →
  ∃ r s', saveDatabase s = (r, s')
          ∧ items_of (database s') = items_of (database s)
          ∧ (r = Returned ()
             ∨ ∃ cause, r = Thrown (DatabaseError "Failed to save database" (Some cause)))
          ∧ (match database s with Loaded _ => True | Unchecked _ => False end →
             write_fails (fs s) = false → r = Returned ()).
Proof.
  intros Ht. destruct (saveDatabase s) as [r s'] eqn:Hs. exists r, s'.
  split_and!; [done|by eapply saveDatabase_items| |].
  - destruct r as [[]|e]; [by left|right].
    apply saveDatabase_Thrown in Hs as [[_ Hf]|[cause ->]]; [congruence|by eauto].
  - destruct (database s) as [|db] eqn:Hdb; [done|]. intros _ Hw.
    destruct (saveDatabase_Loaded_writable s db Hdb Hw) as (s'' & Hs'' & _).
    congruence.
Qed.

(** C4 (as amended). With a selector supplied and a loaded collection,
    [removeFoodItem] looks for the first item, in collection order, whose
    identifier is the [id] argument (when [id] is given) or whose name
    equals the [name] argument in lower case (when [name] is given); the
    name decides alone exactly when no [id] is given. That first item is
    removed from the collection and, if the save returns, returned; when no
    item is accepted the method throws a [NotFoundError] naming the [id] if
    one was given, else the [name], and changes nothing. *)
Theorem removeFoodItem_first_selected id name s db :
  database s = Loaded db →
  given id || given name = true →
  (∀ item, given id = false →
           (selected id name item = true ↔
            toLowerCase <$> name = Some (toLowerCase (FoodItem.name item))))
  ∧ (∀ item, given name = false →
             (selected id name item = true ↔ id = Some (FoodItem.id item)))
  ∧ (∀ i item,
       FridgeDatabase.items db !! i = Some item →
       selected id name item = true →
       (∀ j other, FridgeDatabase.items db !! j = Some other → (j < i)%nat →
                   selected id name other = false) →
       ∃ r s',
         removeFoodItem id name s = (r, s')
         ∧ items_of (database s') = Some (delete i (FridgeDatabase.items db))
         ∧ (r = Returned item
            ∨ ∃ cause, r = Thrown (DatabaseError "Failed to save database" (Some cause)))
         ∧ (write_fails (fs s) = false → r = Returned item))
  ∧ ((∀ item, item ∈ FridgeDatabase.items db → selected id name item = false) →
     removeFoodItem id name s =
     (Thrown (NotFoundError
                ("Food item not found" +:+
                 (if given id then " with id: " +:+ default "" id
                  else " with name: " +:+ default "" name))), s)).
Proof.
  intros Hdb Hsel. split_and!.
  - intros item Hid. rewrite selected_spec, Hid. rewrite Hid in Hsel. simpl in Hsel.
    split; [by intros [[? _]|[_ ?]]|by right].
  - intros item Hname. rewrite selected_spec, Hname.
    rewrite Hname, orb_false_r in Hsel.
    split; [by intros [[_ ?]|[? _]]|by left].
  - intros i item Hi Hitem Hfirst.
    rewrite (removeFoodItem_Loaded id name s db Hdb Hsel).
    assert (Hfind : list_find (λ item, Is_true (selected id name item))
                      (FridgeDatabase.items db) = Some (i, item)).
    { apply list_find_Some. split_and!; [done|by apply Is_true_true|].
      intros j other Hj Hlt. rewrite (Hfirst j other Hj Hlt). by intros []. }
    rewrite Hfind.
    set (s1 := with_database _ s).
    destruct (save_outcome s1) as (r & s' & -> & Hit & Hr & Hok); [done|].
    destruct Hr as [->|[cause ->]].
    + do 2 eexists. split_and!; [done|done|by left|done].
    + do 2 eexists. split_and!; [done|done|by eauto|].
      intros Hw. by specialize (Hok I Hw).
  - intros Hnone.
    rewrite (removeFoodItem_Loaded id name s db Hdb Hsel).
    replace (list_find _ _) with (@None (nat * FoodItem.t)); [done|].
    symmetry. apply list_find_None, Forall_forall. intros item Hin.
    rewrite (Hnone item Hin). by intros [].
Qed.

(** C5. For a stored item and any payload, the record [updateFoodItem]
    validates has the identifier and the [addedDate] of the existing
    record, whatever the payload says, and the current time as
    [lastModified]; when it passes validation it replaces the existing
    record in the collection and, if the save returns, is returned; when
    it fails validation the method throws the validation failure and the
    collection and the files are as before. *)
Theorem updateFoodItem_keeps_identity id updates s db i existingItem :
  database s = Loaded db →
  FridgeDatabase.items db !! i = Some existingItem →
  FoodItem.id existingItem = id →
  (∀ j other, FridgeDatabase.items db !! j = Some other → (j < i)%nat →
              FoodItem.id other ≠ id) →
  ∃ r s',
    updateFoodItem id updates s = (r, s')
    ∧ match FoodItemSchema_parse
              (updatedItem existingItem updates
                 (toISOString (clock s (clock_reads s)))) with
      | Returned validatedItem =>
          FoodItem.id validatedItem = FoodItem.id existingItem
          ∧ FoodItem.addedDate validatedItem = FoodItem.addedDate existingItem
          ∧ FoodItem.lastModified validatedItem
            = toISOString (clock s (clock_reads s))
          ∧ items_of (database s')
            = Some (<[i := validatedItem]> (FridgeDatabase.items db))
          ∧ (r = Returned validatedItem
             ∨ ∃ cause,
                 r = Thrown (DatabaseError "Failed to save database" (Some cause)))
          ∧ (write_fails (fs s) = false → r = Returned validatedItem)
      | Thrown e =>
          r = Thrown e ∧ database s' = database s ∧ fs s' = fs s
      end.
Proof.
  intros Hdb Hi Hid Hfirst.
  rewrite (updateFoodItem_Loaded id updates s db Hdb).
  assert (Hfind : list_find (λ item, FoodItem.id item = id)
                    (FridgeDatabase.items db) = Some (i, existingItem)).
  { apply list_find_Some. split_and!; [done..|]. intros j other Hj Hlt.
    by apply (Hfirst j other). }
  rewrite Hfind.
  destruct (FoodItemSchema_parse _) as [v|e] eqn:Hp.
  - apply FoodItemSchema_parse_Returned in Hp as [_ ->].
    destruct (get_updatedItem existingItem updates
                (toISOString (clock s (clock_reads s)))) as (Gi & Ga & Gm).
    set (v := FoodItem.of_value _).
    set (s1 := with_database _ (tick s)).
    destruct (save_outcome s1) as (r & s' & -> & Hit & Hr & Hok); [done|].
    assert (Hfields : FoodItem.id v = FoodItem.id existingItem
                      ∧ FoodItem.addedDate v = FoodItem.addedDate existingItem
                      ∧ FoodItem.lastModified v
                        = toISOString (clock s (clock_reads s))).
    { unfold v, FoodItem.of_value.
      cbn [FoodItem.id FoodItem.addedDate FoodItem.lastModified].
      by rewrite Gi, Ga, Gm. }
    destruct Hfields as (? & ? & ?).
    destruct Hr as [->|[cause ->]].
    + do 2 eexists. split; [done|]. split_and!; [done..|by left|done].
    + do 2 eexists. split; [done|]. split_and!; [done..|by eauto|].
      intros Hw. by specialize (Hok I Hw).
  - do 2 eexists. split; [done|]. done.
Qed.

(** ** [listFoodItems] *)

Lemma insert_sorted_Permutation {A} (cmp : A → A → Z) x l :
  insert_sorted cmp x l ≡ₚ x :: l.
Proof.
  induction l as [|y l IH]; simpl; [done|].
  destruct (cmp x y <=? 0)%Z; [done|]. rewrite IH. apply Permutation_swap.
Qed.

(** [sort] neither drops nor duplicates anything. *)
Lemma sort_Permutation {A} (cmp : A → A → Z) l : sort cmp l ≡ₚ l.
Proof.
  induction l as [|x l IH]; simpl; [done|].
  by rewrite insert_sorted_Permutation, IH.
Qed.

Lemma filter_twice {A} (f g : A → bool) l :
  List.filter g (List.filter f l) = List.filter (λ x, f x && g x) l.
Proof.
  induction l as [|x l IH]; simpl; [done|].
  destruct (f x); simpl; [|done]. destruct (g x); by rewrite IH.
Qed.

Lemma filter_all {A} (l : list A) : List.filter (λ _, true) l = l.
Proof. induction l; simpl; congruence. Qed.

(** The two optional filters, applied one after the other. *)
Lemma category_location_filters request l :
  (let items :=
     if given (ListFoodItemsRequest.category request)
     then List.filter
            (λ item, field_includes (FoodItem.category item)
                       (default "" (ListFoodItemsRequest.category request))) l
     else l in
   if given (ListFoodItemsRequest.location request)
   then List.filter
          (λ item, field_includes (FoodItem.location item)
                     (default "" (ListFoodItemsRequest.location request))) items
   else items)
  = List.filter (matches_filters request) l.
Proof.
  unfold matches_filters. cbv zeta.
  destruct (given (ListFoodItemsRequest.category request)),
           (given (ListFoodItemsRequest.location request)); simpl.
  - apply filter_twice.
  - apply filter_ext. intros item. by rewrite andb_true_r.
  - done.
  - by rewrite filter_all.
Qed.

(** While the clock stands at [now], the callback of the expiring-soon
    filter decides [expires_within]. *)
Lemma expires_by_frozen now days item s :
  (∀ n, clock s n = now) →
  ∃ s', expires_by (addDays now days) item s
        = (Returned (expires_within now days item), s')
        ∧ fs s' = fs s ∧ database s' = database s ∧ clock s' = clock s.
Proof.
  intros Hclock. unfold expires_by, expires_within.
  destruct (FoodItem.expirationDate item) as [text|]; [|by eexists].
  destruct (nonempty text); simpl; [|by eexists].
  destruct (Date_parse text) as [e|]; [|by eexists].
  destruct (addDays now days) as [threshold|]; [|by eexists].
  destruct (e <=? threshold)%Z.
  - unfold bind, new_Date, ret. rewrite Hclock, andb_true_r. by eexists.
  - rewrite andb_false_r. by eexists.
Qed.

Lemma filterM_expires_by_frozen now days l s :
  (∀ n, clock s n = now) →
  ∃ s', filterM (expires_by (addDays now days)) l s
        = (Returned (List.filter (expires_within now days) l), s')
        ∧ fs s' = fs s ∧ database s' = database s ∧ clock s' = clock s.
Proof.
  revert s. induction l as [|item l IH]; intros s Hclock; simpl.
  - by eexists.
  - unfold bind.
    destruct (expires_by_frozen now days item s Hclock) as (s1 & -> & Hf1 & Hd1 & Hc1).
    destruct (IH s1) as (s2 & -> & Hf2 & Hd2 & Hc2).
    { intros n. by rewrite Hc1. }
    exists s2. split; [|split_and!; congruence].
    unfold ret. by destruct (expires_within now days item).
Qed.






(** ** [loadDatabase] and [initialize] *)

(** Reading and parsing a file either hands its document to what follows
    or throws without any effect. *)
Lemma read_and_parse {A} (p : Path) (k : value → M A) s :
  (∃ doc, bind (readFile p) (λ data, bind (JSON_parse data) k) s = k doc s
          ∧ faulty (fs s) (sys_readFile p) = false
          ∧ file_at p (fs s) = Some (Json doc))
  ∨ (∃ e, bind (readFile p) (λ data, bind (JSON_parse data) k) s = (Thrown e, s)
          ∧ unreadable p (fs s) = true).
Proof.
  unfold readFile, syscall, existing, JSON_parse, bind, unreadable.
  destruct (faulty (fs s) (sys_readFile p)); simpl; [by right; eexists|].
  destruct (file_at p (fs s)) as [[text|doc]|]; [by right; eexists| |by right; eexists].
  left. by exists doc.
Qed.

Lemma createEmptyDatabase_eq s :
  createEmptyDatabase s =
  (Returned {| FridgeDatabase.items := [];
               FridgeDatabase.lastModified := VStr (toISOString (clock s (clock_reads s)));
               FridgeDatabase.version := VStr "1.0.0" |}, tick s).
Proof. done. Qed.

(** The last resort of [read_envelope]: an empty envelope, written out. *)
Lemma start_empty_database s r s' :
  bind createEmptyDatabase
    (λ db, bind (modify (with_database (Loaded db))) (λ _, saveDatabase)) s = (r, s') →
  ∃ db, database s' = Loaded db ∧ FridgeDatabase.items db = [].
Proof.
  unfold bind at 1. rewrite createEmptyDatabase_eq. unfold bind, modify.
  intros Hs%saveDatabase_items. simpl in Hs.
  by apply items_of_Some in Hs.
Qed.

(** Whatever happens in [read_envelope], it leaves either an unchecked
    document or the empty envelope in [this.database]. *)
Lemma read_envelope_database s r s' :
  read_envelope s = (r, s') →
  (∃ v, database s' = Unchecked v)
  ∨ (∃ db, database s' = Loaded db ∧ FridgeDatabase.items db = []).
Proof.
  unfold read_envelope. unfold try_catch at 1.
  destruct (read_and_parse dataPath (λ v, modify (with_database (Unchecked v))) s)
    as [(doc & -> & _)|(e & -> & _)].
  { unfold modify. intros [= <- <-]. left. by eexists. }
  unfold try_catch.
  destruct (read_and_parse backupPath
              (λ v, bind (modify (with_database (Unchecked v))) (λ _, saveDatabase)) s)
    as [(doc & -> & _)|(e' & -> & _)].
  - unfold bind at 1. unfold modify at 1.
    destruct (saveDatabase _) as [[[]|e2] s2] eqn:Hs.
    + intros [= <- <-]. apply saveDatabase_items in Hs. simpl in Hs.
      left. destruct (database s2); [by eexists|done].
    + intros Hempty. right. by eapply start_empty_database.
  - intros Hempty. right. by eapply start_empty_database.
Qed.

Lemma check_envelope_eq s :
  check_envelope s =
  let doc := view (database s) in
  if negb (truthy doc) || negb (isArray (get "items" doc))
  then (Thrown (PlainError "Invalid database structure"), s)
  else if truthy (FridgeDatabase.version (filtered doc))
       then (Returned (), with_database (Loaded (filtered doc)) s)
       else saveDatabase
              (with_database
                 (Loaded (FridgeDatabase.with_version (VStr "1.0.0") (filtered doc))) s).
Proof.
  unfold check_envelope. unfold_M. cbv zeta.
  destruct (negb (truthy _) || negb (isArray _)); [done|].
  destruct (truthy (FridgeDatabase.version _)); simpl; [done|].
  by destruct (saveDatabase _) as [[[]|e] s'].
Qed.

(** [check_envelope] either rejects the structure and leaves it where it
    is, or installs the filtered envelope. *)
Lemma check_envelope_database s r s' :
  check_envelope s = (r, s') →
  let doc := view (database s) in
  (r = Thrown (PlainError "Invalid database structure")
   ∧ s' = s
   ∧ (truthy doc && isArray (get "items" doc)) = false)
  ∨ ((truthy doc && isArray (get "items" doc)) = true
     ∧ items_of (database s') = Some (FridgeDatabase.items (filtered doc))
     ∧ (truthy (get "version" doc) = true → r = Returned ())
     ∧ (write_fails (fs s) = false → r = Returned ())).
Proof.
  rewrite check_envelope_eq. cbv zeta.
  destruct (truthy (view (database s))); simpl;
    [|intros [= <- <-]; by left].
  destruct (isArray (get "items" (view (database s)))); simpl;
    [|intros [= <- <-]; by left].
  destruct (truthy (get "version" (view (database s)))) eqn:Hv.
  - intros [= <- <-]. right. done.
  - intros Hs. right. split; [done|]. split; [|split; [done|]].
    + by apply saveDatabase_items in Hs.
    + intros Hw.
      destruct (saveDatabase_Loaded_writable
                  (with_database
                     (Loaded (FridgeDatabase.with_version (VStr "1.0.0")
                                (filtered (view (database s))))) s)
                  (FridgeDatabase.with_version (VStr "1.0.0")
                     (filtered (view (database s)))) eq_refl Hw)
        as (s'' & Hs'' & _).
      rewrite Hs'' in Hs. congruence.
Qed.

(** A [Loaded] envelope always passes the structure check, and filtering
    an empty collection gives an empty collection. *)
Lemma view_Loaded_accepted db :
  truthy (FridgeDatabase.to_value db) && isArray (get "items" (FridgeDatabase.to_value db))
  = true.
Proof. done. Qed.

Lemma filtered_empty db :
  FridgeDatabase.items db = [] →
  FridgeDatabase.items (filtered (FridgeDatabase.to_value db)) = [].
Proof. unfold filtered. simpl. by intros ->. Qed.

(** C6. After a load, every item of the collection in memory passes
    [FoodItemSchema]; and when the primary file holds an envelope whose
    [items] is an array, the collection is that array without the records
    that fail validation (they are dropped, the others are kept as they
    are and in order), and the load returns whenever the envelope has a
    version or the directory can be written: a corrupt record does not
    stop the store from starting. *)
Theorem loadDatabase_keeps_valid_items s r s' :
  loadDatabase s = (r, s') →
  (∀ db, database s' = Loaded db → Forall valid_item (FridgeDatabase.items db))
  ∧ (∀ doc raw,
       faulty (fs s) (sys_readFile dataPath) = false →
       dataFile (fs s) = Some (Json doc) →
       truthy doc = true →
       get "items" doc = VArr raw →
       items_of (database s') = Some (omap passes_FoodItemSchema raw)
       ∧ (truthy (get "version" doc) = true → r = Returned ())
       ∧ (write_fails (fs s) = false → r = Returned ())).
Proof.
  unfold loadDatabase, try_catch, bind.
  destruct (read_envelope s) as [r1 s1] eqn:Hread. intros Hload.
  assert (Hcases :
    ∃ r2, (r1 = Returned () → check_envelope s1 = (r2, s')
                              ∧ (∀ e, r2 = Thrown e →
                                      r = Thrown (DatabaseError "Failed to load database" (Some e)))
                              ∧ (r2 = Returned () → r = Returned ()))
          ∧ (∀ e, r1 = Thrown e → s' = s1)).
  { destruct r1 as [[]|e1].
    - destruct (check_envelope s1) as [[[]|e2] s2] eqn:Hcheck;
        injection Hload as <- <-.
      + exists (Returned ()). split; [|done]. intros _. split; [done|]. done.
      + exists (Thrown e2). split; [|done]. intros _. split; [done|].
        split; [by intros ? [= <-]|done].
    - injection Hload as <- <-. exists (Returned ()). split; [done|]. done. }
  clear Hload. destruct Hcases as (r2 & Hok & Hthrown).
  split.
  - intros db Hdb.
    destruct (read_envelope_database s r1 s1 Hread) as [[v Hv]|(db1 & Hdb1 & Hnil)].
    + destruct r1 as [[]|e1].
      * destruct (Hok eq_refl) as (Hcheck & _).
        destruct (check_envelope_database s1 r2 s' Hcheck) as [(_ & -> & _)|(_ & Hit & _)].
        { congruence. }
        rewrite Hdb in Hit. simpl in Hit. injection Hit as ->.
        apply omap_passes_valid.
      * rewrite (Hthrown e1 eq_refl) in Hdb. congruence.
    + destruct r1 as [[]|e1].
      * destruct (Hok eq_refl) as (Hcheck & _).
        destruct (check_envelope_database s1 r2 s' Hcheck) as [(_ & -> & _)|(_ & Hit & _)].
        { rewrite Hdb1 in Hdb. injection Hdb as <-. by rewrite Hnil. }
        rewrite Hdb in Hit. simpl in Hit. injection Hit as ->.
        apply omap_passes_valid.
      * rewrite (Hthrown e1 eq_refl), Hdb1 in Hdb. injection Hdb as <-.
        by rewrite Hnil.
  - intros doc raw Hfault Hfile Hdoc Hitems.
    assert (Hr1 : read_envelope s = (Returned (), with_database (Unchecked doc) s)).
    { unfold read_envelope, try_catch.
      destruct (read_and_parse dataPath (λ v, modify (with_database (Unchecked v))) s)
        as [(doc' & -> & _ & Hfile')|(e & _ & Hun)].
      - simpl in Hfile'. rewrite Hfile in Hfile'. by injection Hfile' as <-.
      - unfold unreadable in Hun. simpl in Hun. by rewrite Hfault, Hfile in Hun. }
    rewrite Hr1 in Hread. injection Hread as <- <-.
    destruct (Hok eq_refl) as (Hcheck & Hfail & Hret).
    destruct (check_envelope_database _ r2 s' Hcheck) as [(_ & _ & Hrej)|(_ & Hit & Hv & Hw)].
    { simpl in Hrej. by rewrite Hdoc, Hitems in Hrej. }
    simpl in Hit, Hv, Hw. unfold filtered in Hit. simpl in Hit.
    rewrite Hitems in Hit. simpl in Hit.
    split; [done|]. split; intros ?; apply Hret; auto.
Qed.

(** C3 (as amended). Every [saveDatabase] that gets past its null guard
    first copies the primary file, when there is one and neither [access]
    nor [copyFile] fails, over the backup, whatever the primary holds; so
    after the save the backup has the contents the primary had just before
    it, and it is left alone when there was no primary. A save that
    returns has put the serialized envelope in the primary file. *)
Theorem saveDatabase_backs_up_primary s r s' :
  saveDatabase s = (r, s') →
  truthy (view (database s)) = true →
  (∀ c, dataFile (fs s) = Some c →
        faulty (fs s) sys_access = false →
        faulty (fs s) sys_copyFile = false →
        backupFile (fs s') = Some c)
  ∧ (dataFile (fs s) = None → backupFile (fs s') = backupFile (fs s))
  ∧ (r = Returned () → dataFile (fs s') = Some (Json (view (database s')))).
Proof.
  intros Hs Ht.
  assert (Hb : backupFile (fs s') = backupFile (fs (after_backup s))).
  { destruct (saveDatabase_cases s Ht) as [[[msg Hm] _]|(d' & _ & _ & _ & Hd)].
    - rewrite Hm in Hs. by injection Hs as <- <-.
    - rewrite Hd in Hs. repeat case_match; by injection Hs as <- <-. }
  split_and!.
  - intros c Hc Ha Hcp. rewrite Hb. unfold after_backup. by rewrite Ha, Hcp, Hc.
  - intros Hc. rewrite Hb. unfold after_backup. rewrite Hc. by case_match.
  - intros ->. by apply saveDatabase_Returned in Hs as (? & _).
Qed.

Lemma read_envelope_unreadable s :
  unreadable dataPath (fs s) = true →
  unreadable backupPath (fs s) = true →
  read_envelope s =
  bind createEmptyDatabase
    (λ db, bind (modify (with_database (Loaded db))) (λ _, saveDatabase)) s.
Proof.
  intros Hp Hb. unfold read_envelope. unfold try_catch at 1.
  destruct (read_and_parse dataPath (λ v, modify (with_database (Unchecked v))) s)
    as [(doc & _ & Hf & Hfile)|(e & -> & _)].
  { unfold unreadable in Hp. by rewrite Hf, Hfile in Hp. }
  unfold try_catch.
  destruct (read_and_parse backupPath
              (λ v, bind (modify (with_database (Unchecked v))) (λ _, saveDatabase)) s)
    as [(doc & _ & Hf & Hfile)|(e' & -> & _)].
  { unfold unreadable in Hb. by rewrite Hf, Hfile in Hb. }
  done.
Qed.

(** C2 (as amended). When neither the primary file nor the backup can be
    read and parsed, and the directory can be created and written,
    [initialize] returns with an empty envelope of version 1.0.0 in memory
    and on disk, and [listFoodItems({})] then returns no item. *)
Theorem initialize_starts_empty s :
  unreadable dataPath (fs s) = true →
  unreadable backupPath (fs s) = true →
  faulty (fs s) sys_mkdir = false →
  write_fails (fs s) = false →
  ∃ s',
    initialize s = (Returned (), s')
    ∧ (∃ stamp, database s'
                = Loaded {| FridgeDatabase.items := [];
                            FridgeDatabase.lastModified := stamp;
                            FridgeDatabase.version := VStr "1.0.0" |})
    ∧ dataFile (fs s') = Some (Json (view (database s')))
    ∧ ∃ s'', listFoodItems ListFoodItemsRequest.empty s' = (Returned [], s'').
Proof.
  intros Hp Hb Hm Hw.
  unfold initialize, try_catch, bind, mkdir, syscall. rewrite Hm.
  unfold loadDatabase, try_catch, bind.
  rewrite (read_envelope_unreadable s Hp Hb).
  unfold bind at 1. rewrite createEmptyDatabase_eq. unfold bind, modify.
  set (s1 := with_database _ (tick s)).
  destruct (saveDatabase_Loaded_writable s1 _ eq_refl Hw) as (s2 & Hs2 & Hdb2 & _).
  rewrite Hs2, check_envelope_eq, Hdb2. simpl.
  eexists. split; [done|]. simpl. split; [by eexists|].
  apply saveDatabase_Returned in Hs2 as (Hd & _). rewrite Hd, Hdb2.
  split; [done|].
  unfold listFoodItems, bind, require_database, items_array, gets, ret. simpl.
  by eexists.
Qed.

(** ** Further consequences *)

(** X18. [removeFoodItem] behaves like [addFoodItem] when the directory
    cannot be written: the error of the save reaches the caller, the item
    is gone from the collection in memory and the primary file is as
    before. *)
Lemma removeFoodItem_not_rolled_back id name s db i item :
  database s = Loaded db →
  list_find (λ item, Is_true (selected id name item)) (FridgeDatabase.items db)
  = Some (i, item) →
  given id || given name = true →
  write_fails (fs s) = true →
  ∃ cause s',
    removeFoodItem id name s
    = (Thrown (DatabaseError "Failed to save database" (Some cause)), s')
    ∧ items_of (database s') = Some (delete i (FridgeDatabase.items db))
    ∧ dataFile (fs s') = dataFile (fs s).
Proof.
  intros Hdb Hfind Hsel Hw.
  rewrite (removeFoodItem_Loaded id name s db Hdb Hsel), Hfind.
  set (s1 := with_database _ s).
  destruct (saveDatabase_unwritable s1) as (cause & s' & -> & Hit & Hd); [done..|].
  by exists cause, s'.
Qed.

(** X19. So does [updateFoodItem]: when the merged record is valid and
    the directory cannot be written, the error of the save reaches the
    caller, the record is replaced in memory and the primary file is as
    before. *)
Lemma updateFoodItem_not_rolled_back id updates s db i existingItem validatedItem :
  database s = Loaded db →
  list_find (λ item, FoodItem.id item = id) (FridgeDatabase.items db)
  = Some (i, existingItem) →
  FoodItemSchema_parse
    (updatedItem existingItem updates (toISOString (clock s (clock_reads s))))
  = Returned validatedItem →
  write_fails (fs s) = true →
  ∃ cause s',
    updateFoodItem id updates s
    = (Thrown (DatabaseError "Failed to save database" (Some cause)), s')
    ∧ items_of (database s')
      = Some (<[i := validatedItem]> (FridgeDatabase.items db))
    ∧ dataFile (fs s') = dataFile (fs s).
Proof.
  intros Hdb Hfind Hp Hw.
  rewrite (updateFoodItem_Loaded id updates s db Hdb), Hfind, Hp.
  set (s1 := with_database _ (tick s)).
  destruct (saveDatabase_unwritable s1) as (cause & s' & -> & Hit & Hd); [done..|].
  by exists cause, s'.
Qed.




(** ** Further properties of the store *)

Lemma FoodItem_of_to_value it : FoodItem.of_value (FoodItem.to_value it) = it.
Proof.
  destruct it as [i n q u [e|] [c|] [l|] [o|] a m];
    unfold FoodItem.of_value, FoodItem.to_value, as_integer, VInt; simpl;
    by rewrite Z.div_1_r.
Qed.

Lemma passes_to_value it :
  valid_item it → passes_FoodItemSchema (FoodItem.to_value it) = Some it.
Proof.
  unfold valid_item, passes_FoodItemSchema, FoodItemSchema_parse, parse.
  intros ->. by rewrite FoodItem_of_to_value.
Qed.

(** Decoding what was encoded gives the collection back, when its items
    are valid. *)
Lemma omap_passes_to_value l :
  Forall valid_item l → omap passes_FoodItemSchema (FoodItem.to_value <$> l) = l.
Proof.
  induction 1 as [|it l Hit _ IH]; csimpl; [done|].
  rewrite (passes_to_value it Hit). csimpl. by rewrite IH.
Qed.

(** The guard and the read of [this.database.items] that open most
    methods. *)
Lemma guarded_Loaded {A} (k : list FoodItem.t → M A) s db :
  database s = Loaded db →
  bind require_database (λ _, bind items_array k) s = k (FridgeDatabase.items db) s.
Proof.
  intros Hdb. unfold bind. rewrite (require_database_Loaded s db Hdb).
  unfold items_array, bind, gets, ret. by rewrite Hdb.
Qed.

Lemma guarded_Unchecked {A} (k : list FoodItem.t → M A) s v :
  database s = Unchecked v →
  bind require_database (λ _, bind items_array k) s
  = (Thrown (if truthy v then TypeError "this.database.items is not an array"
             else DatabaseError "Database not initialized" None), s).
Proof.
  intros Hdb. unfold bind, require_database, items_array, bind, gets, ret, throw.
  rewrite Hdb. simpl. destruct (truthy v); simpl; [|done]. by rewrite Hdb.
Qed.

(** The callback of the expiring-soon filter never throws and only reads
    the clock. *)
Lemma expires_by_reads thresholdDate item s :
  ∃ keep s', expires_by thresholdDate item s = (Returned keep, s')
             ∧ fs s' = fs s ∧ database s' = database s
             ∧ uuid_calls s' = uuid_calls s.
Proof.
  unfold expires_by.
  destruct (FoodItem.expirationDate item) as [text|]; [|by do 2 eexists].
  destruct (nonempty text); simpl; [|by do 2 eexists].
  destruct (Date_parse text) as [e|]; [|by do 2 eexists].
  destruct thresholdDate as [threshold|]; [|by do 2 eexists].
  destruct (e <=? threshold)%Z; by do 2 eexists.
Qed.

Lemma filterM_expires_by_reads thresholdDate l s :
  ∃ kept s', filterM (expires_by thresholdDate) l s = (Returned kept, s')
             ∧ fs s' = fs s ∧ database s' = database s
             ∧ uuid_calls s' = uuid_calls s
             ∧ kept ⊆ l.
Proof.
  revert s. induction l as [|item l IH]; intros s; simpl.
  { exists [], s. by split_and!. }
  destruct (expires_by_reads thresholdDate item s) as (keep & s1 & Hrun & Hf & Hd & Hu).
  destruct (IH s1) as (kept & s2 & Hrun2 & Hf2 & Hd2 & Hu2 & Hsub).
  unfold bind. rewrite Hrun, Hrun2. unfold ret.
  exists (if keep then item :: kept else kept), s2.
  split_and!; [done|congruence..|].
  intros x Hx. destruct keep; [apply elem_of_cons in Hx as [->|Hx]|].
  - by left.
  - right. by apply Hsub.
  - right. by apply Hsub.
Qed.

Lemma getFoodItemById_Loaded id s db :
  database s = Loaded db →
  getFoodItemById id s =
  match list_find (λ item, FoodItem.id item = id) (FridgeDatabase.items db) with
  | None => (Thrown (NotFoundError ("Food item not found with id: " +:+ id)), s)
  | Some (_, item) => (Returned item, s)
  end.
Proof.
  intros Hdb. unfold getFoodItemById. rewrite (guarded_Loaded _ s db Hdb).
  by destruct (list_find _ _) as [[i item]|].
Qed.

(** On a checked envelope [listFoodItems] returns: some of the items, in
    some order, and no item twice that was there once. *)
Lemma listFoodItems_Loaded request s db :
  database s = Loaded db →
  ∃ result s',
    listFoodItems request s = (Returned result, s')
    ∧ fs s' = fs s ∧ database s' = database s ∧ uuid_calls s' = uuid_calls s
    ∧ result ⊆ FridgeDatabase.items db.
Proof.
  intros Hdb. unfold listFoodItems. rewrite (guarded_Loaded _ s db Hdb).
  pose proof (category_location_filters request (FridgeDatabase.items db)) as Hf.
  cbv zeta in Hf |- *. rewrite Hf.
  assert (Hsub : List.filter (matches_filters request) (FridgeDatabase.items db)
                 ⊆ FridgeDatabase.items db).
  { intros x. rewrite !list_elem_of_In, filter_In. tauto. }
  destruct (default false (ListFoodItemsRequest.expiringSoon request)).
  - unfold bind, new_Date. cbv beta iota.
    edestruct filterM_expires_by_reads as (kept & s' & -> & ? & ? & ? & Hk).
    do 2 eexists. split; [done|]. split_and!; try done.
    intros x. rewrite sort_Permutation. intros Hx. by apply Hsub, Hk.
  - unfold bind, ret. do 2 eexists. split; [done|]. split_and!; try done.
    intros x. rewrite sort_Permutation. apply Hsub.
Qed.

Lemma getStats_Loaded s db :
  database s = Loaded db →
  ∃ stats s',
    getStats s = (Returned stats, s')
    ∧ fs s' = fs s ∧ database s' = database s ∧ uuid_calls s' = uuid_calls s.
Proof.
  intros Hdb. unfold getStats. rewrite (guarded_Loaded _ s db Hdb).
  cbv zeta. unfold bind, new_Date, gets, ret. cbv beta iota.
  edestruct filterM_expires_by_reads as (kept & s' & -> & ? & ? & ? & Hk).
  do 2 eexists. split; [done|]. done.
Qed.

(** What a call of [addFoodItem] can do, whatever the request and the
    state: throw its wrapped error or return, and leave the collection as
    it was or with one valid item more at the end. *)
Lemma addFoodItem_outcome request s r s' :
  addFoodItem request s = (r, s') →
  ((∃ cause, r = Thrown (DatabaseError "Failed to add food item" (Some cause)))
   ∨ ∃ item, r = Returned item)
  ∧ ((items_of (database s') = items_of (database s)
      ∧ ∀ item, r ≠ Returned item)
     ∨ ∃ l item,
         items_of (database s) = Some l
         ∧ valid_item item
         ∧ items_of (database s') = Some (l ++ [item])
         ∧ ∀ x, r = Returned x → x = item).
Proof.
  unfold addFoodItem, try_catch, bind at 1, lift.
  destruct (AddFoodItemRequestSchema_parse request) as [req|e1] eqn:Hp1.
  2:{ apply AddFoodItemRequestSchema_parse_Thrown in Hp1 as [-> _].
      simpl. intros [= <- <-]. split; [by eauto|]. by left. }
  cbv beta iota.
  unfold bind at 1, new_Date. unfold bind at 1, uuidv4. unfold bind at 1.
  destruct (FoodItemSchema_parse _) as [item|e2] eqn:Hp2.
  2:{ apply FoodItemSchema_parse_Thrown in Hp2 as [-> _].
      simpl. intros [= <- <-]. split; [by eauto|]. by left. }
  apply FoodItemSchema_parse_Returned in Hp2 as [Hpass ->].
  set (item := FoodItem.of_value _).
  assert (Hvalid : valid_item item) by by apply FoodItemSchema_of_value.
  set (s1 := draw (tick s)).
  destruct (database s) as [v|db] eqn:Hdb.
  - rewrite (guarded_Unchecked _ s1 v Hdb).
    destruct (truthy v); simpl; intros [= <- <-]; (split; [by eauto|]);
      left; (split; [|done]); change (database s1) with (database s);
      by rewrite Hdb.
  - rewrite (guarded_Loaded _ s1 db Hdb).
    unfold bind, set_items, modify, ret.
    change (database s1) with (database s). rewrite Hdb.
    destruct (saveDatabase _) as [[[]|e] s2] eqn:Hs.
    + intros [= <- <-]. split; [by eauto|]. right.
      exists (FridgeDatabase.items db), item.
      apply saveDatabase_items in Hs. split_and!; [done|done|done|by intros ? [= <-]].
    + pose proof (saveDatabase_items _ _ _ Hs) as Hit.
      apply saveDatabase_Thrown in Hs as [[-> _]|[cause ->]];
        simpl; intros [= <- <-]; (split; [by eauto|]);
        right; exists (FridgeDatabase.items db), item; by split_and!.
Qed.

Lemma removeFoodItem_outcome id name s r s' :
  removeFoodItem id name s = (r, s') →
  (items_of (database s') = items_of (database s) ∧ ∀ item, r ≠ Returned item)
  ∨ ∃ l i item,
      items_of (database s) = Some l
      ∧ list_find (λ item, Is_true (selected id name item)) l = Some (i, item)
      ∧ items_of (database s') = Some (delete i l)
      ∧ (r = Returned item
         ∨ ∃ cause, r = Thrown (DatabaseError "Failed to save database" (Some cause))).
Proof.
  destruct (given id || given name) eqn:Hsel.
  2:{ unfold removeFoodItem. apply orb_false_elim in Hsel as [-> ->]. simpl.
      intros [= <- <-]. by left. }
  destruct (database s) as [v|db] eqn:Hdb.
  - unfold removeFoodItem.
    replace (negb (given id) && negb (given name)) with false
      by (by destruct (given id), (given name)).
    rewrite (guarded_Unchecked _ s v Hdb). intros [= <- <-]. left. by rewrite Hdb.
  - rewrite (removeFoodItem_Loaded id name s db Hdb Hsel).
    destruct (list_find _ _) as [[i item]|] eqn:Hfind.
    2:{ intros [= <- <-]. left. by rewrite Hdb. }
    destruct (saveDatabase _) as [[[]|e] s2] eqn:Hs; intros [= <- <-].
    + right. exists (FridgeDatabase.items db), i, item.
      apply saveDatabase_items in Hs. split_and!; try done. by left.
    + right. exists (FridgeDatabase.items db), i, item.
      pose proof (saveDatabase_items _ _ _ Hs) as Hit.
      apply saveDatabase_Thrown in Hs as [[-> Hf]|[cause ->]]; [done|].
      split_and!; try done. right. by eexists.
Qed.

Lemma updateFoodItem_outcome id updates s r s' :
  updateFoodItem id updates s = (r, s') →
  (items_of (database s') = items_of (database s) ∧ ∀ item, r ≠ Returned item)
  ∨ ∃ l i existingItem validatedItem,
      items_of (database s) = Some l
      ∧ list_find (λ item, FoodItem.id item = id) l = Some (i, existingItem)
      ∧ FoodItemSchema_parse
          (updatedItem existingItem updates (toISOString (clock s (clock_reads s))))
        = Returned validatedItem
      ∧ items_of (database s') = Some (<[i := validatedItem]> l)
      ∧ (r = Returned validatedItem
         ∨ ∃ cause, r = Thrown (DatabaseError "Failed to save database" (Some cause))).
Proof.
  destruct (database s) as [v|db] eqn:Hdb.
  - unfold updateFoodItem.
    rewrite (guarded_Unchecked _ s v Hdb). intros [= <- <-]. left. by rewrite Hdb.
  - rewrite (updateFoodItem_Loaded id updates s db Hdb).
    destruct (list_find _ _) as [[i item]|] eqn:Hfind.
    2:{ intros [= <- <-]. left. by rewrite Hdb. }
    destruct (FoodItemSchema_parse _) as [v|e] eqn:Hp.
    2:{ intros [= <- <-]. left. simpl. by rewrite Hdb. }
    destruct (saveDatabase _) as [[[]|e] s2] eqn:Hs; intros [= <- <-].
    + right. exists (FridgeDatabase.items db), i, item, v.
      apply saveDatabase_items in Hs. split_and!; try done. by left.
    + right. exists (FridgeDatabase.items db), i, item, v.
      pose proof (saveDatabase_items _ _ _ Hs) as Hit.
      apply saveDatabase_Thrown in Hs as [[-> Hf]|[cause ->]]; [done|].
      split_and!; try done. right. by eexists.
Qed.

(** ** Calls in sequence *)

Lemma clearAllData_Loaded s db :
  database s = Loaded db →
  clearAllData s
  = saveDatabase (with_database (Loaded (FridgeDatabase.with_items [] db)) s).
Proof.
  intros Hdb. unfold clearAllData, bind.
  rewrite (require_database_Loaded s db Hdb). unfold gets, modify. by rewrite Hdb.
Qed.

(** [clearAllData] leaves the collection as it was or empty. *)
Lemma clearAllData_outcome s r s' :
  clearAllData s = (r, s') →
  items_of (database s') = items_of (database s)
  ∨ items_of (database s') = Some [].
Proof.
  unfold clearAllData, bind, require_database, bind, gets, ret, throw.
  destruct (truthy (view (database s))) eqn:Ht; cbn [negb]; cbv beta iota.
  2:{ intros [= <- <-]. by left. }
  destruct (database s) as [v|db] eqn:Hdb; [destruct v|]; unfold modify, throw;
    try (intros [= <- <-]; left; by rewrite Hdb).
  - intros [Hs _]%save_ret. left. by rewrite Hs, Hdb.
  - intros Hs%saveDatabase_items. by right.
  - intros Hs%saveDatabase_items. by right.
Qed.

(** Whatever [loadDatabase] does, the collection it leaves in memory, if
    any, holds valid items only. *)
Lemma loadDatabase_store_valid s : store_valid (loadDatabase s).2.
Proof.
  unfold loadDatabase, try_catch, bind.
  destruct (read_envelope s) as [r1 s1] eqn:Hread.
  assert (Hs1 : store_valid s1).
  { intros l Hl.
    destruct (read_envelope_database s r1 s1 Hread) as [[v Hv]|(db & Hdb & Hnil)].
    - by rewrite Hv in Hl.
    - rewrite Hdb in Hl. injection Hl as <-. by rewrite Hnil. }
  destruct r1 as [[]|e1]; [|done].
  destruct (check_envelope s1) as [r2 s2] eqn:Hcheck.
  assert (Hs2 : store_valid s2).
  { destruct (check_envelope_database s1 r2 s2 Hcheck) as [(_ & -> & _)|(_ & Hit & _)];
      [done|].
    intros l Hl. rewrite Hit in Hl. injection Hl as <-. apply omap_passes_valid. }
  by destruct r2 as [[]|e2].
Qed.

Lemma initialize_store_valid s : store_valid s → store_valid (initialize s).2.
Proof.
  intros Hs. unfold initialize, try_catch, bind, mkdir, syscall.
  destruct (faulty (fs s) sys_mkdir); [done|].
  pose proof (loadDatabase_store_valid s) as Hl.
  by destruct (loadDatabase s) as [[[]|e] s'].
Qed.

Lemma listFoodItems_reads request s :
  fs (listFoodItems request s).2 = fs s
  ∧ database (listFoodItems request s).2 = database s
  ∧ uuid_calls (listFoodItems request s).2 = uuid_calls s.
Proof.
  destruct (database s) as [v|db] eqn:Hdb.
  - unfold listFoodItems. by rewrite (guarded_Unchecked _ s v Hdb).
  - destruct (listFoodItems_Loaded request s db Hdb) as (? & ? & -> & ? & ? & ? & _).
    simpl. split_and!; congruence.
Qed.

Lemma getFoodItemById_reads id s : (getFoodItemById id s).2 = s.
Proof.
  destruct (database s) as [v|db] eqn:Hdb.
  - unfold getFoodItemById. by rewrite (guarded_Unchecked _ s v Hdb).
  - rewrite (getFoodItemById_Loaded id s db Hdb).
    by destruct (list_find _ _) as [[]|].
Qed.

Lemma getStats_reads s :
  fs (getStats s).2 = fs s
  ∧ database (getStats s).2 = database s
  ∧ uuid_calls (getStats s).2 = uuid_calls s.
Proof.
  destruct (database s) as [v|db] eqn:Hdb.
  - unfold getStats. by rewrite (guarded_Unchecked _ s v Hdb).
  - destruct (getStats_Loaded s db Hdb) as (? & ? & -> & ? & ? & ?).
    simpl. split_and!; congruence.
Qed.

(** No call lets an invalid item into the collection. *)
Lemma after_store_valid c s : store_valid s → store_valid (after c s).
Proof.
  intros Hs. destruct c as [|request|id name|request|id|id updates| |]; simpl.
  - by apply initialize_store_valid.
  - destruct (addFoodItem request s) as [r s'] eqn:Hadd.
    apply addFoodItem_outcome in Hadd as [_ [[Hit _]|(l & item & Hl & Hv & Hl' & _)]];
      simpl; intros l' Hl'0.
    + apply Hs. congruence.
    + rewrite Hl' in Hl'0. injection Hl'0 as <-.
      apply Forall_app. split; [by apply Hs|by apply Forall_singleton].
  - destruct (removeFoodItem id name s) as [r s'] eqn:Hrm.
    apply removeFoodItem_outcome in Hrm as [[Hit _]|(l & i & item & Hl & _ & Hl' & _)];
      simpl; intros l' Hl'0.
    + apply Hs. congruence.
    + rewrite Hl' in Hl'0. injection Hl'0 as <-. apply Forall_delete. by apply Hs.
  - intros l Hl. apply Hs.
    by destruct (listFoodItems_reads request s) as (_ & <- & _).
  - by rewrite getFoodItemById_reads.
  - destruct (updateFoodItem id updates s) as [r s'] eqn:Hup.
    apply updateFoodItem_outcome in Hup
      as [[Hit _]|(l & i & old & new & Hl & _ & Hp & Hl' & _)];
      simpl; intros l' Hl'0.
    + apply Hs. congruence.
    + rewrite Hl' in Hl'0. injection Hl'0 as <-.
      apply FoodItemSchema_parse_Returned in Hp as [Hp ->].
      apply Forall_insert; [by apply Hs|by apply FoodItemSchema_of_value].
  - intros l Hl. apply Hs.
    by destruct (getStats_reads s) as (_ & <- & _).
  - destruct (clearAllData s) as [r s'] eqn:Hcl.
    apply clearAllData_outcome in Hcl as [Hit|Hit]; simpl; intros l' Hl'.
    + apply Hs. congruence.
    + rewrite Hit in Hl'. by injection Hl' as <-.
Qed.

(** X4. Validity of the collection is an invariant of the service: start
    from a state whose collection, if any, holds only items that pass
    [FoodItemSchema] (a service object just constructed has none), make
    any calls of the public methods in any order, with any arguments and
    whatever the file system does, whether they return or throw; then the
    collection in memory, if there is one, still holds only valid items,
    and when [this.database] is then an envelope that passed the structure
    check, every [listFoodItems] returns, and returns valid items only.
    Nothing is said of the lists returned while [this.database] holds a
    structure that failed the check. *)
Theorem session_keeps_items_valid calls s :
  store_valid s →
  store_valid (session calls s)
  ∧ ∀ db request,
      database (session calls s) = Loaded db →
      ∃ result,
        (listFoodItems request (session calls s)).1 = Returned result
        ∧ result ⊆ FridgeDatabase.items db
        ∧ Forall valid_item result.
Proof.
  intros Hs.
  assert (Hend : store_valid (session calls s)).
  { revert s Hs. induction calls as [|c calls IH]; intros s Hs; [done|].
    simpl. apply IH. by apply after_store_valid. }
  split; [done|]. intros db request Hdb.
  destruct (listFoodItems_Loaded request _ db Hdb) as (res & s1 & -> & _ & _ & _ & Hsub).
  exists res. split_and!; [done..|].
  apply Forall_forall. intros item Hitem%Hsub.
  eapply Forall_forall; [|exact Hitem]. apply Hend. by rewrite Hdb.
Qed.

(** X1. The three queries never write: whatever their outcome, the files
    and [this.database] are what they were and no identifier is drawn;
    [getFoodItemById] leaves the whole state as it is. *)
Theorem queries_change_nothing s :
  (∀ request,
     fs (listFoodItems request s).2 = fs s
     ∧ database (listFoodItems request s).2 = database s
     ∧ uuid_calls (listFoodItems request s).2 = uuid_calls s)
  ∧ (∀ id, (getFoodItemById id s).2 = s)
  ∧ (fs (getStats s).2 = fs s
     ∧ database (getStats s).2 = database s
     ∧ uuid_calls (getStats s).2 = uuid_calls s).
Proof.
  split_and!.
  - intros request. apply listFoodItems_reads.
  - intros id. apply getFoodItemById_reads.
  - apply getStats_reads.
  - apply getStats_reads.
  - apply getStats_reads.
Qed.

(** X2. What an initialized store can throw: [listFoodItems] and
    [getStats] nothing; [getFoodItemById] only the [NotFoundError] for its
    identifier; [removeFoodItem] only the [ValidationError] for a missing
    selector, a [NotFoundError] or the [DatabaseError] of a failed save;
    [updateFoodItem] only the [NotFoundError] for its identifier, the bare
    [ZodError] of the merged record (never a [ValidationError]) or the
    [DatabaseError] of a failed save; [addFoodItem] only its
    [DatabaseError('Failed to add food item')]. *)
Theorem errors_of_initialized_store s db :
  database s = Loaded db →
  (∀ request, ∃ result, (listFoodItems request s).1 = Returned result)
  ∧ (∃ stats, (getStats s).1 = Returned stats)
  ∧ (∀ id e, (getFoodItemById id s).1 = Thrown e →
             e = NotFoundError ("Food item not found with id: " +:+ id))
  ∧ (∀ id name e,
       (removeFoodItem id name s).1 = Thrown e →
       (e = ValidationError "Either id or name must be provided" None
        ∧ given id = false ∧ given name = false)
       ∨ (∃ msg, e = NotFoundError msg)
       ∨ ∃ cause, e = DatabaseError "Failed to save database" (Some cause))
  ∧ (∀ id updates e,
       (updateFoodItem id updates s).1 = Thrown e →
       e = NotFoundError ("Food item not found with id: " +:+ id)
       ∨ (∃ issues, e = ZodError issues ∧ issues ≠ [])
       ∨ ∃ cause, e = DatabaseError "Failed to save database" (Some cause))
  ∧ (∀ request e,
       (addFoodItem request s).1 = Thrown e →
       ∃ cause, e = DatabaseError "Failed to add food item" (Some cause)).
Proof.
  intros Hdb. split_and!.
  - intros request.
    destruct (listFoodItems_Loaded request s db Hdb) as (result & ? & -> & _).
    by exists result.
  - destruct (getStats_Loaded s db Hdb) as (stats & ? & -> & _). by exists stats.
  - intros id e. rewrite (getFoodItemById_Loaded id s db Hdb).
    destruct (list_find _ _) as [[]|]; simpl; [done|]. by intros [= <-].
  - intros id name e.
    destruct (given id || given name) eqn:Hsel.
    + rewrite (removeFoodItem_Loaded id name s db Hdb Hsel).
      destruct (list_find _ _) as [[i item]|].
      * destruct (saveDatabase _) as [[[]|e'] s2] eqn:Hs; simpl; [done|].
        intros [= <-]. apply saveDatabase_Thrown in Hs as [[_ Hf]|?]; [done|].
        right. by right.
      * simpl. intros [= <-]. right. left. by eexists.
    + unfold removeFoodItem. apply orb_false_elim in Hsel as [Hi Hn].
      rewrite Hi, Hn. simpl. intros [= <-]. by left.
  - intros id updates e. rewrite (updateFoodItem_Loaded id updates s db Hdb).
    destruct (list_find _ _) as [[i item]|]; [|simpl; intros [= <-]; by left].
    destruct (FoodItemSchema_parse _) as [v|e'] eqn:Hp.
    + destruct (saveDatabase _) as [[[]|e''] s2] eqn:Hs; simpl; [done|].
      intros [= <-]. apply saveDatabase_Thrown in Hs as [[_ Hf]|?]; [done|].
      right. by right.
    + simpl. intros [= <-]. apply FoodItemSchema_parse_Thrown in Hp as [-> ?].
      right. left. by eexists.
  - intros request e He.
    destruct (addFoodItem request s) as [r s'] eqn:Hadd. simpl in He. subst r.
    apply addFoodItem_outcome in Hadd as [[?|[? ?]] _]; [|done].
    naive_solver.
Qed.

(** X3. A valid request on an initialized store with a writable
    directory: [addFoodItem] returns the record it stored, whose [id] is
    the identifier drawn, whose [addedDate] and [lastModified] are both the
    time of the call and whose other fields are those of the request; the
    record is the last of the collection, the items before it are
    untouched, and the primary file holds the whole collection. *)
Theorem addFoodItem_stores_the_record request s db :
  database s = Loaded db →
  AddFoodItemRequestSchema [] request = [] →
  is_uuid (uuid_source s (uuid_calls s)) = true →
  is_datetime (toISOString (clock s (clock_reads s))) = true →
  write_fails (fs s) = false →
  ∃ s',
    addFoodItem request s = (Returned (stamped request s), s')
    ∧ FoodItem.id (stamped request s) = uuid_source s (uuid_calls s)
    ∧ FoodItem.addedDate (stamped request s) = toISOString (clock s (clock_reads s))
    ∧ FoodItem.lastModified (stamped request s) = toISOString (clock s (clock_reads s))
    ∧ VStr (FoodItem.name (stamped request s)) = get "name" request
    ∧ VStr (FoodItem.unit (stamped request s)) = get "unit" request
    ∧ (∀ z, get "quantity" request = VInt z →
            FoodItem.quantity (stamped request s) = z)
    ∧ valid_item (stamped request s)
    ∧ items_of (database s') = Some (FridgeDatabase.items db ++ [stamped request s])
    ∧ ∃ doc, dataFile (fs s') = Some (Json doc)
             ∧ get "items" doc
               = VArr (FoodItem.to_value
                         <$> (FridgeDatabase.items db ++ [stamped request s])).
Proof.
  intros Hdb Hreq Hu Hnow Hw.
  rewrite (addFoodItem_valid request s Hreq Hu Hnow), Hdb.
  fold (stamped request s).
  set (s1 := with_database _ _).
  destruct (saveDatabase_Loaded_writable s1 _ eq_refl Hw) as (s' & Hs & Hdb' & _).
  rewrite Hs. exists s'.
  pose proof (newItem_passes request _ _ Hreq Hu Hnow) as Hpass.
  destruct (get_newItem (uuid_source s (uuid_calls s))
              (AddFoodItemRequest.of_value request)
              (toISOString (clock s (clock_reads s))))
    as (Gi & Gn & Gq & Gu & _ & _ & _ & _ & Ga & Gm).
  apply AddFoodItemRequestSchema_nil in Hreq
    as [_ (n & Hn & _) (q & Hq & Hint & _) (u & Hun & _) _ _ _ _].
  split; [done|].
  assert (Hvalid : valid_item (stamped request s))
    by (by apply FoodItemSchema_of_value).
  assert (Hstored : items_of (database s')
                    = Some (FridgeDatabase.items db ++ [stamped request s]))
    by (by rewrite Hdb').
  assert (Hfile : ∃ doc, dataFile (fs s') = Some (Json doc)
                         ∧ get "items" doc
                           = VArr (FoodItem.to_value
                                     <$> (FridgeDatabase.items db ++ [stamped request s])))
    by (apply (saved_items s1); [done|exact Hs]).
  split_and!; try done; clear Hvalid Hstored Hfile;
    unfold stamped, FoodItem.of_value;
    cbn [FoodItem.id FoodItem.addedDate FoodItem.lastModified FoodItem.name
         FoodItem.unit FoodItem.quantity];
    rewrite ?Gi, ?Gn, ?Gq, ?Gu, ?Ga, ?Gm; try done;
    unfold AddFoodItemRequest.of_value;
    cbn [AddFoodItemRequest.name AddFoodItemRequest.unit AddFoodItemRequest.quantity];
    rewrite ?Hn, ?Hun; try done.
  intros z ->. unfold VInt, as_integer, inject_Z. simpl. by rewrite !Z.div_1_r.
Qed.

(** ** Saving and loading *)

Lemma own_prop_assign_ne k k' x props :
  k ≠ k' → own_prop k (assign k' x props) = own_prop k props.
Proof.
  intros Hk. apply String.eqb_neq in Hk.
  induction props as [|[k0 v] rest IH]; simpl.
  - by rewrite Hk.
  - destruct (String.eqb k' k0) eqn:Hk0; simpl.
    + apply String.eqb_eq in Hk0 as <-. by rewrite Hk.
    + by rewrite IH.
Qed.

Lemma read_envelope_primary s doc :
  faulty (fs s) (sys_readFile dataPath) = false →
  dataFile (fs s) = Some (Json doc) →
  read_envelope s = (Returned (), with_database (Unchecked doc) s).
Proof.
  intros Hfault Hfile. unfold read_envelope, try_catch.
  destruct (read_and_parse dataPath (λ v, modify (with_database (Unchecked v))) s)
    as [(doc' & -> & _ & Hfile')|(e & _ & Hun)].
  - simpl in Hfile'. rewrite Hfile in Hfile'. by injection Hfile' as <-.
  - unfold unreadable in Hun. simpl in Hun. by rewrite Hfault, Hfile in Hun.
Qed.

(** The primary cannot be read, the backup can: its document becomes
    [this.database] and is saved at once. *)
Lemma read_envelope_backup s doc :
  unreadable dataPath (fs s) = true →
  faulty (fs s) (sys_readFile backupPath) = false →
  backupFile (fs s) = Some (Json doc) →
  read_envelope s
  = try_catch (saveDatabase)
      (λ _, let* db := createEmptyDatabase in
            let* _ := modify (with_database (Loaded db)) in
            saveDatabase)
      (with_database (Unchecked doc) s).
Proof.
  intros Hp Hfault Hfile. unfold read_envelope. unfold try_catch at 1.
  destruct (read_and_parse dataPath (λ v, modify (with_database (Unchecked v))) s)
    as [(doc' & _ & Hf & Hfile')|(e & -> & _)].
  { unfold unreadable in Hp. by rewrite Hf, Hfile' in Hp. }
  unfold try_catch.
  destruct (read_and_parse backupPath
              (λ v, bind (modify (with_database (Unchecked v))) (λ _, saveDatabase)) s)
    as [(doc' & -> & _ & Hfile')|(e' & _ & Hun)].
  - simpl in Hfile'. rewrite Hfile in Hfile'. injection Hfile' as <-.
    unfold bind at 1. unfold modify at 1. done.
  - unfold unreadable in Hun. simpl in Hun. by rewrite Hfault, Hfile in Hun.
Qed.

(** Filtering the serialized form of an envelope with valid items gives
    the envelope back. *)
Lemma filtered_to_value db :
  Forall valid_item (FridgeDatabase.items db) →
  filtered (FridgeDatabase.to_value db) = db.
Proof.
  intros Hv. unfold filtered. simpl. rewrite (omap_passes_to_value _ Hv).
  by destruct db.
Qed.

(** A save of a checked envelope that throws was refused by the
    directory, and the primary file is as before. *)
Lemma saveDatabase_failure_keeps_primary_aux s db e s' :
  database s = Loaded db →
  saveDatabase s = (Thrown e, s') →
  (∃ cause, e = DatabaseError "Failed to save database" (Some cause))
  ∧ dataFile (fs s') = dataFile (fs s).
Proof.
  intros Hdb Hs.
  assert (Ht : truthy (view (database s)) = true) by by rewrite Hdb.
  split.
  - apply saveDatabase_Thrown in Hs as [[_ Hf]|?]; [congruence|done].
  - destruct (saveDatabase_cases s Ht) as [[_ Hn]|(d' & _ & _ & Hl & Heq)].
    { by rewrite Hdb in Hn. }
    rewrite Hdb in Hl. subst d'. rewrite view_Loaded_items in Heq.
    rewrite Heq in Hs.
    destruct (faulty (fs s) sys_writeFile);
      [|destruct (faulty (fs s) sys_rename); [|done]]; injection Hs as _ <-; simpl;
      by rewrite after_backup_dataFile.
Qed.

(** X5. A save that fails has not touched the primary file: the
    directory refused the write or the rename, the new [lastModified] stays
    in memory all the same, and when it was the rename that failed the
    temporary file is left behind with the new contents. *)
Theorem saveDatabase_failure_keeps_primary s db e s' :
  database s = Loaded db →
  saveDatabase s = (Thrown e, s') →
  (∃ cause, e = DatabaseError "Failed to save database" (Some cause))
  ∧ write_fails (fs s) = true
  ∧ dataFile (fs s') = dataFile (fs s)
  ∧ database s'
    = Loaded (FridgeDatabase.with_lastModified
                (VStr (toISOString (clock s (clock_reads s)))) db)
  ∧ tempFile (fs s')
    = if faulty (fs s) sys_writeFile then tempFile (fs s)
      else Some (Json (view (database s'))).
Proof.
  intros Hdb.
  assert (Ht : truthy (view (database s)) = true) by by rewrite Hdb.
  destruct (saveDatabase_cases s Ht) as [[_ Hn]|(d' & _ & _ & Hl & ->)].
  { by rewrite Hdb in Hn. }
  rewrite Hdb in Hl. subst d'. unfold write_fails.
  destruct (faulty (fs s) sys_writeFile).
  - intros [= <- <-]. simpl.
    rewrite after_backup_dataFile, after_backup_tempFile. split_and!; by eauto.
  - destruct (faulty (fs s) sys_rename); intros [= <- <-]. simpl.
    rewrite after_backup_dataFile. split_and!; by eauto.
Qed.

(** X6. Round trip through the file: after a save of an envelope with
    valid items and a version has returned, [initialize] on the same
    directory (by this service object or by a new one) returns with
    exactly the envelope that was saved in memory, and writes nothing. *)
Theorem initialize_reads_back_what_was_saved s db s1 fresh :
  database s = Loaded db →
  Forall valid_item (FridgeDatabase.items db) →
  truthy (FridgeDatabase.version db) = true →
  saveDatabase s = (Returned (), s1) →
  fs fresh = fs s1 →
  faulty (fs s1) sys_mkdir = false →
  faulty (fs s1) (sys_readFile dataPath) = false →
  initialize fresh = (Returned (), with_database (database s1) fresh)
  ∧ items_of (database s1) = Some (FridgeDatabase.items db).
Proof.
  intros Hdb Hvalid Hver Hsave Hfs Hm Hr.
  assert (Ht : truthy (view (database s)) = true) by by rewrite Hdb.
  assert (Hs1 : database s1
                = Loaded (FridgeDatabase.with_lastModified
                            (VStr (toISOString (clock s (clock_reads s)))) db)).
  { destruct (saveDatabase_cases s Ht) as [[[msg Hmsg] _]|(d' & _ & _ & Hl & Heq)].
    - by rewrite Hmsg in Hsave.
    - rewrite Hdb in Hl. subst d'. rewrite Heq in Hsave.
      destruct (faulty (fs s) sys_writeFile); [done|].
      destruct (faulty (fs s) sys_rename); [done|].
      by injection Hsave as <-. }
  apply saveDatabase_Returned in Hsave as (Hfile & _).
  split; [|by rewrite Hs1].
  unfold initialize, try_catch, bind, mkdir, syscall. rewrite Hfs, Hm.
  unfold loadDatabase, try_catch, bind.
  rewrite (read_envelope_primary fresh (view (database s1)));
    [|by rewrite Hfs|by rewrite Hfs].
  rewrite check_envelope_eq. cbv zeta.
  change (database (with_database ?d _)) with d. cbn [view].
  rewrite Hs1. cbn [view].
  set (db1 := FridgeDatabase.with_lastModified _ db).
  change (negb (truthy (FridgeDatabase.to_value db1))
          || negb (isArray (get "items" (FridgeDatabase.to_value db1)))) with false.
  cbv iota. subst db1.
  rewrite filtered_to_value by done.
  cbn [FridgeDatabase.version FridgeDatabase.with_lastModified]. rewrite Hver.
  done.
Qed.

(** X7. Start from the backup: when the primary cannot be read and the
    backup holds an envelope with an array of items and a version,
    [initialize] (with a directory that can be created and written)
    returns; the collection in memory is the backup's array without the
    records that fail validation, while the primary file it has just
    rewritten holds the backup's array as it was, invalid records
    included, under the backup's version. *)
Theorem initialize_restores_from_backup s doc raw :
  faulty (fs s) sys_mkdir = false →
  unreadable dataPath (fs s) = true →
  faulty (fs s) (sys_readFile backupPath) = false →
  backupFile (fs s) = Some (Json doc) →
  get "items" doc = VArr raw →
  truthy (get "version" doc) = true →
  write_fails (fs s) = false →
  ∃ s' file,
    initialize s = (Returned (), s')
    ∧ items_of (database s') = Some (omap passes_FoodItemSchema raw)
    ∧ dataFile (fs s') = Some (Json file)
    ∧ get "items" file = VArr raw
    ∧ get "version" file = get "version" doc.
Proof.
  intros Hm Hp Hbr Hb Hitems Hver Hw.
  destruct doc as [| | | | | |props]; try done.
  unfold initialize, try_catch, bind, mkdir, syscall. rewrite Hm.
  unfold loadDatabase, try_catch, bind.
  rewrite (read_envelope_backup s (VObj props) Hp Hbr Hb).
  unfold try_catch.
  set (s0 := with_database (Unchecked (VObj props)) s).
  unfold saveDatabase. rewrite (save_truthy items_length s0 eq_refl).
  unfold assign_lastModified, bind, gets, modify.
  change (database (tick (after_backup s0))) with (database (after_backup s0)).
  rewrite after_backup_database. cbn [s0 database with_database].
  rewrite write_then_rename_eq.
  cbn [fs with_database tick]. rewrite after_backup_faulty.
  apply orb_false_elim in Hw as [Hwf Hrn]. cbn [s0 fs with_database].
  rewrite Hwf, Hrn, items_length_eq.
  cbn [database with_database with_fs JSON_stringify view].
  set (x := VStr _).
  assert (Gi : get "items" (VObj (assign "lastModified" x props)) = VArr raw).
  { rewrite <- Hitems. unfold get. by rewrite own_prop_assign_ne. }
  assert (Gv : get "version" (VObj (assign "lastModified" x props))
               = get "version" (VObj props)).
  { unfold get. by rewrite own_prop_assign_ne. }
  rewrite Gi. cbn [nullish].
  rewrite check_envelope_eq. cbv zeta.
  cbn [database with_database with_fs JSON_stringify view].
  rewrite Gi. cbn [truthy isArray negb orb].
  unfold filtered at 1. cbn [FridgeDatabase.version]. rewrite Gv, Hver.
  do 2 eexists. split; [done|].
  cbn [database with_database fs with_fs dataFile set_file items_of].
  unfold filtered. cbn [FridgeDatabase.items]. rewrite Gi. cbn [elements].
  split_and!; done.
Qed.

(** X8. Start from the primary file, when it holds an envelope with an
    array of items: with a version in it, [initialize] installs the
    filtered envelope and writes nothing (the records it dropped are still
    in the file); without one, and with a writable directory, it stamps
    version 1.0.0 and rewrites the file with the valid records only, the
    previous contents going to the backup. *)
Theorem initialize_reads_primary s doc raw :
  faulty (fs s) sys_mkdir = false →
  faulty (fs s) (sys_readFile dataPath) = false →
  dataFile (fs s) = Some (Json doc) →
  get "items" doc = VArr raw →
  (truthy (get "version" doc) = true →
   initialize s = (Returned (), with_database (Loaded (filtered doc)) s))
  ∧ (truthy (get "version" doc) = false →
     write_fails (fs s) = false →
     ∃ s',
       initialize s = (Returned (), s')
       ∧ database s'
         = Loaded {| FridgeDatabase.items := omap passes_FoodItemSchema raw;
                     FridgeDatabase.lastModified :=
                       VStr (toISOString (clock s (clock_reads s)));
                     FridgeDatabase.version := VStr "1.0.0" |}
       ∧ dataFile (fs s') = Some (Json (view (database s')))
       ∧ (faulty (fs s) sys_access = false →
          faulty (fs s) sys_copyFile = false →
          backupFile (fs s') = Some (Json doc))).
Proof.
  intros Hm Hr Hfile Hitems.
  destruct doc as [| | | | | |props]; try done.
  assert (Hload : loadDatabase s
                  = match check_envelope (with_database (Unchecked (VObj props)) s) with
                    | (Returned a, s') => (Returned a, s')
                    | (Thrown e, s') =>
                        (Thrown (DatabaseError "Failed to load database" (Some e)), s')
                    end).
  { unfold loadDatabase, try_catch, bind.
    rewrite (read_envelope_primary s (VObj props) Hr Hfile).
    by destruct (check_envelope _) as [[[]|e] s']. }
  assert (Hinit : initialize s
                  = match check_envelope (with_database (Unchecked (VObj props)) s) with
                    | (Returned a, s') => (Returned a, s')
                    | (Thrown e, s') =>
                        (Thrown (DatabaseError "Database initialization failed"
                                   (Some (DatabaseError "Failed to load database"
                                            (Some e)))), s')
                    end).
  { unfold initialize, try_catch, bind, mkdir, syscall. rewrite Hm, Hload.
    by destruct (check_envelope _) as [[[]|e] s']. }
  rewrite Hinit, check_envelope_eq. cbv zeta.
  cbn [database with_database view]. rewrite Hitems. cbn [truthy isArray negb orb].
  change (FridgeDatabase.version (filtered (VObj props)))
    with (get "version" (VObj props)).
  split; intros Hver; rewrite Hver; [done|]. intros Hw.
  set (db := FridgeDatabase.with_version _ _).
  set (s0 := with_database (Loaded db) _).
  destruct (saveDatabase_Loaded_writable s0 db eq_refl Hw) as (s' & Hs & Hdb' & _).
  rewrite Hs. exists s'. split; [done|].
  pose proof (saveDatabase_Returned s0 s' Hs) as (Hd & Hb & _).
  rewrite Hd. split_and!; [|done|].
  - rewrite Hdb'. unfold db, filtered, FridgeDatabase.with_lastModified,
      FridgeDatabase.with_version.
    cbn [FridgeDatabase.items FridgeDatabase.lastModified FridgeDatabase.version].
    by rewrite Hitems.
  - intros Ha Hc. rewrite Hb. unfold after_backup. cbn [s0 fs with_database].
    rewrite Ha, Hc, Hfile. done.
Qed.

(** X9. What [initialize] can do. When it returns, [this.database] is a
    checked envelope: every item passes [FoodItemSchema] and there is a
    version. When it throws, the error is
    [DatabaseError('Database initialization failed')], caused either by
    [mkdir] (nothing has changed then) or by the
    [DatabaseError('Failed to load database')] of [loadDatabase]. *)
Theorem initialize_outcome s r s' :
  initialize s = (r, s') →
  (r = Returned () →
   ∃ db, database s' = Loaded db
         ∧ Forall valid_item (FridgeDatabase.items db)
         ∧ truthy (FridgeDatabase.version db) = true)
  ∧ (∀ e, r = Thrown e →
          (faulty (fs s) sys_mkdir = true ∧ s' = s
           ∧ ∃ errno, e = DatabaseError "Database initialization failed"
                            (Some (SystemError errno)))
          ∨ ∃ cause,
              e = DatabaseError "Database initialization failed"
                    (Some (DatabaseError "Failed to load database" (Some cause)))).
Proof.
  unfold initialize, try_catch, bind, mkdir, syscall.
  destruct (faulty (fs s) sys_mkdir) eqn:Hm.
  { intros [= <- <-]. split; [done|]. intros e [= <-]. left. by eauto. }
  unfold loadDatabase, try_catch, bind.
  destruct (read_envelope s) as [[[]|e1] s1] eqn:Hread.
  2:{ intros [= <- <-]. split; [done|]. intros e [= <-]. right. by eexists. }
  rewrite check_envelope_eq. cbv zeta.
  destruct (negb (truthy (view (database s1)))
            || negb (isArray (get "items" (view (database s1))))).
  { intros [= <- <-]. split; [done|]. intros e [= <-]. right. by eexists. }
  set (db := filtered (view (database s1))).
  assert (Hvalid : Forall valid_item (FridgeDatabase.items db))
    by apply omap_passes_valid.
  destruct (truthy (FridgeDatabase.version db)) eqn:Hver.
  { intros [= <- <-]. split; [|done]. intros _. by exists db. }
  set (s0 := with_database _ s1).
  destruct (saveDatabase s0) as [[[]|e2] s2] eqn:Hs.
  - intros [= <- <-]. split; [|done]. intros _.
    destruct (saveDatabase_cases s0 eq_refl) as [[_ Hn]|(d' & _ & _ & Hl & Heq)];
      [done|].
    cbn [s0 database with_database] in Hl. subst d'. rewrite Heq in Hs.
    cbn [s0 fs with_database] in Hs.
    destruct (faulty (fs s1) sys_writeFile); [done|].
    destruct (faulty (fs s1) sys_rename); [done|].
    injection Hs as <-. by eexists.
  - intros [= <- <-]. split; [done|]. intros e [= <-]. right. by eexists.
Qed.

(** ** Queries *)

Lemma insert_sorted_in_order {A} (cmp : A → A → Z) x l :
  (∀ a b, (0 < cmp a b)%Z → (cmp b a <= 0)%Z) →
  (∀ a b c, (cmp a b <= 0)%Z → (cmp b c <= 0)%Z → (cmp a c <= 0)%Z) →
  in_order cmp l → in_order cmp (insert_sorted cmp x l).
Proof.
  intros Hanti Htrans. induction l as [|y l IH]; simpl; [done|].
  intros [Hy Hl]. destruct (Z.leb_spec (cmp x y) 0) as [Hle|Hgt]; simpl.
  - split_and!; [|done..]. constructor; [done|].
    eapply Forall_impl; [exact Hy|]. intros z Hz. by eapply Htrans.
  - split; [|by apply IH].
    rewrite insert_sorted_Permutation. constructor; [by apply Hanti|done].
Qed.

Lemma sort_in_order {A} (cmp : A → A → Z) l :
  (∀ a b, (0 < cmp a b)%Z → (cmp b a <= 0)%Z) →
  (∀ a b c, (cmp a b <= 0)%Z → (cmp b c <= 0)%Z → (cmp a c <= 0)%Z) →
  in_order cmp (sort cmp l).
Proof.
  intros Hanti Htrans. induction l as [|x l IH]; simpl; [done|].
  by apply insert_sorted_in_order.
Qed.

(** X10. On an initialized store, whatever the filters, [listFoodItems]
    returns its items in the order of [localeCompare] on their names,
    provided [localeCompare] is a consistent comparison: no item of the
    result sorts after a later one. *)
Theorem listFoodItems_in_name_order request s db :
  (∀ a b, (0 < localeCompare a b)%Z → (localeCompare b a <= 0)%Z) →
  (∀ a b c, (localeCompare a b <= 0)%Z → (localeCompare b c <= 0)%Z →
            (localeCompare a c <= 0)%Z) →
  database s = Loaded db →
  ∃ result s',
    listFoodItems request s = (Returned result, s')
    ∧ in_order (λ a b, localeCompare (FoodItem.name a) (FoodItem.name b)) result.
Proof.
  intros Hanti Htrans Hdb. unfold listFoodItems. rewrite (guarded_Loaded _ s db Hdb).
  cbv zeta.
  assert (Hsorted : ∀ l,
            in_order (λ a b, localeCompare (FoodItem.name a) (FoodItem.name b))
              (sort (λ a b, localeCompare (FoodItem.name a) (FoodItem.name b)) l)).
  { intros l. apply sort_in_order; [by intros; apply Hanti|by intros; eapply Htrans]. }
  destruct (default false (ListFoodItemsRequest.expiringSoon request)).
  - unfold bind, new_Date. cbv beta iota.
    edestruct filterM_expires_by_reads as (kept & s' & -> & _).
    do 2 eexists. split; [done|]. apply Hsorted.
  - unfold bind, ret. do 2 eexists. split; [done|]. apply Hsorted.
Qed.

(** X11. Without the expiring-soon filter [listFoodItems] does not look
    at the clock: it leaves the state as it is and returns exactly the
    items the category and location filters let through, each as often as
    it is stored; with no filter at all these are all the items, and a
    filter that is the empty string counts as no filter. *)
Theorem listFoodItems_without_expiry request s db :
  database s = Loaded db →
  default false (ListFoodItemsRequest.expiringSoon request) = false →
  ∃ result,
    listFoodItems request s = (Returned result, s)
    ∧ result ≡ₚ List.filter (matches_filters request) (FridgeDatabase.items db)
    ∧ (given (ListFoodItemsRequest.category request) = false →
       given (ListFoodItemsRequest.location request) = false →
       result ≡ₚ FridgeDatabase.items db).
Proof.
  intros Hdb Hsoon. unfold listFoodItems. rewrite (guarded_Loaded _ s db Hdb).
  pose proof (category_location_filters request (FridgeDatabase.items db)) as Hf.
  cbv zeta in Hf |- *. rewrite Hf, Hsoon. unfold bind, ret.
  eexists. split; [done|]. split; [apply sort_Permutation|].
  intros Hc Hl. rewrite sort_Permutation. unfold matches_filters.
  rewrite Hc, Hl. simpl. by rewrite filter_all.
Qed.

(** X12. An update can be read back: when [updateFoodItem] returns a
    record, [getFoodItemById] with the same identifier returns that
    record at once. *)
Theorem updateFoodItem_then_getFoodItemById id updates s item s' :
  updateFoodItem id updates s = (Returned item, s') →
  getFoodItemById id s' = (Returned item, s').
Proof.
  intros Hup.
  destruct (updateFoodItem_outcome id updates s _ _ Hup)
    as [[_ Hno]|(l & i & old & new & Hl & Hfind & Hp & Hl' & [Hr|[? Hr]])];
    [by destruct (Hno item)| |done].
  injection Hr as ->.
  apply items_of_Some in Hl' as (db' & Hdb' & Hitems).
  rewrite (getFoodItemById_Loaded id s' db' Hdb'), Hitems.
  apply list_find_Some in Hfind as (Hi & Hid & Hbefore).
  apply FoodItemSchema_parse_Returned in Hp as [_ Hnew].
  assert (Hnewid : FoodItem.id new = id).
  { rewrite Hnew. unfold FoodItem.of_value. cbn [FoodItem.id].
    destruct (get_updatedItem old updates (toISOString (clock s (clock_reads s))))
      as (-> & _). done. }
  replace (list_find _ _) with (Some (i, new)); [done|].
  symmetry. apply list_find_Some. split_and!.
  - apply list_lookup_insert_eq. by eapply lookup_lt_Some.
  - done.
  - intros j other Hj Hlt. rewrite list_lookup_insert_ne in Hj by lia.
    by eapply Hbefore.
Qed.

(** X13. An addition can be read back as long as the identifier drawn
    is new: when [addFoodItem] returns a record whose identifier no stored
    item had, [getFoodItemById] with that identifier returns the record. *)
Theorem addFoodItem_then_getFoodItemById request s item s' :
  addFoodItem request s = (Returned item, s') →
  (∀ l other, items_of (database s) = Some l → other ∈ l →
              FoodItem.id other ≠ FoodItem.id item) →
  getFoodItemById (FoodItem.id item) s' = (Returned item, s').
Proof.
  intros Hadd Hfresh.
  destruct (addFoodItem_outcome request s _ _ Hadd)
    as [_ [[_ Hno]|(l & new & Hl & _ & Hl' & Hr)]]; [by destruct (Hno item)|].
  rewrite (Hr item eq_refl) in *.
  apply items_of_Some in Hl' as (db' & Hdb' & Hitems).
  rewrite (getFoodItemById_Loaded _ s' db' Hdb'), Hitems.
  replace (list_find _ _) with (Some (length l, new)); [done|].
  symmetry. apply list_find_Some. split_and!.
  - by rewrite lookup_app_r, Nat.sub_diag.
  - done.
  - intros j other Hj Hlt. rewrite lookup_app_l in Hj by done.
    apply (Hfresh l other Hl). by eapply list_elem_of_lookup_2.
Qed.

(** X14. A removal by identifier is final when identifiers are not
    shared: when [removeFoodItem] with an identifier and no name returns,
    the record returned carries that identifier, and in a collection where
    no two items had the same identifier [getFoodItemById] with it no
    longer finds anything. *)
Theorem removeFoodItem_then_getFoodItemById id s item s' l :
  removeFoodItem (Some id) None s = (Returned item, s') →
  items_of (database s) = Some l →
  NoDup (FoodItem.id <$> l) →
  FoodItem.id item = id
  ∧ getFoodItemById id s'
    = (Thrown (NotFoundError ("Food item not found with id: " +:+ id)), s').
Proof.
  intros Hrm Hl Hnodup.
  destruct (removeFoodItem_outcome (Some id) None s _ _ Hrm)
    as [[_ Hno]|(l0 & i & it & Hl0 & Hfind & Hl' & [Hr|[? Hr]])];
    [by destruct (Hno item)| |done].
  injection Hr as <-. rewrite Hl in Hl0. injection Hl0 as <-.
  apply list_find_Some in Hfind as (Hi & Hsel & _).
  assert (Hid : FoodItem.id item = id).
  { apply Is_true_true in Hsel. unfold selected in Hsel. simpl in Hsel.
    rewrite orb_false_r in Hsel. apply andb_true_iff in Hsel as [_ Hsel].
    apply bool_decide_eq_true in Hsel. by injection Hsel. }
  split; [done|].
  apply items_of_Some in Hl' as (db' & Hdb' & Hitems).
  rewrite (getFoodItemById_Loaded _ s' db' Hdb'), Hitems.
  replace (list_find _ _) with (@None (nat * FoodItem.t)); [done|].
  symmetry. apply list_find_None, Forall_forall. intros other Hin Hother.
  apply list_elem_of_lookup in Hin as [j Hj].
  assert (Hi' : (FoodItem.id <$> l) !! i = Some id)
    by (by rewrite list_lookup_fmap, Hi; simpl; rewrite Hid).
  destruct (decide (j < i)%nat) as [Hlt|Hge].
  - rewrite list_lookup_delete_lt in Hj by done.
    assert (Hj' : (FoodItem.id <$> l) !! j = Some id)
      by (by rewrite list_lookup_fmap, Hj; simpl; rewrite Hother).
    pose proof (NoDup_lookup _ _ _ _ Hnodup Hi' Hj'). lia.
  - rewrite list_lookup_delete_ge in Hj by lia.
    assert (Hj' : (FoodItem.id <$> l) !! S j = Some id)
      by (by rewrite list_lookup_fmap, Hj; simpl; rewrite Hother).
    pose proof (NoDup_lookup _ _ _ _ Hnodup Hi' Hj'). lia.
Qed.

(** ** [getStats], [clearAllData], the merge of [updateFoodItem] *)

Lemma elem_of_distinct x l : x ∈ distinct l ↔ x ∈ l.
Proof.
  induction l as [|y l IH]; simpl; [done|].
  rewrite !elem_of_cons, <- IH, !list_elem_of_In, filter_In, negb_true_iff,
    String.eqb_neq.
  destruct (decide (x = y)); tauto.
Qed.

Lemma NoDup_distinct l : NoDup (distinct l).
Proof.
  induction l as [|y l IH]; simpl; [constructor|].
  apply NoDup_cons. split.
  - rewrite list_elem_of_In, filter_In, negb_true_iff, String.eqb_neq. tauto.
  - apply NoDup_ListNoDup, List.NoDup_filter, NoDup_ListNoDup, IH.
Qed.

Lemma elem_of_given_fields (field : FoodItem.t → option string) (l : list FoodItem.t) c :
  c ∈ omap (λ item, if given (field item) then field item else None) l
  ↔ c ≠ "" ∧ ∃ item, item ∈ l ∧ field item = Some c.
Proof.
  rewrite list_elem_of_omap. split.
  - intros (item & Hin & Hc). destruct (field item) as [c'|] eqn:Hf; [|done].
    simpl in Hc. unfold nonempty in Hc.
    destruct (String.eqb_spec c' ""); simpl in Hc; [done|].
    injection Hc as <-. split; [done|]. by exists item.
  - intros (Hne & item & Hin & Hf). exists item. split; [done|]. rewrite Hf.
    simpl. unfold nonempty. apply String.eqb_neq in Hne. by rewrite Hne.
Qed.

(** X15. [getStats] on an initialized store, the clock standing at [now]
    during the call: [totalItems] is the size of the collection;
    [categories] and [locations] list, without repetition, exactly the
    non-empty categories and locations that occur in it; [expiringCount]
    counts the items expiring between [now] and seven days later, which is
    also how many items [listFoodItems({expiringSoon: true})] returns;
    [lastModified] and [version] are the envelope's. *)
Theorem getStats_counts s db now :
  database s = Loaded db →
  (∀ n, clock s n = now) →
  ∃ stats s',
    getStats s = (Returned stats, s')
    ∧ Stats.totalItems stats = length (FridgeDatabase.items db)
    ∧ NoDup (Stats.categories stats)
    ∧ (∀ c, c ∈ Stats.categories stats ↔
            c ≠ "" ∧ ∃ item, item ∈ FridgeDatabase.items db
                             ∧ FoodItem.category item = Some c)
    ∧ NoDup (Stats.locations stats)
    ∧ (∀ c, c ∈ Stats.locations stats ↔
            c ≠ "" ∧ ∃ item, item ∈ FridgeDatabase.items db
                             ∧ FoodItem.location item = Some c)
    ∧ Stats.expiringCount stats
      = length (List.filter (expires_within now 7) (FridgeDatabase.items db))
    ∧ (∃ result s'',
         listFoodItems (request_expiring_soon None) s = (Returned result, s'')
         ∧ length result = Stats.expiringCount stats)
    ∧ Stats.lastModified stats = FridgeDatabase.lastModified db
    ∧ Stats.version stats = FridgeDatabase.version db.
Proof.
  intros Hdb Hclock. unfold getStats. rewrite (guarded_Loaded _ s db Hdb).
  cbv zeta. unfold bind, new_Date, gets, ret. cbv beta iota. rewrite Hclock.
  destruct (filterM_expires_by_frozen now 7 (FridgeDatabase.items db) (tick s))
    as (s' & -> & _ & Hdb' & _); [done|].
  change (database (tick s)) with (database s) in Hdb'. rewrite Hdb in Hdb'.
  do 2 eexists. split; [done|].
  cbn [Stats.totalItems Stats.categories Stats.locations Stats.expiringCount
       Stats.lastModified Stats.version].
  split_and!.
  - done.
  - apply NoDup_distinct.
  - intros c. rewrite elem_of_distinct. apply elem_of_given_fields.
  - apply NoDup_distinct.
  - intros c. rewrite elem_of_distinct. apply elem_of_given_fields.
  - done.
  - unfold listFoodItems. rewrite (guarded_Loaded _ s db Hdb).
    cbv zeta. cbn [request_expiring_soon ListFoodItemsRequest.category
                   ListFoodItemsRequest.location ListFoodItemsRequest.expiringSoon
                   given default from_option id].
    unfold bind, new_Date, ret. cbv beta iota. rewrite Hclock.
    change (daysThreshold (request_expiring_soon None)) with 7%Z.
    destruct (filterM_expires_by_frozen now 7 (FridgeDatabase.items db) (tick s))
      as (s'' & -> & _); [done|].
    do 2 eexists. split; [done|]. by rewrite sort_Permutation.
  - by rewrite Hdb'.
  - by rewrite Hdb'.
Qed.

(** X16. [clearAllData] on an initialized store empties the collection in
    memory whether or not the save that follows returns. With a writable
    directory it returns and the primary file holds the empty collection
    under the same version; when the save fails the primary file still
    holds what it held, so memory and disk disagree until the next save
    that returns. *)
Theorem clearAllData_empties s db :
  database s = Loaded db →
  (∀ r s', clearAllData s = (r, s') →
           items_of (database s') = Some []
           ∧ (r = Returned ()
              ∨ ∃ cause, r = Thrown (DatabaseError "Failed to save database"
                                       (Some cause)))
           ∧ (∀ e, r = Thrown e → dataFile (fs s') = dataFile (fs s)))
  ∧ (write_fails (fs s) = false →
     ∃ s', clearAllData s = (Returned (), s')
           ∧ database s'
             = Loaded {| FridgeDatabase.items := [];
                         FridgeDatabase.lastModified :=
                           VStr (toISOString (clock s (clock_reads s)));
                         FridgeDatabase.version := FridgeDatabase.version db |}
           ∧ dataFile (fs s') = Some (Json (view (database s')))
           ∧ ∃ s'', listFoodItems ListFoodItemsRequest.empty s' = (Returned [], s'')).
Proof.
  intros Hdb. rewrite (clearAllData_Loaded s db Hdb).
  set (s0 := with_database _ s). split.
  - intros r s' Hs. split; [by apply saveDatabase_items in Hs|].
    destruct r as [[]|e].
    + split; [by left|done].
    + destruct (saveDatabase_failure_keeps_primary_aux s0 _ e s' eq_refl Hs)
        as ([cause ->] & Hfile).
      split; [right; by exists cause|]. intros _ _. exact Hfile.
  - intros Hw.
    destruct (saveDatabase_Loaded_writable s0 _ eq_refl Hw) as (s' & Hs & Hdb' & _).
    exists s'. split; [done|]. split; [by rewrite Hdb'|].
    apply saveDatabase_Returned in Hs as (Hd & _). split; [done|].
    unfold listFoodItems. rewrite (guarded_Loaded _ s' _ Hdb'). by eexists.
Qed.

Lemma get_updatedItem_field k existingItem updates now :
  k ≠ "id" → k ≠ "addedDate" → k ≠ "lastModified" →
  get k (updatedItem existingItem updates now)
  = overridden k updates (get k (FoodItem.to_value existingItem)).
Proof.
  intros H1 H2 H3. apply String.eqb_neq in H1, H2, H3.
  unfold updatedItem, overridden, get, FoodItem.to_value.
  rewrite !own_prop_app. simpl. rewrite H1, H2, H3.
  by destruct (own_prop k (spread updates)).
Qed.

(** The merged record, read field by field. *)
Lemma of_value_updatedItem existingItem updates now :
  FoodItem.of_value (updatedItem existingItem updates now)
  = merged existingItem updates now.
Proof.
  destruct (get_updatedItem existingItem updates now) as (Gi & Ga & Gm).
  destruct (get_FoodItem_to_value existingItem)
    as (_ & Gn & Gq & Gu & Ge & Gc & Gl & Go & _ & _).
  unfold FoodItem.of_value, merged. rewrite Gi, Ga, Gm.
  rewrite !get_updatedItem_field by done.
  by rewrite Gn, Gq, Gu, Ge, Gc, Gl, Go.
Qed.

(** X17. The record [updateFoodItem] returns is the existing one with
    each field replaced by the payload's value where the payload has that
    key, and kept where it has not; [id] and [addedDate] are always kept
    and [lastModified] is the time of the call. The record is validated
    against [FoodItemSchema], not against the schema of requests, so a
    payload that only sets the quantity of a valid item to any integer
    from 0 on is accepted. *)
Theorem updateFoodItem_merges_fields id updates s db i existingItem :
  database s = Loaded db →
  list_find (λ item, FoodItem.id item = id) (FridgeDatabase.items db)
  = Some (i, existingItem) →
  (∀ item s',
     updateFoodItem id updates s = (Returned item, s') →
     item = merged existingItem updates (toISOString (clock s (clock_reads s))))
  ∧ (∀ z, updates = VObj [("quantity", VInt z)] →
          (0 <= z)%Z →
          valid_item existingItem →
          is_datetime (toISOString (clock s (clock_reads s))) = true →
          write_fails (fs s) = false →
          ∃ s', updateFoodItem id updates s
                = (Returned (merged existingItem updates
                               (toISOString (clock s (clock_reads s)))), s')
                ∧ FoodItem.quantity
                    (merged existingItem updates
                       (toISOString (clock s (clock_reads s)))) = z).
Proof.
  intros Hdb Hfind. rewrite (updateFoodItem_Loaded id updates s db Hdb), Hfind.
  set (now := toISOString _). split.
  - intros item s'.
    destruct (FoodItemSchema_parse _) as [v|e] eqn:Hp; [|done].
    apply FoodItemSchema_parse_Returned in Hp as [_ ->].
    rewrite of_value_updatedItem.
    by destruct (saveDatabase _) as [[[]|e] s2]; intros [= <- <-].
  - intros z -> Hz Hvalid Hnow Hw.
    assert (Hpass : FoodItemSchema []
                      (updatedItem existingItem (VObj [("quantity", VInt z)]) now)
                    = []).
    { apply FoodItemSchema_nil. apply FoodItemSchema_nil in Hvalid.
      destruct Hvalid as [_ Hi Hn _ Hu He Hc Hl Ho Ha _].
      destruct (get_updatedItem existingItem (VObj [("quantity", VInt z)]) now)
        as (Gi & Ga & Gm).
      destruct (get_FoodItem_to_value existingItem) as (Ei & _ & _ & _ & _ & _ & _ & _ & Ea & _).
      split; try (rewrite get_updatedItem_field by done; unfold overridden;
                  simpl own_prop; cbv iota; done).
      - by eexists.
      - by rewrite Gi, <- Ei.
      - rewrite get_updatedItem_field by done. unfold overridden. simpl own_prop.
        cbv iota. eexists. split; [done|]. by apply VInt_passes.
      - by rewrite Ga, <- Ea.
      - rewrite Gm. by eexists. }
    assert (Hp : FoodItemSchema_parse
                   (updatedItem existingItem (VObj [("quantity", VInt z)]) now)
                 = Returned (merged existingItem (VObj [("quantity", VInt z)]) now)).
    { apply FoodItemSchema_parse_Returned. by rewrite of_value_updatedItem. }
    rewrite Hp.
    set (s0 := with_database _ (tick s)).
    destruct (saveDatabase_Loaded_writable s0 _ eq_refl Hw) as (s' & -> & _).
    exists s'. split; [done|].
    unfold merged, overridden, as_integer, VInt. simpl. by rewrite Z.div_1_r.
Qed.

(** ** The adapters *)

Lemma handleError_eq {A} fm (error : Error) s :
  ∃ statusCode message,
    handleError (A:=A) fm error s
    = (Returned (statusCode,
                 {| ApiResponse.success := false; ApiResponse.data := None;
                    ApiResponse.error := Some message;
                    ApiResponse.timestamp := toISOString (clock s (clock_reads s)) |}),
       tick s)
    ∧ match error with
      | ValidationError msg _ => statusCode = 400 ∧ message = msg
      | NotFoundError msg => statusCode = 404 ∧ message = msg
      | DatabaseError _ _ => statusCode = 500 ∧ message = "Database error occurred"
      | _ => statusCode = 500
             ∧ (message = "File system error" ∨ message = "Internal server error")
      end.
Proof.
  unfold handleError, bind, new_Date, ret.
  destruct error; try (destruct (includes _ _)); by eauto 6.
Qed.

Lemma respond_eq {A} fm statusCode (call : M A) s :
  respond fm statusCode call s =
  match call s with
  | (Returned x, s1) =>
      (Returned (statusCode,
                 {| ApiResponse.success := true; ApiResponse.data := Some x;
                    ApiResponse.error := None;
                    ApiResponse.timestamp := toISOString (clock s1 (clock_reads s1)) |}),
       tick s1)
  | (Thrown e, s1) => handleError fm e s1
  end.
Proof.
  unfold respond, try_catch, bind, new_Date, ret.
  by destruct (call s) as [[x|e] s1].
Qed.

(** A route answers whatever the service does, and the state it leaves is
    the one the service left, the clock read once more. *)
Lemma respond_total {A} fm statusCode (call : M A) s :
  ∃ response,
    respond fm statusCode call s = (Returned response, tick (call s).2)
    ∧ match (call s).1 with
      | Returned x =>
          response.1 = statusCode
          ∧ ApiResponse.success response.2 = true
          ∧ ApiResponse.data response.2 = Some x
          ∧ ApiResponse.error response.2 = None
      | Thrown e =>
          ApiResponse.success response.2 = false
          ∧ ApiResponse.data response.2 = None
          ∧ match e with
            | ValidationError msg _ =>
                response.1 = 400 ∧ ApiResponse.error response.2 = Some msg
            | NotFoundError msg =>
                response.1 = 404 ∧ ApiResponse.error response.2 = Some msg
            | DatabaseError _ _ =>
                response.1 = 500
                ∧ ApiResponse.error response.2 = Some "Database error occurred"
            | _ =>
                response.1 = 500
                ∧ (ApiResponse.error response.2 = Some "File system error"
                   ∨ ApiResponse.error response.2 = Some "Internal server error")
            end
      end.
Proof.
  rewrite respond_eq. destruct (call s) as [[x|e] s1]; simpl.
  - by eexists.
  - destruct (handleError_eq (A:=A) fm e s1) as (code & msg & -> & He).
    eexists. split; [done|]. simpl. split_and!; [done..|].
    destruct e; naive_solver.
Qed.

(** X21. No route lets an exception escape: in every state of the
    service, for every argument and whatever the text of foreign errors,
    [GET /api/stats], [POST /api/food-items], [GET], [PUT] and [DELETE
    /api/food-items/:id] and [GET /health] send a response; its [success]
    flag is set exactly when the status is 200 or 201, and then it carries
    data and no error text, otherwise an error text and no data. *)
Theorem routes_always_respond fm s :
  answered (get_api_stats fm) s
  ∧ (∀ body, answered (post_api_food_items fm body) s)
  ∧ (∀ id, answered (get_api_food_items_id fm id) s)
  ∧ (∀ id body, answered (put_api_food_items_id fm id body) s)
  ∧ (∀ id, answered (delete_api_food_items_id fm id) s)
  ∧ ∀ startTime, ∃ response s', get_health startTime s = (Returned response, s').
Proof.
  assert (Hrespond : ∀ A statusCode (call : M A),
            statusCode = 200 ∨ statusCode = 201 →
            answered (respond fm statusCode call) s).
  { intros A statusCode call Hcode.
    destruct (respond_total fm statusCode call s) as (response & Hrun & Hcases).
    exists response, (tick (call s).2). split; [done|].
    destruct (call s).1 as [x|e].
    - left. destruct Hcases as (-> & -> & -> & ->). by eauto.
    - right. destruct Hcases as (-> & -> & He).
      destruct e; naive_solver. }
  split_and!; try (intros; apply Hrespond; by eauto).
  intros startTime. unfold get_health, try_catch, bind, new_Date, ret.
  destruct (getStats s) as [[stats|e] s1]; by eauto.
Qed.

(** X22. [POST /api/food-items] answers 201 with the new item when
    [addFoodItem] returns, and 500 with 'Database error occurred' in every
    other case: it never answers 400. In particular a body that fails
    [AddFoodItemRequestSchema] gets 500, and neither the collection nor
    the files have changed. *)
Theorem post_api_food_items_never_400 fm body s :
  ∃ response s',
    post_api_food_items fm body s = (Returned response, s')
    ∧ ((response.1 = 201
        ∧ ∃ item, (addFoodItem body s).1 = Returned item
                  ∧ ApiResponse.data response.2 = Some item)
       ∨ (response.1 = 500
          ∧ ApiResponse.success response.2 = false
          ∧ ApiResponse.error response.2 = Some "Database error occurred"))
    ∧ (AddFoodItemRequestSchema [] body ≠ [] →
       response.1 = 500 ∧ database s' = database s ∧ fs s' = fs s).
Proof.
  unfold post_api_food_items.
  destruct (respond_total fm 201 (addFoodItem body) s) as (response & Hrun & Hcases).
  exists response, (tick (addFoodItem body s).2). split; [done|].
  destruct (addFoodItem body s) as [r s1] eqn:Hadd. simpl in Hcases |- *.
  pose proof (addFoodItem_outcome body s r s1 Hadd) as [[[cause ->]|[item ->]] _].
  - destruct Hcases as (Hs & _ & Hc & He). split; [by right|].
    intros Hbad. split; [done|].
    assert (Hp : AddFoodItemRequestSchema_parse body
                 = Thrown (ZodError (AddFoodItemRequestSchema [] body)))
      by by apply AddFoodItemRequestSchema_parse_Thrown.
    rewrite (addFoodItem_invalid body s _ Hp) in Hadd. by injection Hadd as _ <-.
  - destruct Hcases as (Hc & _ & Hd & _). split; [left; by eauto|].
    intros Hbad.
    assert (Hp : AddFoodItemRequestSchema_parse body
                 = Thrown (ZodError (AddFoodItemRequestSchema [] body)))
      by by apply AddFoodItemRequestSchema_parse_Thrown.
    by rewrite (addFoodItem_invalid body s _ Hp) in Hadd.
Qed.

(** X23. The item routes on an initialized store. [GET
    /api/food-items/:id] answers 200 with the first item carrying the
    identifier, or 404 with the text that names it, and changes nothing
    but the clock. [PUT /api/food-items/:id] answers 404 when no item
    carries the identifier; when the merged record fails [FoodItemSchema]
    it answers 500, not 400, and the collection and the files are as
    before. [DELETE /api/food-items/:id] answers 400 exactly when the
    identifier is empty. *)
Theorem item_routes_on_initialized_store fm s db id :
  database s = Loaded db →
  (∃ response,
     get_api_food_items_id fm id s = (Returned response, tick s)
     ∧ match list_find (λ item, FoodItem.id item = id) (FridgeDatabase.items db) with
       | Some (_, item) =>
           response.1 = 200 ∧ ApiResponse.data response.2 = Some item
       | None =>
           response.1 = 404
           ∧ ApiResponse.error response.2
             = Some ("Food item not found with id: " +:+ id)
       end)
  ∧ (∀ body, ∃ response s',
       put_api_food_items_id fm id body s = (Returned response, s')
       ∧ (response.1 = 200 ∨ response.1 = 404 ∨ response.1 = 500)
       ∧ (response.1 = 404 ↔
          list_find (λ item, FoodItem.id item = id) (FridgeDatabase.items db) = None)
       ∧ (∀ i existingItem,
            list_find (λ item, FoodItem.id item = id) (FridgeDatabase.items db)
            = Some (i, existingItem) →
            FoodItemSchema []
              (updatedItem existingItem body (toISOString (clock s (clock_reads s))))
            ≠ [] →
            response.1 = 500 ∧ database s' = database s ∧ fs s' = fs s))
  ∧ (∃ response s',
       delete_api_food_items_id fm id s = (Returned response, s')
       ∧ (response.1 = 400 ↔ id = "")).
Proof.
  intros Hdb. split_and!.
  - unfold get_api_food_items_id.
    destruct (respond_total fm 200 (getFoodItemById id) s) as (response & Hrun & Hcases).
    rewrite (getFoodItemById_Loaded id s db Hdb) in Hrun, Hcases.
    exists response.
    destruct (list_find _ _) as [[i item]|]; simpl in Hrun, Hcases.
    + split; [done|]. by destruct Hcases as (-> & _ & -> & _).
    + split; [done|]. by destruct Hcases as (_ & _ & -> & ->).
  - intros body. unfold put_api_food_items_id.
    destruct (respond_total fm 200 (updateFoodItem id body) s)
      as (response & Hrun & Hcases).
    rewrite (updateFoodItem_Loaded id body s db Hdb) in Hrun, Hcases.
    exists response. eexists. split; [exact Hrun|].
    destruct (list_find _ _) as [[i existingItem]|] eqn:Hfind; simpl in Hcases |- *.
    2:{ destruct Hcases as (_ & _ & -> & _). split_and!; [by auto|done|done]. }
    destruct (FoodItemSchema_parse _) as [v|e] eqn:Hp.
    + apply FoodItemSchema_parse_Returned in Hp as [Hpass _].
      destruct (saveDatabase _) as [[[]|e] s2] eqn:Hs; simpl in Hcases |- *.
      * destruct Hcases as (-> & _). split_and!; [by auto|done|].
        intros ?? [= <- <-] Hbad. done.
      * apply saveDatabase_Thrown in Hs as [[_ Hf]|[cause ->]]; [done|].
        destruct Hcases as (_ & _ & -> & _). split_and!; [by auto|done|].
        intros ?? [= <- <-] Hbad. done.
    + apply FoodItemSchema_parse_Thrown in Hp as [-> _]. simpl in Hcases |- *.
      destruct Hcases as (_ & _ & -> & _). split_and!; [by auto|done|done].
  - unfold delete_api_food_items_id.
    destruct (respond_total fm 200 (removeFoodItem (Some id) None) s)
      as (response & Hrun & Hcases).
    exists response. eexists. split; [exact Hrun|].
    destruct (decide (id = "")) as [->|Hid].
    + unfold removeFoodItem in Hcases. simpl in Hcases.
      by destruct Hcases as (_ & _ & -> & _).
    + assert (Hgiven : given (Some id) || given None = true).
      { simpl. unfold nonempty. apply String.eqb_neq in Hid. by rewrite Hid. }
      rewrite (removeFoodItem_Loaded (Some id) None s db Hdb Hgiven) in Hcases.
      destruct (list_find _ _) as [[i item]|]; simpl in Hcases.
      * destruct (saveDatabase _) as [[[]|e] s2] eqn:Hs; simpl in Hcases.
        -- destruct Hcases as (-> & _). done.
        -- apply saveDatabase_Thrown in Hs as [[_ Hf]|[cause ->]]; [done|].
           destruct Hcases as (_ & _ & -> & _). done.
      * destruct Hcases as (_ & _ & -> & _). done.
Qed.


(** Stripping a request to the keys of the schema and reading it again
    gives the same typed request. *)
Lemma AddFoodItemRequest_of_props (r : AddFoodItemRequest.t) :
  AddFoodItemRequest.of_value (VObj (AddFoodItemRequest.props r)) = r.
Proof.
  destruct r as [n q u [e|] [c|] [l|] [o|]];
    unfold AddFoodItemRequest.of_value, as_integer, VInt; simpl;
    by rewrite Z.div_1_r.
Qed.

Lemma get_AddFoodItemRequest_props (r : AddFoodItemRequest.t) :
  get "name" (VObj (AddFoodItemRequest.props r)) = VStr (AddFoodItemRequest.name r)
  ∧ get "quantity" (VObj (AddFoodItemRequest.props r))
    = VInt (AddFoodItemRequest.quantity r)
  ∧ get "unit" (VObj (AddFoodItemRequest.props r)) = VStr (AddFoodItemRequest.unit r)
  ∧ get "expirationDate" (VObj (AddFoodItemRequest.props r))
    = from_option VStr VUndefined (AddFoodItemRequest.expirationDate r)
  ∧ get "category" (VObj (AddFoodItemRequest.props r))
    = from_option VStr VUndefined (AddFoodItemRequest.category r)
  ∧ get "location" (VObj (AddFoodItemRequest.props r))
    = from_option VStr VUndefined (AddFoodItemRequest.location r)
  ∧ get "notes" (VObj (AddFoodItemRequest.props r))
    = from_option VStr VUndefined (AddFoodItemRequest.notes r).
Proof.
  destruct r as [n q u [e|] [c|] [l|] [o|]]; repeat split; reflexivity.
Qed.

(** What passes [AddFoodItemRequestSchema] passes it again once
    stripped. *)
Lemma AddFoodItemRequestSchema_stripped args :
  AddFoodItemRequestSchema [] args = [] →
  AddFoodItemRequestSchema []
    (VObj (AddFoodItemRequest.props (AddFoodItemRequest.of_value args))) = [].
Proof.
  rewrite !AddFoodItemRequestSchema_nil.
  intros [_ (n & Hn & ?) (q & Hq & ? & ?) (u & Hu & ?) He Hc Hl Ho].
  destruct (get_AddFoodItemRequest_props (AddFoodItemRequest.of_value args))
    as (Gn & Gq & Gu & Ge & Gc & Gl & Go).
  split; rewrite ?Gn, ?Gq, ?Gu, ?Ge, ?Gc, ?Gl, ?Go;
    unfold AddFoodItemRequest.of_value; simpl;
    rewrite ?Hn, ?Hq, ?Hu; simpl; try by eauto.
  - exists (inject_Z (as_integer (VNum q))). split; [done|].
    apply VInt_passes. by apply as_integer_bound.
  - destruct He as [->|(s & -> & ?)]; simpl; eauto.
  - destruct Hc as [->|(s & ->)]; simpl; eauto.
  - destruct Hl as [->|(s & ->)]; simpl; eauto.
  - destruct Ho as [->|(s & ->)]; simpl; eauto.
Qed.

(** [addFoodItem] looks at its argument through the parse only. *)
Lemma addFoodItem_ext request request' s :
  AddFoodItemRequestSchema_parse request = AddFoodItemRequestSchema_parse request' →
  addFoodItem request s = addFoodItem request' s.
Proof. intros Hp. unfold addFoodItem. by rewrite Hp. Qed.

(** X25. The [addfooditem] tool validates before the service does. When
    the arguments fail [AddFoodItemRequestSchema], the handler throws an
    [McpError] with code [InvalidParams], the message 'Validation failed:
    Invalid input parameters' and the issues of the schema as data, and
    nothing at all has changed, the clock has not even been read. When
    they pass, the call does what [addFoodItem] does on the same
    arguments: validating the stripped arguments a second time inside the
    service changes nothing; what can still go wrong is reported as
    [InternalError] with 'Database error: Failed to add food item'. *)
Theorem callTool_addfooditem_validates fm args s :
  (AddFoodItemRequestSchema [] args ≠ [] →
   callTool_addfooditem fm args s
   = (inr {| McpError.code := McpError.InvalidParams;
             McpError.message := "Validation failed: Invalid input parameters";
             McpError.data := Some (Some (AddFoodItemRequestSchema [] args)) |}, s))
  ∧ (AddFoodItemRequestSchema [] args = [] →
     handleAddFoodItem args s = addFoodItem args s
     ∧ match addFoodItem args s with
       | (Returned item, s') => callTool_addfooditem fm args s = (inl item, s')
       | (Thrown _, s') =>
           callTool_addfooditem fm args s
           = (inr {| McpError.code := McpError.InternalError;
                     McpError.message := "Database error: Failed to add food item";
                     McpError.data := None |}, s')
       end).
Proof.
  split.
  - intros Hbad. unfold callTool_addfooditem, handleAddFoodItem, try_catch, bind, lift.
    assert (Hp : AddFoodItemRequestSchema_parse args
                 = Thrown (ZodError (AddFoodItemRequestSchema [] args)))
      by by apply AddFoodItemRequestSchema_parse_Thrown.
    by rewrite Hp.
  - intros Hok.
    assert (Hp : AddFoodItemRequestSchema_parse args
                 = Returned (AddFoodItemRequest.of_value args))
      by by apply AddFoodItemRequestSchema_parse_Returned.
    assert (Hsame : addFoodItem
                      (VObj (AddFoodItemRequest.props (AddFoodItemRequest.of_value args)))
                      s
                    = addFoodItem args s).
    { apply addFoodItem_ext. rewrite Hp.
      apply AddFoodItemRequestSchema_parse_Returned.
      split; [by apply AddFoodItemRequestSchema_stripped|].
      by rewrite AddFoodItemRequest_of_props. }
    assert (Hhandle : handleAddFoodItem args s = addFoodItem args s).
    { unfold handleAddFoodItem, try_catch, bind, lift. rewrite Hp, Hsame.
      destruct (addFoodItem args s) as [r s'] eqn:Hadd.
      pose proof (addFoodItem_outcome args s r s' Hadd) as [[[cause ->]|[item ->]] _];
        done. }
    split; [done|]. unfold callTool_addfooditem. rewrite Hhandle.
    destruct (addFoodItem args s) as [r s'] eqn:Hadd.
    pose proof (addFoodItem_outcome args s r s' Hadd) as [[[cause ->]|[item ->]] _];
      done.
Qed.


(** ** Memory and disk *)

Lemma saveDatabase_on_disk s s' : saveDatabase s = (Returned (), s') → on_disk s'.
Proof. intros (Hd & _ & Ht & _)%saveDatabase_Returned. by split. Qed.

(** X26. A mutation that returns is on disk: whenever [addFoodItem],
    [removeFoodItem], [updateFoodItem] or [clearAllData] returns, in
    whatever state it was called, the primary file holds exactly the
    serialization of [this.database] as the call left it, and no temporary
    file remains. ([initialize] is not in the list: it can return with a
    collection in memory that differs from the file it read.) *)
Theorem returned_mutation_is_on_disk s :
  (∀ request item s', addFoodItem request s = (Returned item, s') → on_disk s')
  ∧ (∀ id name item s', removeFoodItem id name s = (Returned item, s') → on_disk s')
  ∧ (∀ id updates item s',
       updateFoodItem id updates s = (Returned item, s') → on_disk s')
  ∧ (∀ s', clearAllData s = (Returned (), s') → on_disk s').
Proof.
  split_and!.
  - intros request item s'.
    unfold addFoodItem, try_catch, bind at 1, lift.
    destruct (AddFoodItemRequestSchema_parse request) as [req|e1] eqn:Hp1.
    2:{ apply AddFoodItemRequestSchema_parse_Thrown in Hp1 as [-> _]. done. }
    cbv beta iota.
    unfold bind at 1, new_Date. unfold bind at 1, uuidv4. unfold bind at 1.
    destruct (FoodItemSchema_parse _) as [v|e2] eqn:Hp2.
    2:{ apply FoodItemSchema_parse_Thrown in Hp2 as [-> _]. done. }
    set (s1 := draw (tick s)).
    destruct (database s) as [d|db] eqn:Hdb.
    + rewrite (guarded_Unchecked _ s1 d Hdb). by destruct (truthy d).
    + rewrite (guarded_Loaded _ s1 db Hdb).
      unfold bind, set_items, modify, ret.
      destruct (saveDatabase _) as [[[]|e] s2] eqn:Hs.
      * intros [= _ <-]. by eapply saveDatabase_on_disk.
      * by destruct (instanceof_ValidationError e).
  - intros id name item s'.
    destruct (given id || given name) eqn:Hsel.
    2:{ unfold removeFoodItem. apply orb_false_elim in Hsel as [-> ->]. done. }
    destruct (database s) as [d|db] eqn:Hdb.
    + unfold removeFoodItem.
      replace (negb (given id) && negb (given name)) with false
        by (by destruct (given id), (given name)).
      by rewrite (guarded_Unchecked _ s d Hdb).
    + rewrite (removeFoodItem_Loaded id name s db Hdb Hsel).
      destruct (list_find _ _) as [[i it]|]; [|done].
      destruct (saveDatabase _) as [[[]|e] s2] eqn:Hs; [|done].
      intros [= _ <-]. by eapply saveDatabase_on_disk.
  - intros id updates item s'.
    destruct (database s) as [d|db] eqn:Hdb.
    + unfold updateFoodItem. by rewrite (guarded_Unchecked _ s d Hdb).
    + rewrite (updateFoodItem_Loaded id updates s db Hdb).
      destruct (list_find _ _) as [[i it]|]; [|done].
      destruct (FoodItemSchema_parse _) as [v|e]; [|done].
      destruct (saveDatabase _) as [[[]|e] s2] eqn:Hs; [|done].
      intros [= _ <-]. by eapply saveDatabase_on_disk.
  - intros s'.
    unfold clearAllData, bind, require_database, bind, gets, ret, throw.
    destruct (truthy (view (database s))) eqn:Ht; cbn [negb]; cbv beta iota; [|done].
    destruct (database s) as [v|db] eqn:Hdb; [destruct v|]; unfold modify, throw;
      try done; try apply saveDatabase_on_disk.
    intros Hs. apply save_ret in Hs as [_ Hfile]. by apply Hfile.
Qed.

End Properties.

(** * The service on the reference platform

    Concrete runs: the instances of the theorems above at sample data, and
    the inputs at which a statement of the specification does not hold. *)

#[local] Existing Instance Reference.runtime.

(** ** [addFoodItem] *)

(** C1. On [{name: "X", quantity: 0, unit: "u"}] the method does not throw
    a [ValidationError]: the [ZodError] of the schema, which is not an
    instance of [ValidationError], is wrapped in a [DatabaseError] whose
    message is 'Failed to add food item'. The issue is carried as the
    original error only. *)
Theorem addFoodItem_quantity_0_is_DatabaseError :
  (addFoodItem request_quantity_0
     (serving (disk None None no_faults) (ticking t0) (fridge [milk]))).1
  = Thrown (DatabaseError "Failed to add food item"
              (Some (ZodError [{| code := too_small; path := ["quantity"];
                                  message := "Quantity must be positive" |}])))
  ∧ instanceof_ValidationError
      (DatabaseError "Failed to add food item"
         (Some (ZodError [{| code := too_small; path := ["quantity"];
                             message := "Quantity must be positive" |}])))
    = false.
Proof. split; reflexivity. Qed.

(** The schema itself reports every violated constraint, one issue per
    field: on [{quantity: 0}] the name, the quantity and the unit. *)
Example AddFoodItemRequestSchema_reports_all :
  AddFoodItemRequestSchema [] request_only_quantity_0
  = [ {| code := invalid_type; path := ["name"]; message := "Required" |};
      {| code := too_small; path := ["quantity"];
         message := "Quantity must be positive" |};
      {| code := invalid_type; path := ["unit"]; message := "Required" |} ].
Proof. reflexivity. Qed.

Lemma addFoodItem_invalid_changes_nothing_witness :
  ∃ error s',
    addFoodItem request_quantity_0
      (serving (disk None None no_faults) (ticking t0) (fridge [milk]))
    = (Thrown error, s')
    ∧ database s' = Loaded (fridge [milk])
    ∧ fs s' = disk None None no_faults.
Proof.
  apply (addFoodItem_invalid_changes_nothing request_quantity_0
           (serving (disk None None no_faults) (ticking t0) (fridge [milk]))
           (ZodError [{| code := too_small; path := ["quantity"];
                         message := "Quantity must be positive" |}])).
  reflexivity.
Defined.

Lemma addFoodItem_not_rolled_back_witness :
  ∃ cause s',
    addFoodItem request_butter
      (serving (disk None None read_only) (ticking t0) (fridge [milk]))
    = (Thrown (DatabaseError "Failed to add food item"
                 (Some (DatabaseError "Failed to save database" (Some cause)))), s')
    ∧ items_of (database s')
      = Some [milk;
              stamped request_butter
                (serving (disk None None read_only) (ticking t0) (fridge [milk]))]
    ∧ dataFile (fs s') = None
    ∧ ∀ s2 s3,
        database s2 = database s' →
        saveDatabase s2 = (Returned (), s3) →
        ∃ doc, dataFile (fs s3) = Some (Json doc)
               ∧ get "items" doc
                 = VArr (FoodItem.to_value
                           <$> [milk;
                                stamped request_butter
                                  (serving (disk None None read_only) (ticking t0)
                                     (fridge [milk]))]).
Proof.
  apply (addFoodItem_not_rolled_back request_butter
           (serving (disk None None read_only) (ticking t0) (fridge [milk]))
           (fridge [milk])); reflexivity.
Defined.

Lemma not_initialized_witness :
  (∃ s', addFoodItem request_butter (constructed (disk None None no_faults) (ticking t0))
         = (Thrown (DatabaseError "Failed to add food item"
                      (Some (DatabaseError "Database not initialized" None))), s')
         ∧ database s' = Unchecked VNull
         ∧ fs s' = disk None None no_faults)
  ∧ getStats (constructed (disk None None no_faults) (ticking t0))
    = (Thrown (DatabaseError "Database not initialized" None),
       constructed (disk None None no_faults) (ticking t0)).
Proof.
  destruct (not_initialized (constructed (disk None None no_faults) (ticking t0)))
    as (Hadd & _ & _ & _ & _ & Hstats); [reflexivity|].
  split; [|exact Hstats].
  apply (Hadd request_butter); reflexivity.
Defined.

(** C10, the statement as given fails for [addFoodItem]: before
    [initialize], a valid request is answered with the message 'Failed to
    add food item', not 'Database not initialized'. *)
Lemma addFoodItem_before_initialize :
  (addFoodItem request_butter (constructed (disk None None no_faults) (ticking t0))).1
  = Thrown (DatabaseError "Failed to add food item"
              (Some (DatabaseError "Database not initialized" None)))
  ∧ ∀ original,
      (addFoodItem request_butter
         (constructed (disk None None no_faults) (ticking t0))).1
      ≠ Thrown (DatabaseError "Database not initialized" original).
Proof.
  split; [reflexivity|]. intros original Heq. vm_compute in Heq. discriminate Heq.
Qed.

(** ** [removeFoodItem] and [updateFoodItem] *)

(** C4, the statement as given fails: with the identifier of Eggs and the
    name "milk" both supplied, the item removed and returned is Milk, the
    first item the name matches, not the item the identifier designates. *)
Lemma removeFoodItem_name_beats_id :
  (removeFoodItem (Some (FoodItem.id eggs)) (Some "milk")
     (serving (disk None None no_faults) (ticking t0) (fridge [milk; eggs]))).1
  = Returned milk
  ∧ FoodItem.id milk ≠ FoodItem.id eggs
  ∧ items_of
      (database
         (removeFoodItem (Some (FoodItem.id eggs)) (Some "milk")
            (serving (disk None None no_faults) (ticking t0) (fridge [milk; eggs]))).2)
    = Some [eggs].
Proof.
  split_and!; [reflexivity| |reflexivity]. intros Heq. vm_compute in Heq.
  discriminate Heq.
Qed.

Lemma removeFoodItem_first_selected_witness :
  ∃ r s',
    removeFoodItem (Some (FoodItem.id eggs)) (Some "milk")
      (serving (disk None None no_faults) (ticking t0) (fridge [milk; eggs]))
    = (r, s')
    ∧ items_of (database s') = Some [eggs]
    ∧ (r = Returned milk
       ∨ ∃ cause, r = Thrown (DatabaseError "Failed to save database" (Some cause)))
    ∧ (write_fails (disk None None no_faults) = false → r = Returned milk).
Proof.
  destruct (removeFoodItem_first_selected (Some (FoodItem.id eggs)) (Some "milk")
              (serving (disk None None no_faults) (ticking t0) (fridge [milk; eggs]))
              (fridge [milk; eggs]))
    as (_ & _ & Hfirst & _); [reflexivity..|].
  apply (Hfirst 0%nat milk); [reflexivity..|]. intros j other _ Hj. lia.
Defined.

Lemma updateFoodItem_keeps_identity_witness :
  ∃ r s',
    updateFoodItem (FoodItem.id milk) payload_overriding_identity
      (serving (disk None None no_faults) (ticking t0) (fridge [milk; eggs]))
    = (r, s')
    ∧ match FoodItemSchema_parse
              (updatedItem milk payload_overriding_identity (toISOString t0)) with
      | Returned validatedItem =>
          FoodItem.id validatedItem = FoodItem.id milk
          ∧ FoodItem.addedDate validatedItem = FoodItem.addedDate milk
          ∧ FoodItem.lastModified validatedItem = toISOString t0
          ∧ items_of (database s') = Some (<[0%nat := validatedItem]> [milk; eggs])
          ∧ (r = Returned validatedItem
             ∨ ∃ cause,
                 r = Thrown (DatabaseError "Failed to save database" (Some cause)))
          ∧ (write_fails (disk None None no_faults) = false → r = Returned validatedItem)
      | Thrown e =>
          r = Thrown e ∧ database s' = Loaded (fridge [milk; eggs])
          ∧ fs s' = disk None None no_faults
      end.
Proof.
  apply (updateFoodItem_keeps_identity (FoodItem.id milk) payload_overriding_identity
           (serving (disk None None no_faults) (ticking t0) (fridge [milk; eggs]))
           (fridge [milk; eggs]) 0%nat milk); [reflexivity..|].
  intros j other _ Hj. lia.
Defined.

(** The payload of the witness does pass validation, with its quantity
    taken over and its [id] and [addedDate] ignored. *)
Example updatedItem_overriding_identity :
  FoodItemSchema_parse (updatedItem milk payload_overriding_identity (toISOString t0))
  = Returned {| FoodItem.id := FoodItem.id milk;
                FoodItem.name := "Milk"; FoodItem.quantity := 3;
                FoodItem.unit := "liter";
                FoodItem.expirationDate := Some "2025-11-09T00:00:00.000Z";
                FoodItem.category := Some "dairy";
                FoodItem.location := Some "door shelf";
                FoodItem.notes := None;
                FoodItem.addedDate := FoodItem.addedDate milk;
                FoodItem.lastModified := "2025-11-02T00:00:00.000Z" |}.
Proof. reflexivity. Qed.

(** ** [listFoodItems] *)


(** Milk expires exactly seven days after [t0] and is listed; Eggs expire
    a day later and Rice has no expiration date: neither is. The offset of
    local time is the same seven days on and the instant is in range. *)
Example listFoodItems_boundary :
  (listFoodItems (request_expiring_soon None)
     (serving (disk None None no_faults) (frozen t0) (fridge [milk; eggs; rice]))).1
  = Returned [milk]
  ∧ Date_parse "2025-11-09T00:00:00.000Z" = Some (t0 + 7 * msPerDay)%Z
  ∧ Date_parse "2025-11-10T00:00:00.000Z" = Some (t0 + 8 * msPerDay)%Z
  ∧ LocalTZA (t0 + LocalTZA t0 true + 7 * msPerDay) false = LocalTZA t0 true
  ∧ (Z.abs (t0 + 7 * msPerDay) <= maxTime)%Z.
Proof. split_and!; try reflexivity. vm_compute. by intros [=]. Qed.


(** ** [initialize], [loadDatabase] and [saveDatabase] *)

(** C2, the statement as given fails for a primary file that parses to a
    structure whose [items] is not an array: with no backup at all,
    [initialize] throws, the rejected structure stays in [this.database],
    and the following [listFoodItems({})] throws as well. *)
Lemma initialize_rejects_non_array_items :
  (initialize
     (constructed (disk (Some (Json envelope_without_array)) None no_faults)
        (ticking t0))).1
  = Thrown (DatabaseError "Database initialization failed"
              (Some (DatabaseError "Failed to load database"
                       (Some (PlainError "Invalid database structure")))))
  ∧ isArray (get "items" envelope_without_array) = false
  ∧ unreadable backupPath (disk (Some (Json envelope_without_array)) None no_faults)
    = true
  ∧ (listFoodItems ListFoodItemsRequest.empty
       (initialize
          (constructed (disk (Some (Json envelope_without_array)) None no_faults)
             (ticking t0))).2).1
    = Thrown (TypeError "this.database.items is not an array").
Proof. split_and!; reflexivity. Qed.

Lemma initialize_starts_empty_witness :
  ∃ s',
    initialize (constructed (disk (Some (Malformed "{oops")) None no_faults) (ticking t0))
    = (Returned (), s')
    ∧ (∃ stamp, database s'
                = Loaded {| FridgeDatabase.items := [];
                            FridgeDatabase.lastModified := stamp;
                            FridgeDatabase.version := VStr "1.0.0" |})
    ∧ dataFile (fs s') = Some (Json (view (database s')))
    ∧ ∃ s'', listFoodItems ListFoodItemsRequest.empty s' = (Returned [], s'').
Proof.
  apply (initialize_starts_empty
           (constructed (disk (Some (Malformed "{oops")) None no_faults) (ticking t0)));
    reflexivity.
Defined.

(** C3, the statement as given fails for the repair-on-read save: the
    primary is malformed and the backup holds a good envelope; after
    [initialize] the backup holds the malformed text, which no load ever
    accepted, and the good envelope is in the primary only. *)
Lemma repair_on_read_overwrites_backup :
  accepted_envelope (Json (FridgeDatabase.to_value (fridge [milk; eggs]))) = true
  ∧ (initialize
       (constructed
          (disk (Some (Malformed "{oops"))
             (Some (Json (FridgeDatabase.to_value (fridge [milk; eggs])))) no_faults)
          (ticking t0))).1
    = Returned ()
  ∧ backupFile
      (fs (initialize
             (constructed
                (disk (Some (Malformed "{oops"))
                   (Some (Json (FridgeDatabase.to_value (fridge [milk; eggs]))))
                   no_faults)
                (ticking t0))).2)
    = Some (Malformed "{oops")
  ∧ accepted_envelope (Malformed "{oops") = false.
Proof. split_and!; reflexivity. Qed.

Lemma saveDatabase_backs_up_primary_witness :
  (∀ c, Some (Malformed "{oops") = Some c →
        no_faults sys_access = false →
        no_faults sys_copyFile = false →
        backupFile
          (fs (saveDatabase
                 (serving (disk (Some (Malformed "{oops")) None no_faults) (ticking t0)
                    (fridge [milk]))).2)
        = Some c)
  ∧ (Some (Malformed "{oops") = None →
     backupFile
       (fs (saveDatabase
              (serving (disk (Some (Malformed "{oops")) None no_faults) (ticking t0)
                 (fridge [milk]))).2)
     = None)
  ∧ ((saveDatabase
        (serving (disk (Some (Malformed "{oops")) None no_faults) (ticking t0)
           (fridge [milk]))).1
     = Returned () →
     dataFile
       (fs (saveDatabase
              (serving (disk (Some (Malformed "{oops")) None no_faults) (ticking t0)
                 (fridge [milk]))).2)
     = Some (Json (view (database
                           (saveDatabase
                              (serving (disk (Some (Malformed "{oops")) None no_faults)
                                 (ticking t0) (fridge [milk]))).2)))).
Proof.
  apply (saveDatabase_backs_up_primary
           (serving (disk (Some (Malformed "{oops")) None no_faults) (ticking t0)
              (fridge [milk]))
           (saveDatabase
              (serving (disk (Some (Malformed "{oops")) None no_faults) (ticking t0)
                 (fridge [milk]))).1
           (saveDatabase
              (serving (disk (Some (Malformed "{oops")) None no_faults) (ticking t0)
                 (fridge [milk]))).2); reflexivity.
Defined.

Lemma loadDatabase_keeps_valid_items_witness :
  (∀ db,
     database
       (loadDatabase
          (constructed (disk (Some (Json envelope_with_corrupt_record)) None no_faults)
             (ticking t0))).2
     = Loaded db →
     Forall valid_item (FridgeDatabase.items db))
  ∧ items_of
      (database
         (loadDatabase
            (constructed (disk (Some (Json envelope_with_corrupt_record)) None no_faults)
               (ticking t0))).2)
    = Some (omap passes_FoodItemSchema
              [FoodItem.to_value milk; corrupt_record; FoodItem.to_value eggs]).
Proof.
  destruct (loadDatabase_keeps_valid_items
              (constructed (disk (Some (Json envelope_with_corrupt_record)) None no_faults)
                 (ticking t0))
              (loadDatabase
                 (constructed
                    (disk (Some (Json envelope_with_corrupt_record)) None no_faults)
                    (ticking t0))).1
              (loadDatabase
                 (constructed
                    (disk (Some (Json envelope_with_corrupt_record)) None no_faults)
                    (ticking t0))).2)
    as [Hvalid Hkept]; [reflexivity|].
  split; [exact Hvalid|].
  apply (Hkept envelope_with_corrupt_record
           [FoodItem.to_value milk; corrupt_record; FoodItem.to_value eggs]);
    reflexivity.
Defined.

(** A backup that parses but has no [items]: the save after the fallback
    writes it over the primary and then throws on [items.length], so the
    load goes on to the empty envelope and [initialize] returns. *)
Example initialize_backup_without_items :
  (initialize
     (constructed (disk (Some (Malformed "{oops"))
                     (Some (Json (VObj [("version", VStr "1.0.0")]))) no_faults)
        (frozen t0))).1
  = Returned ()
  ∧ items_of
      (database
         (initialize
            (constructed (disk (Some (Malformed "{oops"))
                            (Some (Json (VObj [("version", VStr "1.0.0")]))) no_faults)
               (frozen t0))).2)
    = Some []
  ∧ (saveDatabase
       (with_database (Unchecked (VObj [("version", VStr "1.0.0")]))
          (constructed (disk None None no_faults) (frozen t0)))).1
    = Thrown (DatabaseError "Failed to save database"
                (Some (TypeError "Cannot read properties of undefined (reading 'length')"))).
Proof. split_and!; vm_compute; reflexivity. Qed.

(** The corrupt record is dropped, its neighbours are kept as they are,
    and the load returns. *)
Example loadDatabase_drops_corrupt_record :
  (loadDatabase
     (constructed (disk (Some (Json envelope_with_corrupt_record)) None no_faults)
        (ticking t0))).1
  = Returned ()
  ∧ items_of
      (database
         (loadDatabase
            (constructed (disk (Some (Json envelope_with_corrupt_record)) None no_faults)
               (ticking t0))).2)
    = Some [milk; eggs]
  ∧ passes_FoodItemSchema corrupt_record = None.
Proof. split_and!; reflexivity. Qed.

(** ** Further properties at sample data *)

Lemma errors_of_initialized_store_witness :
  (∃ stats, (getStats stocked).1 = Returned stats)
  ∧ ∀ request e,
      (addFoodItem request stocked).1 = Thrown e →
      ∃ cause, e = DatabaseError "Failed to add food item" (Some cause).
Proof.
  destruct (errors_of_initialized_store stocked (fridge [milk; eggs; rice]))
    as (_ & Hstats & _ & _ & _ & Hadd); [reflexivity|].
  split; [exact Hstats|exact Hadd].
Defined.

Lemma addFoodItem_stores_the_record_witness :
  ∃ s',
    addFoodItem request_butter stocked
    = (Returned (stamped request_butter stocked), s')
    ∧ items_of (database s')
      = Some ([milk; eggs; rice] ++ [stamped request_butter stocked]).
Proof.
  destruct (addFoodItem_stores_the_record request_butter stocked
              (fridge [milk; eggs; rice]))
    as (s' & Hrun & _ & _ & _ & _ & _ & _ & _ & Hitems & _);
    [reflexivity|vm_compute; reflexivity..|].
  exists s'. split; [exact Hrun|exact Hitems].
Defined.

Lemma session_keeps_items_valid_witness :
  store_valid
    (session [Initialize; AddFoodItem request_butter; AddFoodItem request_quantity_0]
       (constructed (disk None None no_faults) (frozen t0)))
  ∧ ∃ db result,
      database
        (session [Initialize; AddFoodItem request_butter; AddFoodItem request_quantity_0]
           (constructed (disk None None no_faults) (frozen t0)))
      = Loaded db
      ∧ FridgeDatabase.items db
        = [stamped request_butter
             (initialize (constructed (disk None None no_faults) (frozen t0))).2]
      ∧ (listFoodItems ListFoodItemsRequest.empty
           (session [Initialize; AddFoodItem request_butter;
                     AddFoodItem request_quantity_0]
              (constructed (disk None None no_faults) (frozen t0)))).1
        = Returned result
      ∧ result ⊆ FridgeDatabase.items db
      ∧ Forall valid_item result.
Proof.
  destruct (session_keeps_items_valid
              [Initialize; AddFoodItem request_butter; AddFoodItem request_quantity_0]
              (constructed (disk None None no_faults) (frozen t0)))
    as [Hvalid Hlist].
  { intros l Hl. discriminate Hl. }
  split; [exact Hvalid|].
  assert (Hdb : ∃ db,
    database
      (session [Initialize; AddFoodItem request_butter; AddFoodItem request_quantity_0]
         (constructed (disk None None no_faults) (frozen t0)))
    = Loaded db
    ∧ FridgeDatabase.items db
      = [stamped request_butter
           (initialize (constructed (disk None None no_faults) (frozen t0))).2]).
  { vm_compute. eexists. split; reflexivity. }
  destruct Hdb as (db & Hdb & Hitems).
  destruct (Hlist db ListFoodItemsRequest.empty Hdb) as (result & Hrun & Hsub & Hall).
  exists db, result. split_and!; assumption.
Defined.

Lemma saveDatabase_failure_keeps_primary_witness :
  dataFile
    (fs (saveDatabase
           (serving (disk (Some (Json (FridgeDatabase.to_value (fridge [milk])))) None
                       rename_fails)
              (frozen t0) (fridge [milk; eggs]))).2)
  = Some (Json (FridgeDatabase.to_value (fridge [milk])))
  ∧ tempFile
      (fs (saveDatabase
             (serving (disk (Some (Json (FridgeDatabase.to_value (fridge [milk])))) None
                         rename_fails)
                (frozen t0) (fridge [milk; eggs]))).2)
    = Some (Json (view (database
                          (saveDatabase
                             (serving
                                (disk (Some (Json (FridgeDatabase.to_value (fridge [milk]))))
                                   None rename_fails)
                                (frozen t0) (fridge [milk; eggs]))).2))).
Proof.
  destruct (saveDatabase_failure_keeps_primary
              (serving (disk (Some (Json (FridgeDatabase.to_value (fridge [milk])))) None
                          rename_fails)
                 (frozen t0) (fridge [milk; eggs]))
              (fridge [milk; eggs])
              (DatabaseError "Failed to save database" (Some (SystemError "EIO")))
              (saveDatabase
                 (serving (disk (Some (Json (FridgeDatabase.to_value (fridge [milk]))))
                             None rename_fails)
                    (frozen t0) (fridge [milk; eggs]))).2)
    as (_ & _ & Hd & _ & Ht); [reflexivity|vm_compute; reflexivity|].
  split; [exact Hd|exact Ht].
Defined.

Lemma initialize_reads_back_what_was_saved_witness :
  initialize (constructed (fs (saveDatabase stocked).2) (frozen t0))
  = (Returned (),
     with_database (database (saveDatabase stocked).2)
       (constructed (fs (saveDatabase stocked).2) (frozen t0))).
Proof.
  destruct (initialize_reads_back_what_was_saved stocked (fridge [milk; eggs; rice])
              (saveDatabase stocked).2
              (constructed (fs (saveDatabase stocked).2) (frozen t0)))
    as [Hinit _]; [| | | | | | |exact Hinit].
  - reflexivity.
  - repeat (constructor; [vm_compute; reflexivity|]). constructor.
  - reflexivity.
  - vm_compute; reflexivity.
  - reflexivity.
  - vm_compute; reflexivity.
  - vm_compute; reflexivity.
Defined.

Lemma initialize_restores_from_backup_witness :
  ∃ s' file,
    initialize
      (constructed (disk (Some (Malformed "{oops"))
                      (Some (Json envelope_with_corrupt_record)) no_faults)
         (frozen t0))
    = (Returned (), s')
    ∧ items_of (database s')
      = Some (omap passes_FoodItemSchema
                [FoodItem.to_value milk; corrupt_record; FoodItem.to_value eggs])
    ∧ dataFile (fs s') = Some (Json file)
    ∧ get "items" file
      = VArr [FoodItem.to_value milk; corrupt_record; FoodItem.to_value eggs]
    ∧ get "version" file = get "version" envelope_with_corrupt_record.
Proof.
  apply (initialize_restores_from_backup
           (constructed (disk (Some (Malformed "{oops"))
                           (Some (Json envelope_with_corrupt_record)) no_faults)
              (frozen t0))
           envelope_with_corrupt_record
           [FoodItem.to_value milk; corrupt_record; FoodItem.to_value eggs]);
    reflexivity.
Defined.

Lemma initialize_reads_primary_witness :
  initialize
    (constructed (disk (Some (Json envelope_with_corrupt_record)) None no_faults)
       (frozen t0))
  = (Returned (),
     with_database (Loaded (filtered envelope_with_corrupt_record))
       (constructed (disk (Some (Json envelope_with_corrupt_record)) None no_faults)
          (frozen t0))).
Proof.
  destruct (initialize_reads_primary
              (constructed (disk (Some (Json envelope_with_corrupt_record)) None no_faults)
                 (frozen t0))
              envelope_with_corrupt_record
              [FoodItem.to_value milk; corrupt_record; FoodItem.to_value eggs])
    as [Hversion _]; [reflexivity..|].
  apply Hversion. reflexivity.
Defined.

Lemma initialize_outcome_witness :
  ∃ db,
    database (initialize (constructed (disk None None no_faults) (frozen t0))).2
    = Loaded db
    ∧ Forall valid_item (FridgeDatabase.items db)
    ∧ truthy (FridgeDatabase.version db) = true.
Proof.
  destruct (initialize_outcome
              (constructed (disk None None no_faults) (frozen t0))
              (initialize (constructed (disk None None no_faults) (frozen t0))).1
              (initialize (constructed (disk None None no_faults) (frozen t0))).2)
    as [Hreturned _]; [vm_compute; reflexivity|].
  apply Hreturned. vm_compute. reflexivity.
Defined.

(** The comparison of the reference platform is a consistent one. *)
Lemma Reference_compare_trans a b c :
  String.compare a b ≠ Gt → String.compare b c ≠ Gt → String.compare a c ≠ Gt.
Proof.
  revert b c. induction a as [|x a IH]; intros [|y b] [|z c]; simpl; try done.
  unfold Ascii.compare.
  destruct (N.compare_spec (N_of_ascii x) (N_of_ascii y)) as [Exy|Lxy|Gxy];
    destruct (N.compare_spec (N_of_ascii y) (N_of_ascii z)) as [Eyz|Lyz|Gyz];
    destruct (N.compare_spec (N_of_ascii x) (N_of_ascii z)) as [Exz|Lxz|Gxz];
    try done; try lia.
  apply IH.
Qed.

Lemma Reference_localeCompare_consistent :
  (∀ a b, (0 < localeCompare a b)%Z → (localeCompare b a <= 0)%Z)
  ∧ (∀ a b c, (localeCompare a b <= 0)%Z → (localeCompare b c <= 0)%Z →
              (localeCompare a c <= 0)%Z).
Proof.
  simpl. unfold Reference.localeCompare. split.
  - intros a b. rewrite (String.compare_antisym a b).
    by destruct (String.compare b a).
  - intros a b c Hab Hbc.
    pose proof (Reference_compare_trans a b c) as Htrans.
    destruct (String.compare a b); [| |lia];
      (destruct (String.compare b c); [| |lia]);
      (destruct (String.compare a c); [lia|lia|]);
      by destruct Htrans.
Qed.

Lemma listFoodItems_in_name_order_witness :
  ∃ result s',
    listFoodItems ListFoodItemsRequest.empty stocked = (Returned result, s')
    ∧ in_order (λ a b, localeCompare (FoodItem.name a) (FoodItem.name b)) result.
Proof.
  apply (listFoodItems_in_name_order ListFoodItemsRequest.empty stocked
           (fridge [milk; eggs; rice])).
  - apply Reference_localeCompare_consistent.
  - apply Reference_localeCompare_consistent.
  - reflexivity.
Defined.

Lemma listFoodItems_without_expiry_witness :
  ∃ result,
    listFoodItems (request_category "DAIRY") stocked = (Returned result, stocked)
    ∧ result ≡ₚ List.filter (matches_filters (request_category "DAIRY"))
                  [milk; eggs; rice].
Proof.
  destruct (listFoodItems_without_expiry (request_category "DAIRY") stocked
              (fridge [milk; eggs; rice]))
    as (result & Hrun & Hperm & _); [reflexivity..|].
  exists result. split; [exact Hrun|exact Hperm].
Defined.

Lemma updateFoodItem_then_getFoodItemById_witness :
  getFoodItemById (FoodItem.id milk)
    (updateFoodItem (FoodItem.id milk) payload_overriding_identity stocked).2
  = (Returned (merged milk payload_overriding_identity (toISOString t0)),
     (updateFoodItem (FoodItem.id milk) payload_overriding_identity stocked).2).
Proof.
  apply (updateFoodItem_then_getFoodItemById (FoodItem.id milk)
           payload_overriding_identity stocked).
  vm_compute. reflexivity.
Defined.

Lemma addFoodItem_then_getFoodItemById_witness :
  getFoodItemById
    (FoodItem.id
       (stamped request_butter
          (serving (disk None None no_faults) (frozen t0) (fridge [milk; eggs]))))
    (addFoodItem request_butter
       (serving (disk None None no_faults) (frozen t0) (fridge [milk; eggs]))).2
  = (Returned
       (stamped request_butter
          (serving (disk None None no_faults) (frozen t0) (fridge [milk; eggs]))),
     (addFoodItem request_butter
        (serving (disk None None no_faults) (frozen t0) (fridge [milk; eggs]))).2).
Proof.
  apply (addFoodItem_then_getFoodItemById request_butter
           (serving (disk None None no_faults) (frozen t0) (fridge [milk; eggs]))).
  - vm_compute. reflexivity.
  - intros l other [= <-] Hin Heq.
    rewrite !elem_of_cons, elem_of_nil in Hin.
    destruct Hin as [->|[->|[]]]; vm_compute in Heq; discriminate Heq.
Defined.

Lemma removeFoodItem_then_getFoodItemById_witness :
  FoodItem.id milk = FoodItem.id milk
  ∧ getFoodItemById (FoodItem.id milk)
      (removeFoodItem (Some (FoodItem.id milk)) None stocked).2
    = (Thrown (NotFoundError ("Food item not found with id: " +:+ FoodItem.id milk)),
       (removeFoodItem (Some (FoodItem.id milk)) None stocked).2).
Proof.
  apply (removeFoodItem_then_getFoodItemById (FoodItem.id milk) stocked milk
           (removeFoodItem (Some (FoodItem.id milk)) None stocked).2
           [milk; eggs; rice]).
  - vm_compute. reflexivity.
  - reflexivity.
  - refine (bool_decide_unpack _ _). vm_compute. exact I.
Defined.

Lemma getStats_counts_witness :
  ∃ stats s',
    getStats (serving (disk None None no_faults) (frozen t0) (fridge [milk; eggs; rice]))
    = (Returned stats, s')
    ∧ Stats.totalItems stats = length [milk; eggs; rice]
    ∧ NoDup (Stats.categories stats)
    ∧ Stats.expiringCount stats
      = length (List.filter (expires_within t0 7) [milk; eggs; rice]).
Proof.
  destruct (getStats_counts
              (serving (disk None None no_faults) (frozen t0) (fridge [milk; eggs; rice]))
              (fridge [milk; eggs; rice]) t0)
    as (stats & s' & Hrun & Htotal & Hcat & _ & _ & _ & Hexp & _);
    [reflexivity|intros n; reflexivity|].
  exists stats, s'. split_and!; [exact Hrun|exact Htotal|exact Hcat|exact Hexp].
Defined.

Lemma clearAllData_empties_witness :
  ∃ s',
    clearAllData stocked = (Returned (), s')
    ∧ database s'
      = Loaded {| FridgeDatabase.items := [];
                  FridgeDatabase.lastModified := VStr (toISOString t0);
                  FridgeDatabase.version := VStr "1.0.0" |}
    ∧ dataFile (fs s') = Some (Json (view (database s')))
    ∧ ∃ s'', listFoodItems ListFoodItemsRequest.empty s' = (Returned [], s'').
Proof.
  destruct (clearAllData_empties stocked (fridge [milk; eggs; rice]))
    as [_ Hwritable]; [reflexivity|].
  apply Hwritable. reflexivity.
Defined.

Lemma updateFoodItem_merges_fields_witness :
  ∃ s',
    updateFoodItem (FoodItem.id milk) (payload_quantity 0) stocked
    = (Returned (merged milk (payload_quantity 0) (toISOString t0)), s')
    ∧ FoodItem.quantity (merged milk (payload_quantity 0) (toISOString t0)) = 0%Z.
Proof.
  destruct (updateFoodItem_merges_fields (FoodItem.id milk) (payload_quantity 0)
              stocked (fridge [milk; eggs; rice]) 0%nat milk)
    as [_ Hquantity]; [reflexivity|vm_compute; reflexivity|].
  apply (Hquantity 0%Z); [reflexivity|lia|vm_compute; reflexivity..].
Defined.

Lemma removeFoodItem_not_rolled_back_witness :
  ∃ cause s',
    removeFoodItem None (Some "EGGS")
      (serving (disk None None read_only) (frozen t0) (fridge [milk; eggs]))
    = (Thrown (DatabaseError "Failed to save database" (Some cause)), s')
    ∧ items_of (database s') = Some (delete 1%nat [milk; eggs])
    ∧ dataFile (fs s') = None.
Proof.
  apply (removeFoodItem_not_rolled_back None (Some "EGGS")
           (serving (disk None None read_only) (frozen t0) (fridge [milk; eggs]))
           (fridge [milk; eggs]) 1%nat eggs);
    vm_compute; reflexivity.
Defined.

Lemma updateFoodItem_not_rolled_back_witness :
  ∃ cause s',
    updateFoodItem (FoodItem.id eggs) (payload_quantity 6)
      (serving (disk None None read_only) (frozen t0) (fridge [milk; eggs]))
    = (Thrown (DatabaseError "Failed to save database" (Some cause)), s')
    ∧ items_of (database s')
      = Some (<[1%nat := merged eggs (payload_quantity 6) (toISOString t0)]>
                [milk; eggs])
    ∧ dataFile (fs s') = None.
Proof.
  apply (updateFoodItem_not_rolled_back (FoodItem.id eggs) (payload_quantity 6)
           (serving (disk None None read_only) (frozen t0) (fridge [milk; eggs]))
           (fridge [milk; eggs]) 1%nat eggs
           (merged eggs (payload_quantity 6) (toISOString t0)));
    vm_compute; reflexivity.
Defined.


Lemma post_api_food_items_never_400_witness :
  ∃ response s',
    post_api_food_items (λ _, "") request_quantity_0 stocked = (Returned response, s')
    ∧ response.1 = 500%Z
    ∧ database s' = database stocked
    ∧ fs s' = fs stocked.
Proof.
  destruct (post_api_food_items_never_400 (λ _, "") request_quantity_0 stocked)
    as (response & s' & Hrun & _ & Hinvalid).
  exists response, s'. split; [exact Hrun|].
  apply Hinvalid. intros Hpasses. vm_compute in Hpasses. discriminate Hpasses.
Defined.

Lemma item_routes_on_initialized_store_witness :
  ∃ response,
    get_api_food_items_id (λ _, "") (FoodItem.id eggs) stocked
    = (Returned response, tick stocked)
    ∧ response.1 = 200%Z
    ∧ ApiResponse.data response.2 = Some eggs.
Proof.
  destruct (item_routes_on_initialized_store (λ _, "") stocked
              (fridge [milk; eggs; rice]) (FoodItem.id eggs))
    as ((response & Hrun & Hfound) & _ & _); [reflexivity|].
  exists response. split; [exact Hrun|exact Hfound].
Defined.

Lemma callTool_addfooditem_validates_witness :
  callTool_addfooditem (λ _, "") request_quantity_0 stocked
  = (inr {| McpError.code := McpError.InvalidParams;
            McpError.message := "Validation failed: Invalid input parameters";
            McpError.data :=
              Some (Some (AddFoodItemRequestSchema [] request_quantity_0)) |},
     stocked).
Proof.
  destruct (callTool_addfooditem_validates (λ _, "") request_quantity_0 stocked)
    as [Hinvalid _].
  apply Hinvalid. intros Hpasses. vm_compute in Hpasses. discriminate Hpasses.
Defined.

Lemma returned_mutation_is_on_disk_witness :
  on_disk (addFoodItem request_butter stocked).2.
Proof.
  destruct (returned_mutation_is_on_disk stocked) as [Hadd _].
  apply (Hadd request_butter (stamped request_butter stocked)).
  vm_compute. reflexivity.
Defined.
